(** * web-pages-to-life: the animation helpers of script.js and the payment
    relay of server.js

  A shallow embedding of the design-bearing functions of the repository:

  - [Script]: [calculateAnimationDuration], [manageAnimationState] and
    [createScopedCounter] of [src/script.js];
  - [Server]: the [POST /pay] handler of [src/server.js].

  JavaScript numbers are IEEE 754 binary64 values, modelled by Rocq's
  primitive floats.  The DOM is an explicit store from element references
  to elements, so that the two reads and the write that
  [manageAnimationState] performs on one element hit the same object.
  Code that can throw returns an [Outcome]. *)

From stdpp Require Import gmap strings list.
From Stdlib Require Import Floats ZArith DecimalString DecimalZ.

#[local] Open Scope string_scope.
#[local] Set Warnings "-register-all".

(** ** JavaScript runtime values shared by both files *)

Module JS.

(** A JavaScript number. *)
Abbreviation number := float (only parsing).

(** An [Error] object, as far as the code reads it. *)
Record Error : Type := mkError { name : string; message : string }.

(** The result of running a piece of code on a state [S]: it returns a
    value or throws, and in both cases leaves a state behind. *)
Inductive Outcome (S A : Type) : Type :=
| Returned (a : A) (s : S)
| Threw (e : Error) (s : S).
#[global] Arguments Returned {S A} a s.
#[global] Arguments Threw {S A} e s.

(** The error of reading property [prop] of [base], which is [null] or
    [undefined]. *)
Definition TypeError_read (base prop : string) : Error :=
  mkError "TypeError"
    ("Cannot read properties of " ++ base ++ " (reading '" ++ prop ++ "')").

End JS.

(** ** src/script.js *)

Module Script.
Import JS.

(** *** The DOM as the script sees it *)

(** [DOMTokenList], the type of [element.classList]: the ordered set of
    class tokens of an element.  The four operations below are the
    browser's, after the DOM Standard; the script only ever passes the
    token ['animating'], which is non-empty and free of white space, so the
    token validation of [add], [remove] and [toggle] never fails and is left
    out. *)
Abbreviation DOMTokenList := (list string) (only parsing).

Definition DOMTokenList_contains (token : string) (l : DOMTokenList) : bool :=
  bool_decide (token ∈ l).

Definition DOMTokenList_add (token : string) (l : DOMTokenList) : DOMTokenList :=
  if DOMTokenList_contains token l then l else (l ++ [token])%list.

Definition DOMTokenList_remove (token : string) (l : DOMTokenList) : DOMTokenList :=
  filter (λ t, t ≠ token) l.

(** [toggle] returns the new presence of the token. *)
Definition DOMTokenList_toggle (token : string) (l : DOMTokenList)
  : bool * DOMTokenList :=
  if DOMTokenList_contains token l
  then (false, DOMTokenList_remove token l)
  else (true, (l ++ [token])%list).

Record Element : Type := mkElement { classList : DOMTokenList }.

(** An element reference.  A reference that the store does not map stands
    for [undefined]. *)
Abbreviation ref := nat (only parsing).

Inductive LogLevel : Type := LevelLog | LevelWarn.

(** One call of a [console] method with its arguments. *)
Record LogEntry : Type := mkLogEntry { level : LogLevel; args : list string }.

Record World : Type := mkWorld {
  dom : gmap nat Element;
  console : list LogEntry
}.

(** Code of the script: a function of the world that returns or throws. *)
Definition Run (A : Type) : Type := World → Outcome World A.

#[global] Instance Run_ret : MRet Run := λ A a w, Returned a w.

#[global] Instance Run_bind : MBind Run := λ A B f m w,
  match m w with
  | Returned a w' => f a w'
  | Threw e w' => Threw e w'
  end.

Definition set_classList (element : ref) (l : DOMTokenList) (w : World) : World :=
  {| dom := <[element := {| classList := l |}]> (dom w); console := console w |}.

(** [element.classList.contains(token)] *)
Definition classList_contains (element : ref) (token : string) : Run bool :=
  λ w, match dom w !! element with
       | Some e => Returned (DOMTokenList_contains token (classList e)) w
       | None => Threw (TypeError_read "undefined" "classList") w
       end.

(** [element.classList.add(token)] *)
Definition classList_add (element : ref) (token : string) : Run unit :=
  λ w, match dom w !! element with
       | Some e => Returned () (set_classList element (DOMTokenList_add token (classList e)) w)
       | None => Threw (TypeError_read "undefined" "classList") w
       end.

(** [element.classList.remove(token)] *)
Definition classList_remove (element : ref) (token : string) : Run unit :=
  λ w, match dom w !! element with
       | Some e => Returned () (set_classList element (DOMTokenList_remove token (classList e)) w)
       | None => Threw (TypeError_read "undefined" "classList") w
       end.

(** [element.classList.toggle(token)] *)
Definition classList_toggle (element : ref) (token : string) : Run bool :=
  λ w, match dom w !! element with
       | Some e =>
           let '(present, l) := DOMTokenList_toggle token (classList e) in
           Returned present (set_classList element l w)
       | None => Threw (TypeError_read "undefined" "classList") w
       end.

(** [console.warn(...args)] *)
Definition console_warn (arguments : list string) : Run unit :=
  λ w, Returned () {| dom := dom w; console := (console w ++ [mkLogEntry LevelWarn arguments])%list |}.

(** *** manageAnimationState (script.js:99-128) *)

Record AnimationStateResult : Type := mkResult {
  success : bool;
  newState : bool;
  element : ref
}.

Definition manageAnimationState (element : ref) (action : string)
  : Run AnimationStateResult :=
  currentState ← classList_contains element "animating";
  let result := false in
  result ← (if String.eqb action "start" then
              classList_add element "animating";;
              mret true
            else if String.eqb action "stop" then
              classList_remove element "animating";;
              mret true
            else if String.eqb action "toggle" then
              classList_toggle element "animating";;
              mret (negb currentState)
            else
              console_warn ["Invalid animation action:"; action];;
              mret result);
  newState ← classList_contains element "animating";
  mret {| success := result; newState := newState; element := element |}.

(** The class state of an element: whether it carries ['animating']. *)
Definition animating (w : World) (element : ref) : bool :=
  match dom w !! element with
  | Some e => DOMTokenList_contains "animating" (classList e)
  | None => false
  end.

(** Running the same code [n] times in a row, as a caller that repeats a
    call does. *)
Fixpoint times {A : Type} (n : nat) (m : Run A) : Run unit :=
  match n with
  | O => mret ()
  | S n => m;; times n m
  end.

(** A page with two elements, one of them animating, and an empty console. *)
Definition sample_page : World :=
  {| dom := {[ 1 := {| classList := ["box"; "animating"] |};
               2 := {| classList := ["answer"] |} ]};
     console := [] |}.

(** *** calculateAnimationDuration (script.js:42-50) *)

#[local] Open Scope float_scope.

Definition calculateAnimationDuration
  (baseDuration speedMultiplier elementSize : number) : number :=
  let sizeFactor := elementSize / 100 in
  let adjustedDuration := baseDuration * speedMultiplier * sizeFactor in
  adjustedDuration.

(** The contract of the duration calculator as the specification words it,
    [base * multiplier * (size / 100)], read as a JavaScript expression. *)
Definition duration_contract (base multiplier size : number) : number :=
  base * multiplier * (size / 100).

(** *** createScopedCounter (script.js:138-162) *)

(** The scope that the four returned functions close over: the parameter
    [initialValue] and the variable [count].  Nothing else can reach it. *)
Record CounterScope : Type := mkCounterScope {
  initialValue : number;
  count : number
}.

(** A method of the counter: it reads and writes the scope and returns a
    number. *)
Definition Method : Type := CounterScope → number * CounterScope.

(** An omitted argument takes the parameter's default. *)
Definition createScopedCounter (initialValue : option number) : CounterScope :=
  let initialValue := default 0 initialValue in
  {| initialValue := initialValue; count := initialValue |}.

Definition assign_count (v : number) (c : CounterScope) : CounterScope :=
  {| initialValue := initialValue c; count := v |}.

Definition increment (step : option number) : Method := λ c,
  let step := default 1 step in
  let c := assign_count (count c + step) c in
  (count c, c).

Definition decrement (step : option number) : Method := λ c,
  let step := default 1 step in
  let c := assign_count (count c - step) c in
  (count c, c).

Definition reset : Method := λ c,
  let c := assign_count (initialValue c) c in
  (count c, c).

Definition getValue : Method := λ c,
  (count c, c).

(** What a holder of the counter can do with it: call one of its four
    methods, with or without the optional argument. *)
Inductive Call : Type :=
| CallIncrement (step : option number)
| CallDecrement (step : option number)
| CallReset
| CallGetValue.

Definition method_of (c : Call) : Method :=
  match c with
  | CallIncrement step => increment step
  | CallDecrement step => decrement step
  | CallReset => reset
  | CallGetValue => getValue
  end.

(** The scope after a sequence of calls, the first call first. *)
Fixpoint after_calls (calls : list Call) (c : CounterScope) : CounterScope :=
  match calls with
  | [] => c
  | call :: rest => after_calls rest (snd (method_of call c))
  end.

End Script.

(** ** src/server.js *)

Module Server.
Import JS.

(** *** Values that travel as JSON *)

Inductive value : Type :=
| VUndefined
| VNull
| VBoolean (b : bool)
| VNumber (n : number)
| VString (s : string)
| VArray (items : list value)
| VObject (props : list (string * value)).

(** The own property [key] of an object with the properties [props], in
    the order they were defined; [undefined] when there is none. *)
Fixpoint own_property (props : list (string * value)) (key : string) : value :=
  match props with
  | [] => VUndefined
  | (k, v) :: rest => if String.eqb k key then v else own_property rest key
  end.

(** [v.key], for a key that no built-in prototype defines (the handler reads
    [amount], [email] and [name]): reading a property of [undefined] or
    [null] throws, a primitive or an array has no such property. *)
Definition get (v : value) (key : string) : Error + value :=
  match v with
  | VUndefined => inl (TypeError_read "undefined" key)
  | VNull => inl (TypeError_read "null" key)
  | VObject props => inr (own_property props key)
  | VBoolean _ | VNumber _ | VString _ | VArray _ => inr VUndefined
  end.

(** Sequencing of code that can throw. *)
Definition and_then {A B : Type} (m : Error + A) (k : A → Error + B) : Error + B :=
  match m with
  | inl error => inl error
  | inr a => k a
  end.

(** [Date.now()] is a whole number of milliseconds, and the [toString()] of
    a whole number of that size is its decimal numeral. *)
Definition Number_toString (n : Z) : string :=
  NilZero.string_of_int (Z.to_int n).

(** *** Express and axios, as far as the handler uses them *)

Record Request : Type := mkRequest { body : value }.

(** The response object [res]: the status code set so far and the body
    sent, if any. *)
Record Response : Type := mkResponse { statusCode : Z; sent : option value }.

(** A response object as Express hands it to a handler. *)
Definition new_response : Response := {| statusCode := 200; sent := None |}.

(** [res.status(code)] *)
Definition res_status (code : Z) (res : Response) : Response :=
  {| statusCode := code; sent := sent res |}.

(** [res.json(v)] *)
Definition res_json (v : value) (res : Response) : Response :=
  {| statusCode := statusCode res; sent := Some v |}.

(** [process.env] *)
Record Env : Type := mkEnv { FLW_SECRET_KEY : option string; PORT : option string }.

(** A template literal prints an unset variable as [undefined]. *)
Definition interpolate (v : option string) : string := default "undefined" v.

Record AxiosRequestConfig : Type := mkConfig { headers : list (string * string) }.

Record AxiosResponse : Type := mkAxiosResponse { data : value; status : Z }.

(** The promise [axios.post] returns, once settled: axios rejects on a
    network error, on a timeout and on a status outside 2xx. *)
Inductive Settled : Type :=
| Resolved (response : AxiosResponse)
| Rejected (error : Error).

Section Handler.

(** The upstream service behind [axios.post(url, data, config)]. *)
Variable axios_post : string → value → AxiosRequestConfig → Settled.

(** *** app.post("/pay", ...) (server.js:14-40) *)

(** The second argument of [axios.post], evaluated at the time [now]. *)
Definition pay_request_body (now : Z) (req : Request) : Error + value :=
  let tx_ref := Number_toString now in
  and_then (get (body req) "amount") (λ amount,
  and_then (get (body req) "email") (λ email,
  and_then (get (body req) "name") (λ name,
  inr (VObject [
    ("tx_ref", VString tx_ref);
    ("amount", amount);
    ("currency", VString "KES");
    ("redirect_url", VString "https://your-site.com/callback");
    ("customer", VObject [("email", email); ("name", name)]);
    ("payment_options", VString "card,mpesa,ussd")])))).

Definition pay_request_config (env : Env) : AxiosRequestConfig :=
  {| headers := [("Authorization", "Bearer " ++ interpolate (FLW_SECRET_KEY env))] |}.

Definition pay (now : Z) (env : Env) (req : Request) (res : Response) : Response :=
  let try : Error + Response :=
    and_then (pay_request_body now req) (λ payload,
      match axios_post "https://api.flutterwave.com/v3/payments" payload
                       (pay_request_config env) with
      | Resolved response => inr (res_json (data response) res)
      | Rejected error => inl error
      end) in
  match try with
  | inr res => res
  | inl error =>
      res_json (VObject [("error", VString (message error))]) (res_status 500 res)
  end.

End Handler.

(** A well-formed payment request. *)
Definition sample_request : Request :=
  {| body := VObject [("amount", VNumber 1500);
                      ("email", VString "ann@example.com");
                      ("name", VString "Ann")] |}.

(** An upstream that accepts every payment with the same answer. *)
Definition upstream_accepting : string → value → AxiosRequestConfig → Settled :=
  λ _ _ _, Resolved {| data := VObject [("status", VString "success")]; status := 200 |}.

(** An upstream that turns every request down, as axios reports a 401. *)
Definition upstream_rejecting : string → value → AxiosRequestConfig → Settled :=
  λ _ _ _, Rejected (mkError "AxiosError" "Request failed with status code 401").

(** An upstream that answers with the request body it was sent. *)
Definition upstream_echo : string → value → AxiosRequestConfig → Settled :=
  λ _ payload _, Resolved {| data := payload; status := 200 |}.

End Server.

(** ** Callers of [manageAnimationState] in src/script.js *)

Module Callers.
Import JS Script.

(** Whether an element carries a class token; [false] for a reference that
    is no element. *)
Definition has_class (w : World) (element : ref) (token : string) : bool :=
  match dom w !! element with
  | Some e => DOMTokenList_contains token (classList e)
  | None => false
  end.

(** The three actions that [manageAnimationState] has a case for. *)
Definition known_action (action : string) : bool :=
  String.eqb action "start" || String.eqb action "stop" || String.eqb action "toggle".

(** A caller that makes one call after the other on the same element. *)
Fixpoint manage_each (element : ref) (actions : list string) : Run unit :=
  match actions with
  | [] => mret ()
  | action :: rest => manageAnimationState element action;; manage_each element rest
  end.

(** A page whose second element was never animated, and a reference, 3,
    that is no element of it. *)
Definition quiet_page : World :=
  {| dom := {[ 1 := {| classList := ["box"; "glow"] |};
               2 := {| classList := ["answer"; "active"] |} ]};
     console := [] |}.

End Callers.

(** ** Requests a client of src/server.js can send *)

Module Clients.
Import JS Server.

(** A request whose body was not parsed. *)
Definition bare_request : Request := {| body := VUndefined |}.

(** The sample request with fields of its own for the currency and the
    transaction reference. *)
Definition padded_request : Request :=
  {| body := VObject [("tx_ref", VString "mine");
                      ("amount", VNumber 1500);
                      ("currency", VString "USD");
                      ("email", VString "ann@example.com");
                      ("name", VString "Ann")] |}.

(** A request that names no amount and no name. *)
Definition partial_request : Request :=
  {| body := VObject [("email", VString "ann@example.com")] |}.

(** A request whose body is a JSON array. *)
Definition array_request : Request :=
  {| body := VArray [VNumber 1500; VString "ann@example.com"] |}.

End Clients.

(** ** Strings and regular expressions of src/script.js *)

Module Text.
Import Stdlib.Strings.Ascii.

#[local] Open Scope list_scope.
#[local] Open Scope N_scope.

(** A JavaScript string is a sequence of UTF-16 code units.  A regular
    expression without the [u] flag, [trim] and [length] all work on code
    units. *)
Abbreviation code_unit := N (only parsing).
Abbreviation jsstring := (list N) (only parsing).

(** The code unit of an ASCII character, and the string of an ASCII
    literal. *)
Definition unit_of (a : Ascii.ascii) : code_unit := Ascii.N_of_ascii a.

Definition units (s : string) : jsstring := map unit_of (String.list_ascii_of_string s).

(** [WhiteSpace] and [LineTerminator] of ECMAScript: what [\s] matches and
    what [trim] strips. *)
Definition is_space (c : code_unit) : bool :=
  (9 <=? c) && (c <=? 13)            (* TAB, LF, VT, FF, CR *)
  || (c =? 32)                       (* SPACE *)
  || (c =? 160)                      (* NO-BREAK SPACE *)
  || (c =? 5760)                     (* U+1680 *)
  || (8192 <=? c) && (c <=? 8202)    (* U+2000 .. U+200A *)
  || (c =? 8232) || (c =? 8233)      (* U+2028, U+2029 *)
  || (c =? 8239)                     (* U+202F *)
  || (c =? 8287)                     (* U+205F *)
  || (c =? 12288)                    (* U+3000 *)
  || (c =? 65279).                   (* U+FEFF *)

(** *** Regular expressions *)

(** A member of a character class. *)
Inductive ClassItem : Type :=
| ClassSpace               (* \s *)
| ClassUnit (c : code_unit).

Definition item_has (item : ClassItem) (c : code_unit) : bool :=
  match item with
  | ClassSpace => is_space c
  | ClassUnit c' => c =? c'
  end.

Definition class_has (items : list ClassItem) (c : code_unit) : bool :=
  existsb (λ item, item_has item c) items.

(** Patterns.  [Fail] and [Eps] and [Alt] are not written in the script;
    they arise as derivatives. *)
Inductive Pattern : Type :=
| Fail
| Eps
| Lit (c : code_unit)                (* a literal or escaped character *)
| NoneOf (items : list ClassItem)    (* [^...] *)
| Seq (p q : Pattern)
| Alt (p q : Pattern)
| Star (p : Pattern).

(** [p+] *)
Definition Plus (p : Pattern) : Pattern := Seq p (Star p).

(** When a string matches a pattern from its first to its last code unit. *)
Inductive Matches : Pattern → jsstring → Prop :=
| Matches_Eps : Matches Eps []
| Matches_Lit c : Matches (Lit c) [c]
| Matches_NoneOf items c : class_has items c = false → Matches (NoneOf items) [c]
| Matches_Seq p q s t : Matches p s → Matches q t → Matches (Seq p q) (s ++ t)
| Matches_Alt_l p q s : Matches p s → Matches (Alt p q) s
| Matches_Alt_r p q s : Matches q s → Matches (Alt p q) s
| Matches_Star_nil p : Matches (Star p) []
| Matches_Star_more p s t : Matches p s → Matches (Star p) t → Matches (Star p) (s ++ t).

(** Whether a pattern matches the empty string. *)
Fixpoint nullable (p : Pattern) : bool :=
  match p with
  | Fail => false
  | Eps => true
  | Lit _ => false
  | NoneOf _ => false
  | Seq p q => nullable p && nullable q
  | Alt p q => nullable p || nullable q
  | Star _ => true
  end.

(** What is left to match after the code unit [c]. *)
Fixpoint deriv (c : code_unit) (p : Pattern) : Pattern :=
  match p with
  | Fail => Fail
  | Eps => Fail
  | Lit c' => if c =? c' then Eps else Fail
  | NoneOf items => if class_has items c then Fail else Eps
  | Seq p q =>
      if nullable p then Alt (Seq (deriv c p) q) (deriv c q) else Seq (deriv c p) q
  | Alt p q => Alt (deriv c p) (deriv c q)
  | Star p => Seq (deriv c p) (Star p)
  end.

(** [/^p$/.test(s)] for a regular expression without flags: there is a
    match exactly when the whole of [s] matches [p], whichever order the
    engine tries the alternatives in. *)
Fixpoint test_whole (p : Pattern) (s : jsstring) : bool :=
  match s with
  | [] => nullable p
  | c :: rest => test_whole (deriv c p) rest
  end.

(** *** isValidEmail (script.js:684-688) *)

(** The class [[^\s@]]. *)
Definition not_space_or_at : Pattern := NoneOf [ClassSpace; ClassUnit (unit_of "@"%char)].

(** The pattern of [/^[^\s@]+@[^\s@]+\.[^\s@]+$/] between [^] and [$]. *)
Definition emailRegex : Pattern :=
  Seq (Plus not_space_or_at)
      (Seq (Lit (unit_of "@"%char))
           (Seq (Plus not_space_or_at)
                (Seq (Lit (unit_of "."%char))
                     (Plus not_space_or_at)))).

Definition isValidEmail (email : jsstring) : bool :=
  test_whole emailRegex email.

(** A non-empty run of code units that are neither white space nor [@]. *)
Definition plain (s : jsstring) : Prop :=
  s ≠ [] ∧ Forall (λ c, is_space c = false ∧ c ≠ unit_of "@"%char) s.

(** *** String.prototype.trim *)

Fixpoint trimStart (s : jsstring) : jsstring :=
  match s with
  | [] => []
  | c :: rest => if is_space c then trimStart rest else s
  end.

Definition trimEnd (s : jsstring) : jsstring := rev (trimStart (rev s)).

Definition trim (s : jsstring) : jsstring := trimEnd (trimStart s).

End Text.

(** ** getRandomColor (script.js:26-33) *)

Module Colors.

(** [s[i]]: the one-character string at an index that is a whole number
    within the string, [undefined] otherwise. *)
Definition char_at (s : string) (i : Z) : option string :=
  if (i <? 0)%Z then None
  else match String.get (Z.to_nat i) s with
       | Some c => Some (String c EmptyString)
       | None => None
       end.

(** The string that [+=] appends for a value: [undefined] prints as its
    name. *)
Definition ToString (v : option string) : string := default "undefined" v.

(** The random source of the page.  [draws k] stands for the value of
    [Math.floor(Math.random() * 16)] at the [k]-th call of [Math.random]; as
    [Math.random()] is at least 0 and less than 1, it is a whole number from
    0 to 15. *)
Definition in_range (draws : nat → Z) (first count : nat) : Prop :=
  ∀ k : nat, first ≤ k < first + count → (0 ≤ draws k < 16)%Z.

(** The [for] loop with [iterations] rounds to go, at the call [cursor] of
    the random source. *)
Fixpoint getRandomColor_loop
  (draws : nat → Z) (letters : string) (iterations : nat) (color : string) (cursor : nat)
  : string * nat :=
  match iterations with
  | O => (color, cursor)
  | S iterations =>
      let color := color ++ ToString (char_at letters (draws cursor)) in
      getRandomColor_loop draws letters iterations color (S cursor)
  end.

(** Returns the colour and the number of calls of the random source made so
    far. *)
Definition getRandomColor (draws : nat → Z) (cursor : nat) : string * nat :=
  let letters := "0123456789ABCDEF" in
  let color := "#" in
  getRandomColor_loop draws letters 6 color cursor.

(** A random source that counts up: 10, 11, ..., 15, 0, 1, ... *)
Definition counting_draws (k : nat) : Z := ((Z.of_nat k + 10) mod 16)%Z.

(** One that counts down from 9. *)
Definition falling_draws (k : nat) : Z := ((9 - Z.of_nat k) mod 16)%Z.

End Colors.

(** ** Event handlers of src/script.js that only touch class lists *)

Module Handlers.
Import JS Script Callers.

(** [list.forEach(f)] on a static node list. *)
Fixpoint forEach {A : Type} (l : list A) (f : A → Run unit) : Run unit :=
  match l with
  | [] => mret ()
  | x :: rest => f x;; forEach rest f
  end.

(** [throw] *)
Definition throw {A : Type} (e : Error) : Run A := λ w, Threw e w.

(** *** Timers *)

(** A function passed to [setTimeout], with the variables it closes over.
    The script has two shapes of them that only touch class lists. *)
Inductive Task : Type :=
| RemoveClass (element : ref) (token : string)
    (* () => { element.classList.remove(token); } *)
| RemoveClassAndStop (element : ref) (token : string).
    (* () => { element.classList.remove(token);
               manageAnimationState(element, 'stop'); } *)

(** What the event loop runs when the timer fires. *)
Definition run_task (t : Task) : Run unit :=
  match t with
  | RemoveClass element token =>
      classList_remove element token
  | RemoveClassAndStop element token =>
      classList_remove element token;;
      manageAnimationState element "stop";;
      mret ()
  end.

(** A call of [setTimeout(task, delay)]. *)
Record Timer : Type := mkTimer { task : Task; delay : number }.

(** *** applyGlowEffect (script.js:711-716) *)

(** Returns the timers it has set. *)
Definition applyGlowEffect (element : ref) : Run (list Timer) :=
  classList_add element "glow";;
  mret [ {| task := RemoveClass element "glow"; delay := 1000 |} ].

(** *** The handlers that close the popup (script.js:416-430, 432-446 and
    the body of the [if] at 450-464) *)


(** *** The click handler of a tab button (script.js:524-537) *)

Section Tabs.

(** The two node lists the script takes when the page has loaded
    (script.js:520-521). *)
Variables tabBtns tabPanes : list ref.

(** The [data-tab] attribute of each element, if it has one. *)
Variable data_tab : ref → option string.

(** [document.getElementById]. *)
Variable getElementById : string → option ref.

(** [element.getAttribute('data-tab')]: [null] without the attribute. *)
Definition getAttribute_data_tab (element : ref) : Run (option string) :=
  λ w, match dom w !! element with
       | Some _ => Returned (data_tab element) w
       | None => Threw (TypeError_read "undefined" "getAttribute") w
       end.

(** [this] is the button the listener was added to. *)
Definition tab_click (this : ref) : Run unit :=
  targetTab ← getAttribute_data_tab this;
  forEach tabBtns (λ b, classList_remove b "active");;
  forEach tabPanes (λ p, classList_remove p "active");;
  classList_add this "active";;
  match getElementById (default "null" targetTab) with
  | Some pane => classList_add pane "active"
  | None => throw (TypeError_read "null" "classList")
  end.

End Tabs.

(** *** What a step leaves of a world *)

(** [w'] is [w] but for the presence of the class [token] on [element],
    which is [v]: the same elements, the same console, every other class
    of every element as it was. *)
Definition sets_class (element : ref) (token : string) (v : bool) (w w' : World) : Prop :=
  console w' = console w
  ∧ (∀ x : ref, is_Some (dom w' !! x) ↔ is_Some (dom w !! x))
  ∧ (∀ (x : ref) (tok : string),
       has_class w' x tok
       = if decide (x = element ∧ tok = token) then v else has_class w x tok).

(** A page with three tab buttons (1, 2, 3), their panes (11, 12, 13) and
    a popup (20) that is shown; the second tab is the active one and the
    third button names a pane that does not exist. *)
Definition tabbed_page : World :=
  {| dom := {[ 1 := {| classList := ["tab-btn"] |};
               2 := {| classList := ["tab-btn"; "active"] |};
               3 := {| classList := ["tab-btn"] |};
               11 := {| classList := ["tab-pane"] |};
               12 := {| classList := ["tab-pane"; "active"] |};
               13 := {| classList := ["tab-pane"] |};
               20 := {| classList := ["modal"; "show"; "animating"] |} ]};
     console := [] |}.

Definition tabbed_data_tab (element : ref) : option string :=
  match element with
  | 1 => Some "tab1"
  | 2 => Some "tab2"
  | 3 => Some "tab4"
  | _ => None
  end.

Definition tabbed_getElementById (id : string) : option ref :=
  if String.eqb id "tab1" then Some 11
  else if String.eqb id "tab2" then Some 12
  else if String.eqb id "tab3" then Some 13
  else None.

End Handlers.

(** ** The registration form of src/script.js *)

Module Forms.
Import JS Script Callers Text.

#[local] Open Scope string_scope.

(** *** The page: class lists, text, form controls *)

(** What an element holds between its tags, as the script last wrote it:
    text, through [textContent], or markup, through [innerHTML]. *)
Inductive Content : Type :=
| Plain (text : string)
| Markup (html : string).

(** The world of [Script] together with the other element properties the
    form code reads and writes.  An element is a reference that [dom] maps;
    [content], [value] and [disabled] hold its properties.  An element
    without [content] has no children, one without [value] is no form
    control. *)
Record Page : Type := mkPage {
  world : World;
  content : gmap nat Content;
  value : gmap nat (list N);
  disabled : gmap nat bool
}.

Definition PageRun (A : Type) : Type := Page → Outcome Page A.

#[global] Instance PageRun_ret : MRet PageRun := λ A a p, Returned a p.

#[global] Instance PageRun_bind : MBind PageRun := λ A B f m p,
  match m p with
  | Returned a p' => f a p'
  | Threw e p' => Threw e p'
  end.

Definition with_world (w : World) (p : Page) : Page :=
  {| world := w; content := content p; value := value p; disabled := disabled p |}.

(** Code of [Script] run on the page. *)
Definition lift {A : Type} (m : Run A) : PageRun A := λ p,
  match m (world p) with
  | Returned a w => Returned a (with_world w p)
  | Threw e w => Threw e (with_world w p)
  end.

Definition raise {A : Type} (e : Error) : PageRun A := λ p, Threw e p.

(** Reading and changing the page. *)
Definition read {A : Type} (f : Page → A) : PageRun A := λ p, Returned (f p) p.

Definition change (f : Page → Page) : PageRun unit := λ p, Returned () (f p).

(** The error of writing property [prop] of [base], which is [null] or
    [undefined]. *)
Definition TypeError_set (base prop : string) : Error :=
  mkError "TypeError"
    ("Cannot set properties of " ++ base ++ " (setting '" ++ prop ++ "')").

(** A value that is an element or [null], as [getElementById] and
    [querySelector] return it. *)
Abbreviation element_or_null := (option nat) (only parsing).

(** Reading ([writes = false]) or writing a property of an element: [null]
    has none, and neither has a reference that is no element. *)
Definition element_of (writes : bool) (prop : string) (target : element_or_null)
  : PageRun nat := λ p,
  let error base := if writes then TypeError_set base prop else TypeError_read base prop in
  match target with
  | None => Threw (error "null") p
  | Some el =>
      match dom (world p) !! el with
      | Some _ => Returned el p
      | None => Threw (error "undefined") p
      end
  end.

Section Browser.

(** The text of a piece of markup, as the browser's parser finds it. *)
Variable text_of_markup : string → string.

(** [target.textContent] *)
Definition textContent_get (target : element_or_null) : PageRun string :=
  el ← element_of false "textContent" target;
  read (λ p, match content p !! el with
             | Some (Plain text) => text
             | Some (Markup html) => text_of_markup html
             | None => ""
             end).

(** [target.textContent = text] *)
Definition textContent_set (target : element_or_null) (text : string) : PageRun unit :=
  el ← element_of true "textContent" target;
  change (λ p, {| world := world p; content := <[el := Plain text]> (content p);
                  value := value p; disabled := disabled p |}).

(** [target.innerHTML = html] *)
Definition innerHTML_set (target : element_or_null) (html : string) : PageRun unit :=
  el ← element_of true "innerHTML" target;
  change (λ p, {| world := world p; content := <[el := Markup html]> (content p);
                  value := value p; disabled := disabled p |}).

(** [target.disabled = b] *)
Definition disabled_set (target : element_or_null) (b : bool) : PageRun unit :=
  el ← element_of true "disabled" target;
  change (λ p, {| world := world p; content := content p;
                  value := value p; disabled := <[el := b]> (disabled p) |}).

(** [target.className = 'token'], for a name that is one class token: the
    class list becomes that token alone. *)
Definition className_set (target : element_or_null) (token : string) : PageRun unit :=
  el ← element_of true "className" target;
  change (λ p, with_world (set_classList el [token] (world p)) p).

(** [target.value], the string that a form control holds; [undefined], of
    which every later use in the script throws, for an element that is no
    form control. *)
Definition value_get (target : element_or_null) : PageRun (option (list N)) :=
  el ← element_of false "value" target;
  read (λ p, value p !! el).

(** A method or property of [target.value]. *)
Definition of_string {A : Type} (prop : string) (f : list N → A)
  (v : option (list N)) : PageRun A :=
  match v with
  | Some s => mret (f s)
  | None => raise (TypeError_read "undefined" prop)
  end.

(** [target.classList.add(token)] and [target.classList.remove(token)] *)
Definition add_class (target : element_or_null) (token : string) : PageRun unit :=
  el ← element_of false "classList" target;
  lift (classList_add el token).

Definition remove_class (target : element_or_null) (token : string) : PageRun unit :=
  el ← element_of false "classList" target;
  lift (classList_remove el token).

(** [manageAnimationState(target, action)] *)
Definition manage (target : element_or_null) (action : string) : PageRun AnimationStateResult :=
  el ← element_of false "classList" target;
  lift (manageAnimationState el action).

(** [console.log(...args)], each argument as the console shows it. *)
Definition console_log (arguments : list string) : PageRun unit :=
  change (λ p, with_world
                 {| dom := dom (world p);
                    console := (console (world p)
                                ++ [mkLogEntry LevelLog arguments])%list |} p).

(** *** getComputedAnimationStyles (script.js:78-91) *)

(** [window.getComputedStyle(element)]: the resolved value of each CSS
    property of the element, by the name of the property. *)
Variable getComputedStyle : Page → nat → string → string.

Record AnimationStyles : Type := mkStyles {
  animationName : string;
  animationDuration : string;
  animationTimingFunction : string;
  transform : string;
  opacity : string
}.

Definition getComputedAnimationStyles (target : element_or_null) : PageRun AnimationStyles :=
  el ← match target with
       | Some el => element_of false "animationName" target
       | None =>
           raise (mkError "TypeError"
                    "Failed to execute 'getComputedStyle' on 'Window': parameter 1 is not of type 'Element'.")
       end;
  computedStyles ← read (λ p, getComputedStyle p el);
  mret {| animationName := computedStyles "animationName";
          animationDuration := computedStyles "animationDuration";
          animationTimingFunction := computedStyles "animationTimingFunction";
          transform := computedStyles "transform";
          opacity := computedStyles "opacity" |}.

(** How the console shows such an object. *)
Variable inspect : AnimationStyles → string.

(** *** validateForm (script.js:553-681) *)

(** [document.getElementById], and [form.querySelector(selectors)]. *)
Variable getElementById : string → element_or_null.
Variable querySelector : nat → string → element_or_null.

(** The form, as the script took it from the document when the page had
    loaded (script.js:542), and the global of script.js:3. *)
Variable userForm : element_or_null.
Variable globalAnimationSpeed : number.

(** showError (script.js:578-584) *)
Definition showError (element : element_or_null) (message : string) : PageRun unit :=
  textContent_set element message;;
  add_class element "show";;
  manage element "start";;
  mret ().

(** hideError (script.js:587-593) *)
Definition hideError (element : element_or_null) : PageRun unit :=
  textContent_set element "";;
  remove_class element "show";;
  manage element "stop";;
  mret ().

(** The function that the timer of a valid submission will call
    (script.js:657-669), with the variables it closes over. *)
Record Submission : Type := mkSubmission {
  formFeedback : element_or_null;
  submitButton : element_or_null;
  originalText : string
}.

(** The double quote. *)
Definition dquote : string :=
  String (Ascii.Ascii false true false false false true false false) EmptyString.

(** Name validation (script.js:598-607); returns the new [isValid]. *)
Definition validate_name (name nameError : element_or_null) (isValid : bool) : PageRun bool :=
  v ← value_get name;
  trimmed ← of_string "trim" trim v;
  if bool_decide (trimmed = []) then
    showError nameError "Name is required";;
    mret false
  else
    v ← value_get name;
    trimmed ← of_string "trim" trim v;
    if (length trimmed <? 2)%nat then
      showError nameError "Name must be at least 2 characters";;
      mret false
    else
      hideError nameError;;
      mret isValid.

(** Email validation (script.js:609-618) *)
Definition validate_email (email emailError : element_or_null) (isValid : bool) : PageRun bool :=
  v ← value_get email;
  trimmed ← of_string "trim" trim v;
  if bool_decide (trimmed = []) then
    showError emailError "Email is required";;
    mret false
  else
    v ← value_get email;
    trimmed ← of_string "trim" trim v;
    if negb (isValidEmail trimmed) then
      showError emailError "Please enter a valid email address";;
      mret false
    else
      hideError emailError;;
      mret isValid.

(** Password validation (script.js:620-629) *)
Definition validate_password (password passwordError : element_or_null) (isValid : bool)
  : PageRun bool :=
  v ← value_get password;
  trimmed ← of_string "trim" trim v;
  if bool_decide (trimmed = []) then
    showError passwordError "Password is required";;
    mret false
  else
    v ← value_get password;
    len ← of_string "length" (λ s, length s) v;
    if (len <? 6)%nat then
      showError passwordError "Password must be at least 6 characters";;
      mret false
    else
      hideError passwordError;;
      mret isValid.

(** Confirm password validation (script.js:631-640) *)
Definition validate_confirm (confirmPassword password confirmPasswordError : element_or_null)
  (isValid : bool) : PageRun bool :=
  v ← value_get confirmPassword;
  trimmed ← of_string "trim" trim v;
  if bool_decide (trimmed = []) then
    showError confirmPasswordError "Please confirm your password";;
    mret false
  else
    confirmed ← value_get confirmPassword;
    wanted ← value_get password;
    if negb (bool_decide (confirmed = wanted)) then
      showError confirmPasswordError "Passwords do not match";;
      mret false
    else
      hideError confirmPasswordError;;
      mret isValid.

(** The branch of a valid form (script.js:643-669): sets the timer of the
    simulated submission. *)
Definition submit_form (formFeedback : element_or_null) : PageRun (list (Submission * number)) :=
  form ← element_of false "querySelector" userForm;
  let submitButton :=
    querySelector form ("button[type=" ++ dquote ++ "submit" ++ dquote ++ "]") in
  originalText ← textContent_get submitButton;
  innerHTML_set submitButton
    (originalText ++ " <span class=" ++ dquote ++ "loading" ++ dquote ++ "></span>");;
  disabled_set submitButton true;;
  manage submitButton "start";;
  let submissionDelay := calculateAnimationDuration 2000 globalAnimationSpeed 100 in
  mret [ ({| formFeedback := formFeedback; submitButton := submitButton;
             originalText := originalText |}, submissionDelay) ].

(** The branch of a form with errors (script.js:670-680). *)
Definition report_errors (formFeedback : element_or_null) : PageRun (list (Submission * number)) :=
  textContent_set formFeedback "Please fix the errors above";;
  add_class formFeedback "error";;
  add_class formFeedback "show";;
  manage formFeedback "start";;
  computedStyles ← getComputedAnimationStyles formFeedback;
  console_log ["Form Feedback Animation Styles:"; inspect computedStyles];;
  mret [].

(** Returns the timers it has set: the submission and its delay. *)
Definition validateForm : PageRun (list (Submission * number)) :=
  let name := getElementById "name" in
  let email := getElementById "email" in
  let password := getElementById "password" in
  let confirmPassword := getElementById "confirm-password" in
  let nameError := getElementById "name-error" in
  let emailError := getElementById "email-error" in
  let passwordError := getElementById "password-error" in
  let confirmPasswordError := getElementById "confirm-password-error" in
  let formFeedback := getElementById "form-feedback" in
  textContent_set nameError "";;
  textContent_set emailError "";;
  textContent_set passwordError "";;
  textContent_set confirmPasswordError "";;
  textContent_set formFeedback "";;
  className_set formFeedback "form-feedback";;
  isValid ← mret true;
  isValid ← validate_name name nameError isValid;
  isValid ← validate_email email emailError isValid;
  isValid ← validate_password password passwordError isValid;
  isValid ← validate_confirm confirmPassword password confirmPasswordError isValid;
  if isValid : bool then submit_form formFeedback else report_errors formFeedback.

End Browser.

(** *** What the form code shows for each field *)

(** The message under each field once [validateForm] has run, empty when
    the field passes. *)
Definition name_message (v : list N) : string :=
  if bool_decide (trim v = []) then "Name is required"
  else if (length (trim v) <? 2)%nat then "Name must be at least 2 characters"
  else "".

Definition email_message (v : list N) : string :=
  if bool_decide (trim v = []) then "Email is required"
  else if isValidEmail (trim v) then ""
  else "Please enter a valid email address".

Definition password_message (v : list N) : string :=
  if bool_decide (trim v = []) then "Password is required"
  else if (length v <? 6)%nat then "Password must be at least 6 characters"
  else "".

Definition confirm_message (confirmed wanted : list N) : string :=
  if bool_decide (trim confirmed = []) then "Please confirm your password"
  else if bool_decide (confirmed = wanted) then ""
  else "Passwords do not match".

(** The four fields as a valid form has them. *)
Definition acceptable (name email password confirmed : list N) : Prop :=
  (2 ≤ length (trim name))%nat
  ∧ isValidEmail (trim email) = true
  ∧ trim password ≠ []
  ∧ (6 ≤ length password)%nat
  ∧ confirmed = password.

(** *** What a step leaves of a page *)

Definition present (p : Page) (el : nat) : Prop := is_Some (dom (world p) !! el).

(** [p'] is [p] but for the text and the classes of the elements [els]:
    the same elements and the same strings in the form controls. *)
Definition frames (els : list nat) (p p' : Page) : Prop :=
  value p' = value p
  ∧ (∀ x : nat, present p' x ↔ present p x)
  ∧ (∀ x : nat, x ∉ els →
       content p' !! x = content p !! x
       ∧ ∀ tok : string, has_class (world p') x tok = has_class (world p) x tok).

(** [p'] has the console and the disabled flags of [p]. *)
Definition quiet (p p' : Page) : Prop :=
  console (world p') = console (world p) ∧ disabled p' = disabled p.

(** The element [el] shows the message [msg]: it holds it as its text, and
    it carries ['show'] and ['animating'] exactly when the message is not
    empty. *)
Definition shows (p : Page) (el : nat) (msg : string) : Prop :=
  content p !! el = Some (Plain msg)
  ∧ has_class (world p) el "show" = negb (String.eqb msg "")
  ∧ has_class (world p) el "animating" = negb (String.eqb msg "").

(** The elements that [validateForm] looks up, in the order it does. *)
Record FormElements : Type := mkFormElements {
  name_input : nat;
  email_input : nat;
  password_input : nat;
  confirm_input : nat;
  name_error : nat;
  email_error : nat;
  password_error : nat;
  confirm_error : nat;
  feedback : nat
}.

(** The document has the nine elements under the ids the script uses. *)
Definition resolves (getElementById : string → element_or_null) (els : FormElements) : Prop :=
  getElementById "name" = Some (name_input els)
  ∧ getElementById "email" = Some (email_input els)
  ∧ getElementById "password" = Some (password_input els)
  ∧ getElementById "confirm-password" = Some (confirm_input els)
  ∧ getElementById "name-error" = Some (name_error els)
  ∧ getElementById "email-error" = Some (email_error els)
  ∧ getElementById "password-error" = Some (password_error els)
  ∧ getElementById "confirm-password-error" = Some (confirm_error els)
  ∧ getElementById "form-feedback" = Some (feedback els).

(** The five elements that [validateForm] writes messages to. *)
Definition outputs (els : FormElements) : list nat :=
  [name_error els; email_error els; password_error els; confirm_error els; feedback els].

(** The nine elements are elements of the page, and the four inputs hold
    the given strings. *)
Definition filled (p : Page) (els : FormElements)
  (name email password confirmed : list N) : Prop :=
  Forall (present p) (outputs els)
  ∧ present p (name_input els) ∧ value p !! name_input els = Some name
  ∧ present p (email_input els) ∧ value p !! email_input els = Some email
  ∧ present p (password_input els) ∧ value p !! password_input els = Some password
  ∧ present p (confirm_input els) ∧ value p !! confirm_input els = Some confirmed.

(** Whether no field has a message. *)
Definition passes (name email password confirmed : list N) : bool :=
  String.eqb (name_message name) ""
  && String.eqb (email_message email) ""
  && String.eqb (password_message password) ""
  && String.eqb (confirm_message confirmed password) "".

(** The selector of the submit button (script.js:645). *)
Definition submit_selector : string :=
  "button[type=" ++ dquote ++ "submit" ++ dquote ++ "]".

(** *** A page with the registration form *)

Definition form_elements : FormElements :=
  {| name_input := 1; email_input := 2; password_input := 3; confirm_input := 4;
     name_error := 5; email_error := 6; password_error := 7; confirm_error := 8;
     feedback := 9 |}.

(** The elements by their [id]: the four inputs (1 to 4), their error
    elements (5 to 8) and the feedback element (9); the form is 10 and its
    submit button 11. *)
Definition form_ids (id : string) : element_or_null :=
  if String.eqb id "name" then Some 1
  else if String.eqb id "email" then Some 2
  else if String.eqb id "password" then Some 3
  else if String.eqb id "confirm-password" then Some 4
  else if String.eqb id "name-error" then Some 5
  else if String.eqb id "email-error" then Some 6
  else if String.eqb id "password-error" then Some 7
  else if String.eqb id "confirm-password-error" then Some 8
  else if String.eqb id "form-feedback" then Some 9
  else None.

Definition form_world : World :=
  {| dom := {[ 1 := {| classList := [] |}; 2 := {| classList := [] |};
               3 := {| classList := [] |}; 4 := {| classList := [] |};
               5 := {| classList := ["error-message"] |};
               6 := {| classList := ["error-message"; "show"; "animating"] |};
               7 := {| classList := ["error-message"] |};
               8 := {| classList := ["error-message"] |};
               9 := {| classList := ["form-feedback"; "error"; "show"] |};
               10 := {| classList := [] |};
               11 := {| classList := [] |} ]};
     console := [] |}.

(** The page with the four fields filled in as given. *)
Definition form_page (name email password confirmed : string) : Page :=
  {| world := form_world;
     content := {[ 6 := Plain "Email is required"; 11 := Plain "Register" ]};
     value := {[ 1 := units name; 2 := units email;
                 3 := units password; 4 := units confirmed ]};
     disabled := ∅ |}.

(** A browser for the examples: every computed style is ["none"], the
    text of markup is the markup, the console shows [[object Object]], and
    every form has the button 11. *)
Definition plain_style (p : Page) (el : nat) (property : string) : string := "none".

Definition markup_as_text (html : string) : string := html.

Definition object_Object (styles : AnimationStyles) : string := "[object Object]".

Definition button_11 (form : nat) (selectors : string) : element_or_null := Some 11.

End Forms.

(** ** The theme toggle of src/script.js *)

Module Theme.
Import JS Script Callers Handlers Forms.

Section ThemeToggle.

(** [document.body], and the global of script.js:3. *)
Variable body : element_or_null.
Variable globalAnimationSpeed : number.

(** The click handler of the theme toggle (script.js:169-191).  [this] and
    [themeToggle] are one element, the button the listener was added to.
    Returns the timers it has set. *)
Definition theme_toggle_click (themeToggle : nat) : PageRun (list Timer) :=
  let this := themeToggle in
  el ← element_of false "classList" body;
  lift (classList_toggle el "dark-mode");;
  add_class (Some this) "glow";;
  animationResult ← manage (Some this) "start";
  let glowDuration := calculateAnimationDuration 500 globalAnimationSpeed 20 in
  timers ← mret [ {| task := RemoveClassAndStop this "glow"; delay := glowDuration |} ];
  el ← element_of false "classList" body;
  dark ← lift (classList_contains el "dark-mode");
  (if dark : bool
   then textContent_set (Some themeToggle) "Toggle Light Mode"
   else textContent_set (Some themeToggle) "Toggle Dark Mode");;
  mret timers.

End ThemeToggle.

(** The label the button has after a click. *)
Definition theme_label (dark : bool) : string :=
  if dark then "Toggle Light Mode" else "Toggle Dark Mode".

(** A page in light mode: the body is 30 and the toggle 31. *)
Definition light_page : Page :=
  {| world := {| dom := {[ 30 := {| classList := [] |};
                           31 := {| classList := ["theme-toggle"] |} ]};
                 console := [] |};
     content := {[ 31 := Plain "Toggle Dark Mode" ]};
     value := ∅;
     disabled := ∅ |}.

End Theme.

(** ** The dropdown menu of src/script.js *)

Module Dropdown.
Import JS Script Callers Handlers Forms.

(** *** createAnimationConfig (script.js:59-71) *)

Record AnimationConfig : Type := mkAnimationConfig {
  animationType : string;
  duration : number;
  easing : string;
  timestamp : string
}.

(** [now] is [new Date().toISOString()] at the time of the call; an omitted
    [easing] takes the default. *)
Definition createAnimationConfig
  (now : string) (type : string) (duration : number) (easing : option string)
  : AnimationConfig :=
  let easing := default "ease" easing in
  let config := {| animationType := type; duration := duration; easing := easing;
                   timestamp := now |} in
  config.

Section Menu.

Variable text_of_markup : string → string.

(** [document.querySelector('.dropdown')]: the first element of the
    document with the class ['dropdown'], a class that no code of the script
    adds or removes. *)
Variable dropdown : element_or_null.

(** The two elements the script took when the page had loaded
    (script.js:472-473), the time it loaded at and the global of
    script.js:3. *)
Variables dropdownBtn dropdownContent : nat.
Variable loaded : string.
Variable globalAnimationSpeed : number.

(** [parseFloat], and [element.offsetWidth], which the layout gives. *)
Variable parseFloat : number → number.
Variable offsetWidth : Page → nat → number.

(** script.js:477 *)
Definition dropdownAnimationConfig : AnimationConfig :=
  createAnimationConfig loaded "fade" 300 (Some "ease-out").

(** [target.classList.toggle(token)] *)
Definition toggle_class (target : element_or_null) (token : string) : PageRun bool :=
  el ← element_of false "classList" target;
  lift (classList_toggle el token).

(** The click handler of the dropdown button (script.js:480-493). *)
Definition dropdown_button_click : PageRun unit :=
  let dropdown := dropdown in
  toggle_class dropdown "show";;
  width ← (el ← element_of false "offsetWidth" (Some dropdownContent);
           read (λ p, offsetWidth p el));
  let animationDuration :=
    calculateAnimationDuration (parseFloat (duration dropdownAnimationConfig))
                               globalAnimationSpeed width in
  result ← manage (Some dropdownContent) "toggle";
  mret ().

(** The click handler of a link of the menu (script.js:497-504); [this] is
    the link.  [e.preventDefault()] changes nothing of the page. *)
Definition dropdown_link_click (this : nat) : PageRun unit :=
  text ← textContent_get text_of_markup (Some this);
  textContent_set (Some dropdownBtn) text;;
  remove_class dropdown "show";;
  result ← manage dropdown "stop";
  mret ().

(** The click handler of the document (script.js:508-516); [closest] is
    [e.target.closest('.dropdown')]. *)
Definition document_click (closest : element_or_null) : PageRun unit :=
  match closest with
  | Some _ => mret ()
  | None =>
      let dropdown := dropdown in
      remove_class dropdown "show";;
      result ← manage dropdown "stop";
      mret ()
  end.

End Menu.

(** A page with the menu closed: the container is 40, the button 41, the
    content 42 and a link 43. *)
Definition menu_page : Page :=
  {| world := {| dom := {[ 40 := {| classList := ["dropdown"] |};
                           41 := {| classList := [] |};
                           42 := {| classList := ["dropdown-content"] |};
                           43 := {| classList := [] |} ]};
                 console := [] |};
     content := {[ 41 := Plain "Select an option"; 43 := Plain "Option 1" ]};
     value := ∅;
     disabled := ∅ |}.

(** A layout for the examples: every element is 160 pixels wide. *)
Definition flat_layout (p : Page) (el : nat) : number := 160.

(** [parseFloat] of a number that is a whole number of a few digits. *)
Definition parseFloat_whole (n : number) : number := n.

End Dropdown.

(** * Properties of src/script.js *)

Module ScriptProofs.
Import JS Script.

(** ** Class token lists *)

Lemma contains_true (token : string) (l : list string) :
  DOMTokenList_contains token l = true ↔ token ∈ l.
Proof. unfold DOMTokenList_contains. apply bool_decide_eq_true. Qed.

Lemma contains_false (token : string) (l : list string) :
  DOMTokenList_contains token l = false ↔ token ∉ l.
Proof. unfold DOMTokenList_contains. apply bool_decide_eq_false. Qed.

Lemma contains_add (token : string) (l : list string) :
  DOMTokenList_contains token (DOMTokenList_add token l) = true.
Proof.
  unfold DOMTokenList_add.
  destruct (DOMTokenList_contains token l) eqn:Hc; [exact Hc |].
  apply contains_true, elem_of_app. right. apply list_elem_of_singleton. reflexivity.
Qed.

Lemma contains_remove (token : string) (l : list string) :
  DOMTokenList_contains token (DOMTokenList_remove token l) = false.
Proof.
  apply contains_false. unfold DOMTokenList_remove.
  rewrite list_elem_of_filter. intros [Hne _]. apply Hne. reflexivity.
Qed.

Lemma add_present (token : string) (l : list string) :
  DOMTokenList_contains token l = true → DOMTokenList_add token l = l.
Proof. intros Hc. unfold DOMTokenList_add. rewrite Hc. reflexivity. Qed.

Lemma remove_absent (token : string) (l : list string) :
  DOMTokenList_contains token l = false → DOMTokenList_remove token l = l.
Proof.
  rewrite contains_false. unfold DOMTokenList_remove.
  induction l as [| t l IH]; intros Hnot; [reflexivity |].
  rewrite filter_cons. destruct (decide (t ≠ token)) as [_ | Heq].
  - f_equal. apply IH. intros Hin. apply Hnot. right. exact Hin.
  - exfalso. apply Hnot. destruct (decide (t = token)) as [-> | Hne]; [left | tauto].
Qed.

Lemma toggle_fst (token : string) (l : list string) :
  fst (DOMTokenList_toggle token l) = negb (DOMTokenList_contains token l).
Proof.
  unfold DOMTokenList_toggle. destruct (DOMTokenList_contains token l); reflexivity.
Qed.

Lemma contains_toggle (token : string) (l : list string) :
  DOMTokenList_contains token (snd (DOMTokenList_toggle token l))
  = negb (DOMTokenList_contains token l).
Proof.
  unfold DOMTokenList_toggle.
  destruct (DOMTokenList_contains token l) eqn:Hc; cbn [snd negb].
  - apply contains_remove.
  - rewrite <- (contains_add token l). unfold DOMTokenList_add. rewrite Hc. reflexivity.
Qed.

(** ** Reads and writes of one element *)

Lemma lookup_set_classList (w : World) (el : nat) (l : list string) :
  dom (set_classList el l w) !! el = Some {| classList := l |}.
Proof. unfold set_classList. cbn [dom]. apply lookup_insert_eq. Qed.

Lemma animating_set_classList (w : World) (el : nat) (l : list string) :
  animating (set_classList el l w) el = DOMTokenList_contains "animating" l.
Proof. unfold animating. rewrite lookup_set_classList. reflexivity. Qed.

Lemma animating_lookup (w : World) (el : nat) (e : Element) :
  dom w !! el = Some e →
  animating w el = DOMTokenList_contains "animating" (classList e).
Proof. intros He. unfold animating. rewrite He. reflexivity. Qed.

Lemma set_classList_twice (w : World) (el : nat) (l1 l2 : list string) :
  set_classList el l2 (set_classList el l1 w) = set_classList el l2 w.
Proof. unfold set_classList. cbn [dom console]. rewrite insert_insert_eq. reflexivity. Qed.

(** ** The four branches of [manageAnimationState] on an element of the DOM *)

Section OnElement.

Variables (w : World) (el : nat) (e : Element).
Hypothesis stored : dom w !! el = Some e.

Lemma manage_start_run :
  manageAnimationState el "start" w
  = Returned {| success := true; newState := true; element := el |}
             (set_classList el (DOMTokenList_add "animating" (classList e)) w).
Proof.
  unfold manageAnimationState, mbind, mret, Run_bind, Run_ret.
  unfold classList_contains at 1. rewrite stored. cbn [String.eqb Ascii.eqb Bool.eqb].
  unfold classList_add, classList_contains. rewrite stored, lookup_set_classList.
  cbn [classList]. rewrite contains_add. reflexivity.
Qed.

Lemma manage_stop_run :
  manageAnimationState el "stop" w
  = Returned {| success := true; newState := false; element := el |}
             (set_classList el (DOMTokenList_remove "animating" (classList e)) w).
Proof.
  unfold manageAnimationState, mbind, mret, Run_bind, Run_ret.
  unfold classList_contains at 1. rewrite stored. cbn [String.eqb Ascii.eqb Bool.eqb].
  unfold classList_remove, classList_contains. rewrite stored, lookup_set_classList.
  cbn [classList]. rewrite contains_remove. reflexivity.
Qed.

Lemma manage_toggle_run :
  manageAnimationState el "toggle" w
  = Returned {| success := negb (animating w el);
                newState := negb (animating w el);
                element := el |}
             (set_classList el (snd (DOMTokenList_toggle "animating" (classList e))) w).
Proof.
  rewrite (animating_lookup _ _ _ stored).
  unfold manageAnimationState, mbind, mret, Run_bind, Run_ret.
  unfold classList_contains at 1. rewrite stored. cbn [String.eqb Ascii.eqb Bool.eqb].
  unfold classList_toggle, classList_contains. rewrite stored.
  pose proof (contains_toggle "animating" (classList e)) as Hc.
  destruct (DOMTokenList_toggle "animating" (classList e)) as [present l].
  cbn [snd] in *. rewrite lookup_set_classList. cbn [classList]. rewrite Hc. reflexivity.
Qed.

Lemma manage_other_run (action : string) :
  action ≠ "start" → action ≠ "stop" → action ≠ "toggle" →
  manageAnimationState el action w
  = Returned {| success := false; newState := animating w el; element := el |}
             {| dom := dom w;
                console := (console w
                            ++ [mkLogEntry LevelWarn ["Invalid animation action:"; action]])%list |}.
Proof.
  intros H1 H2 H3. rewrite (animating_lookup _ _ _ stored).
  apply String.eqb_neq in H1, H2, H3.
  unfold manageAnimationState, mbind, mret, Run_bind, Run_ret.
  unfold classList_contains at 1. rewrite stored, H1, H2, H3.
  unfold console_warn, classList_contains. cbn [dom]. rewrite stored. reflexivity.
Qed.

End OnElement.

(** The model runs: a toggle of each sample element, and a bad action. *)
Example toggle_animating_box :
  manageAnimationState 1 "toggle" sample_page
  = Returned {| success := false; newState := false; element := 1 |}
             (set_classList 1 ["box"] sample_page).
Proof. vm_compute. reflexivity. Qed.

Example toggle_idle_answer :
  manageAnimationState 2 "toggle" sample_page
  = Returned {| success := true; newState := true; element := 2 |}
             (set_classList 2 ["answer"; "animating"] sample_page).
Proof. vm_compute. reflexivity. Qed.

Example no_element_throws :
  manageAnimationState 3 "start" sample_page
  = Threw (TypeError_read "undefined" "classList") sample_page.
Proof. vm_compute. reflexivity. Qed.

(** ** The contract of manageAnimationState *)

(** C1. On every element of the DOM, whatever its classes are,
    [manageAnimationState(element, 'start')] returns with [success] true and
    leaves the element with the class ['animating'], and
    [manageAnimationState(element, 'stop')] returns with [success] true and
    leaves it without the class. *)
Theorem manage_start_stop_success (w : World) (el : nat) (e : Element) :
  dom w !! el = Some e →
  (∃ r w', manageAnimationState el "start" w = Returned r w'
           ∧ success r = true ∧ animating w' el = true)
  ∧ (∃ r w', manageAnimationState el "stop" w = Returned r w'
             ∧ success r = true ∧ animating w' el = false).
Proof.
  intros He. split; eexists _, _.
  - rewrite (manage_start_run _ _ _ He). split; [reflexivity |]. split; [reflexivity |].
    rewrite animating_set_classList. apply contains_add.
  - rewrite (manage_stop_run _ _ _ He). split; [reflexivity |]. split; [reflexivity |].
    rewrite animating_set_classList. apply contains_remove.
Qed.

Lemma manage_start_stop_success_witness :
  (∃ r w', manageAnimationState 1 "start" sample_page = Returned r w'
           ∧ success r = true ∧ animating w' 1 = true)
  ∧ (∃ r w', manageAnimationState 1 "stop" sample_page = Returned r w'
             ∧ success r = true ∧ animating w' 1 = false).
Proof.
  apply (manage_start_stop_success sample_page 1 {| classList := ["box"; "animating"] |}).
  reflexivity.
Defined.

(** C2. On every element of the DOM, [manageAnimationState(element,
    'toggle')] returns, the class ['animating'] is present afterwards exactly
    when it was absent at entry, and [success] is that new class state. *)
Theorem manage_toggle_flips (w : World) (el : nat) (e : Element) :
  dom w !! el = Some e →
  ∃ r w', manageAnimationState el "toggle" w = Returned r w'
          ∧ animating w' el = negb (animating w el)
          ∧ success r = animating w' el
          ∧ success r = negb (animating w el).
Proof.
  intros He. eexists _, _. rewrite (manage_toggle_run _ _ _ He).
  split; [reflexivity |]. rewrite animating_set_classList, contains_toggle.
  rewrite <- (animating_lookup _ _ _ He). cbn [success]. auto.
Qed.

Lemma manage_toggle_flips_witness :
  ∃ r w', manageAnimationState 2 "toggle" sample_page = Returned r w'
          ∧ animating w' 2 = negb (animating sample_page 2)
          ∧ success r = animating w' 2
          ∧ success r = negb (animating sample_page 2).
Proof.
  apply (manage_toggle_flips sample_page 2 {| classList := ["answer"] |}).
  reflexivity.
Defined.

(** C3. On every element of the DOM and for every action string other than
    ['start'], ['stop'] and ['toggle'], [manageAnimationState] returns (it
    does not throw) with [success] false, leaves the DOM as it was, so the
    class state of the element too, and adds one warning that carries the
    action to the console. *)
Theorem manage_invalid_action (w : World) (el : nat) (e : Element) (action : string) :
  dom w !! el = Some e →
  action ≠ "start" → action ≠ "stop" → action ≠ "toggle" →
  ∃ r w', manageAnimationState el action w = Returned r w'
          ∧ success r = false
          ∧ dom w' = dom w
          ∧ animating w' el = animating w el
          ∧ console w'
            = (console w ++ [mkLogEntry LevelWarn ["Invalid animation action:"; action]])%list.
Proof.
  intros He H1 H2 H3. eexists _, _.
  rewrite (manage_other_run _ _ _ He action H1 H2 H3).
  repeat split; reflexivity.
Qed.

Lemma manage_invalid_action_witness :
  ∃ r w', manageAnimationState 1 "bogus" sample_page = Returned r w'
          ∧ success r = false
          ∧ dom w' = dom sample_page
          ∧ animating w' 1 = animating sample_page 1
          ∧ console w'
            = (console sample_page
               ++ [mkLogEntry LevelWarn ["Invalid animation action:"; "bogus"]])%list.
Proof.
  apply (manage_invalid_action sample_page 1 {| classList := ["box"; "animating"] |} "bogus").
  - reflexivity.
  - discriminate.
  - discriminate.
  - discriminate.
Defined.

(** Whatever the action, a call on an element of the DOM returns, and the
    element is still in the DOM afterwards. *)
Lemma manage_total (w : World) (el : nat) (e : Element) (action : string) :
  dom w !! el = Some e →
  ∃ r w' e', manageAnimationState el action w = Returned r w'
             ∧ dom w' !! el = Some e'
             ∧ newState r = animating w' el
             ∧ element r = el.
Proof.
  intros He.
  destruct (String.eqb_spec action "start") as [-> | H1].
  { eexists _, _, _. rewrite (manage_start_run _ _ _ He).
    split; [reflexivity |]. split; [apply lookup_set_classList |].
    rewrite animating_set_classList, contains_add. split; reflexivity. }
  destruct (String.eqb_spec action "stop") as [-> | H2].
  { eexists _, _, _. rewrite (manage_stop_run _ _ _ He).
    split; [reflexivity |]. split; [apply lookup_set_classList |].
    rewrite animating_set_classList, contains_remove. split; reflexivity. }
  destruct (String.eqb_spec action "toggle") as [-> | H3].
  { eexists _, _, _. rewrite (manage_toggle_run _ _ _ He).
    split; [reflexivity |]. split; [apply lookup_set_classList |].
    rewrite animating_set_classList, contains_toggle.
    rewrite (animating_lookup _ _ _ He). split; reflexivity. }
  exists {| success := false; newState := animating w el; element := el |}.
  eexists _, e. rewrite (manage_other_run _ _ _ He action H1 H2 H3).
  split; [reflexivity |]. split; [exact He |]. split; reflexivity.
Qed.

(** C8. On every element of the DOM and for every action string, valid or
    not, the record that [manageAnimationState] returns has [newState] equal
    to the presence of ['animating'] on the element after the operation, and
    [element] equal to the reference passed in. *)
Theorem manage_result_reads_back (w : World) (el : nat) (e : Element) (action : string) :
  dom w !! el = Some e →
  ∃ r w', manageAnimationState el action w = Returned r w'
          ∧ newState r = animating w' el
          ∧ element r = el.
Proof.
  intros He. destruct (manage_total w el e action He) as (r & w' & e' & Hrun & _ & Hn & Hel).
  exists r, w'. auto.
Qed.

Lemma manage_result_reads_back_witness :
  ∃ r w', manageAnimationState 2 "start" sample_page = Returned r w'
          ∧ newState r = animating w' 2
          ∧ element r = 2.
Proof.
  apply (manage_result_reads_back sample_page 2 {| classList := ["answer"] |} "start").
  reflexivity.
Defined.

(** Two toggles in a row put the class state back. *)
Lemma toggle_twice (w : World) (el : nat) (e : Element) :
  dom w !! el = Some e →
  ∃ w' e', times 2 (manageAnimationState el "toggle") w = Returned () w'
           ∧ dom w' !! el = Some e'
           ∧ animating w' el = animating w el.
Proof.
  intros He. eexists _, _.
  unfold times, mbind, mret, Run_bind, Run_ret.
  rewrite (manage_toggle_run _ _ _ He).
  rewrite (manage_toggle_run _ _ _ (lookup_set_classList w el _)).
  split; [reflexivity |]. split; [apply lookup_set_classList |].
  rewrite animating_set_classList. cbn [classList]. rewrite !contains_toggle.
  rewrite (animating_lookup _ _ _ He). apply negb_involutive.
Qed.

Lemma times_add {A : Type} (m : Run A) (n k : nat) (w : World) :
  times (n + k) m w
  = match times n m w with
    | Returned _ w' => times k m w'
    | Threw err w' => Threw err w'
    end.
Proof.
  revert w. induction n as [| n IH]; intros w; [reflexivity |].
  cbn [Nat.add times]. unfold mbind, Run_bind.
  destruct (m w) as [a w1 | err w1]; [apply IH | reflexivity].
Qed.

Lemma toggle_even (el : nat) (n : nat) :
  ∀ (w : World) (e : Element),
    dom w !! el = Some e →
    ∃ w', times (2 * n) (manageAnimationState el "toggle") w = Returned () w'
          ∧ animating w' el = animating w el.
Proof.
  induction n as [| n IH]; intros w e He.
  - exists w. split; reflexivity.
  - replace (2 * S n) with (2 + 2 * n) by lia.
    destruct (toggle_twice w el e He) as (w1 & e1 & Hrun & He1 & Hsame).
    destruct (IH w1 e1 He1) as (w2 & Hrest & Hsame2).
    exists w2. rewrite times_add, Hrun. split; [exact Hrest | congruence].
Qed.

(** C9. On every element of the DOM, a ['start'] call followed by a
    ['stop'] call leaves the class ['animating'] absent, whatever the class
    state was before, and an even number of ['toggle'] calls in a row leaves
    the class state as it was before the first of them. *)
Theorem manage_start_stop_and_even_toggles (w : World) (el : nat) (e : Element) :
  dom w !! el = Some e →
  (∃ r w', (manageAnimationState el "start";; manageAnimationState el "stop") w
           = Returned r w'
           ∧ animating w' el = false)
  ∧ (∀ n : nat,
       ∃ w', times (2 * n) (manageAnimationState el "toggle") w = Returned () w'
             ∧ animating w' el = animating w el).
Proof.
  intros He. split.
  - eexists _, _. unfold mbind, Run_bind.
    rewrite (manage_start_run _ _ _ He).
    rewrite (manage_stop_run _ _ _ (lookup_set_classList w el _)).
    split; [reflexivity |]. rewrite animating_set_classList. apply contains_remove.
  - intros n. exact (toggle_even el n w e He).
Qed.

Lemma manage_start_stop_and_even_toggles_witness :
  (∃ r w', (manageAnimationState 2 "start";; manageAnimationState 2 "stop") sample_page
           = Returned r w'
           ∧ animating w' 2 = false)
  ∧ (∀ n : nat,
       ∃ w', times (2 * n) (manageAnimationState 2 "toggle") sample_page = Returned () w'
             ∧ animating w' 2 = animating sample_page 2).
Proof.
  apply (manage_start_stop_and_even_toggles sample_page 2 {| classList := ["answer"] |}).
  reflexivity.
Defined.

(** C10. On every element of the DOM, a ['start'] call returns [newState]
    true and leaves the class present, a ['stop'] call returns [newState]
    false and leaves the class absent, both whatever the class state was
    before; and the same call made again at once returns the same record and
    leaves the world as the first call left it. *)
Theorem manage_start_stop_idempotent (w : World) (el : nat) (e : Element) :
  dom w !! el = Some e →
  (∃ r w', manageAnimationState el "start" w = Returned r w'
           ∧ newState r = true ∧ animating w' el = true
           ∧ manageAnimationState el "start" w' = Returned r w')
  ∧ (∃ r w', manageAnimationState el "stop" w = Returned r w'
             ∧ newState r = false ∧ animating w' el = false
             ∧ manageAnimationState el "stop" w' = Returned r w').
Proof.
  intros He. split; eexists _, _.
  - rewrite (manage_start_run _ _ _ He).
    split; [reflexivity |]. split; [reflexivity |].
    split; [rewrite animating_set_classList; apply contains_add |].
    rewrite (manage_start_run _ _ _ (lookup_set_classList w el _)). cbn [classList].
    rewrite (add_present _ _ (contains_add _ _)), set_classList_twice. reflexivity.
  - rewrite (manage_stop_run _ _ _ He).
    split; [reflexivity |]. split; [reflexivity |].
    split; [rewrite animating_set_classList; apply contains_remove |].
    rewrite (manage_stop_run _ _ _ (lookup_set_classList w el _)). cbn [classList].
    rewrite (remove_absent _ _ (contains_remove _ _)), set_classList_twice. reflexivity.
Qed.

Lemma manage_start_stop_idempotent_witness :
  (∃ r w', manageAnimationState 1 "start" sample_page = Returned r w'
           ∧ newState r = true ∧ animating w' 1 = true
           ∧ manageAnimationState 1 "start" w' = Returned r w')
  ∧ (∃ r w', manageAnimationState 1 "stop" sample_page = Returned r w'
             ∧ newState r = false ∧ animating w' 1 = false
             ∧ manageAnimationState 1 "stop" w' = Returned r w').
Proof.
  apply (manage_start_stop_idempotent sample_page 1 {| classList := ["box"; "animating"] |}).
  reflexivity.
Defined.

(** ** calculateAnimationDuration *)

#[local] Open Scope float_scope.

(** The call of the theme toggle, script.js:178, at the initial speed. *)
Example glow_duration : calculateAnimationDuration 500 1 20 = 100.
Proof. reflexivity. Qed.

(** C6. For all numbers [base], [mult] and [size],
    [calculateAnimationDuration(base, mult, size)] is the value of
    [base * mult * (size / 100)]; the function is total and clamps nothing:
    a zero size gives a zero duration and a negative size a negative one. *)
Theorem duration_meets_contract :
  (∀ base mult size : float,
     calculateAnimationDuration base mult size = duration_contract base mult size)
  ∧ calculateAnimationDuration 500 1 0 = 0
  ∧ calculateAnimationDuration 500 1 (-20) = -100
  ∧ (calculateAnimationDuration 500 1 (-20) <? 0) = true.
Proof.
  split; [| repeat split].
  intros base mult size. unfold calculateAnimationDuration, duration_contract.
  reflexivity.
Qed.

(** ** createScopedCounter *)

(** No method assigns [initialValue]. *)
Lemma method_keeps_initialValue (call : Call) (c : CounterScope) :
  initialValue (snd (method_of call c)) = initialValue c.
Proof. destruct call; reflexivity. Qed.

Lemma after_calls_initialValue (calls : list Call) :
  ∀ c : CounterScope, initialValue (after_calls calls c) = initialValue c.
Proof.
  induction calls as [| call rest IH]; intros c; cbn [after_calls]; [reflexivity |].
  rewrite IH. apply method_keeps_initialValue.
Qed.

(** C7. From [createScopedCounter(5)], [increment()] returns 6, then
    [decrement(3)] returns 3, then [reset()] returns 5.  After any calls on
    a counter, [reset()] returns the value the counter was created with (0
    when none was given) and puts the counter back as it was created.
    [getValue()] returns the current value and leaves the counter as it is. *)
Theorem counter_behaviour :
  (let c0 := createScopedCounter (Some 5) in
   let r1 := increment None c0 in
   let r2 := decrement (Some 3) (snd r1) in
   let r3 := reset (snd r2) in
   fst r1 = 6 ∧ fst r2 = 3 ∧ fst r3 = 5)
  ∧ (∀ (init : option float) (calls : list Call),
       reset (after_calls calls (createScopedCounter init))
       = (default 0 init, createScopedCounter init))
  ∧ (∀ c : CounterScope, getValue c = (count c, c)).
Proof.
  split; [| split].
  - cbv zeta. repeat split.
  - intros init calls. unfold reset, assign_count. cbn [count initialValue].
    rewrite after_calls_initialValue. reflexivity.
  - intros c. reflexivity.
Qed.

End ScriptProofs.

(** * Properties of src/server.js *)

Module ServerProofs.
Import JS Server.

(** ** The transaction reference *)

Example tx_ref_of_a_time : Number_toString 1762041600000 = "1762041600000".
Proof. reflexivity. Qed.

Lemma to_int_not_nil (n : Z) :
  Z.to_int n ≠ Decimal.Pos Decimal.Nil ∧ Z.to_int n ≠ Decimal.Neg Decimal.Nil.
Proof.
  destruct n as [| p | p]; cbn [Z.to_int]; split; try discriminate.
  - intros [= H]. exact (DecimalPos.Unsigned.to_uint_nonnil p H).
  - intros [= H]. exact (DecimalPos.Unsigned.to_uint_nonnil p H).
Qed.

(** The numeral reads back as the number it was printed from, so two times
    have the same reference only when they are the same millisecond. *)
Lemma Number_toString_reads_back (n : Z) :
  Z.of_int <$> NilZero.int_of_string (Number_toString n) = Some n.
Proof.
  unfold Number_toString. destruct (to_int_not_nil n) as [Hp Hn].
  rewrite (NilZero.isi _ Hp Hn). cbn [fmap option_fmap option_map].
  f_equal. apply DecimalZ.of_to.
Qed.

Lemma Number_toString_inj (n m : Z) :
  Number_toString n = Number_toString m → n = m.
Proof.
  intros H. pose proof (Number_toString_reads_back n) as Hn.
  rewrite H, Number_toString_reads_back in Hn. congruence.
Qed.

(** ** The handler *)

Section Handler.

Variable axios_post : string → value → AxiosRequestConfig → Settled.

(** A body that is [undefined] or [null] makes the handler throw before it
    calls the upstream; the catch answers 500 as for any other failure. *)
Lemma pay_without_body (now : Z) (env : Env) (req : Request) (error : Error) :
  pay_request_body now req = inl error →
  pay axios_post now env req new_response
  = {| statusCode := 500; sent := Some (VObject [("error", VString (message error))]) |}.
Proof. intros H. unfold pay. rewrite H. reflexivity. Qed.

(** C4. Whenever the handler calls the upstream: if the call resolves, the
    handler answers with status 200 and the body of the upstream response as
    it is; if the call rejects, for whatever reason, the handler answers
    with status 500 and the body [{error: message}] where [message] is the
    message of the error the call rejected with. *)
Theorem pay_relays_upstream (now : Z) (env : Env) (req : Request) (payload : value) :
  pay_request_body now req = inr payload →
  (∀ response : AxiosResponse,
     axios_post "https://api.flutterwave.com/v3/payments" payload (pay_request_config env)
     = Resolved response →
     pay axios_post now env req new_response
     = {| statusCode := 200; sent := Some (data response) |})
  ∧ (∀ error : Error,
       axios_post "https://api.flutterwave.com/v3/payments" payload (pay_request_config env)
       = Rejected error →
       pay axios_post now env req new_response
       = {| statusCode := 500;
            sent := Some (VObject [("error", VString (message error))]) |}).
Proof.
  intros Hbody. split; intros x Hx; unfold pay; rewrite Hbody; cbn [and_then];
    rewrite Hx; reflexivity.
Qed.

(** The body of the upstream request, for every request body that has
    properties to read. *)
Lemma pay_request_body_built (now : Z) (req : Request) :
  body req ≠ VUndefined → body req ≠ VNull →
  ∃ amount email name : value,
    get (body req) "amount" = inr amount
    ∧ get (body req) "email" = inr email
    ∧ get (body req) "name" = inr name
    ∧ pay_request_body now req
      = inr (VObject [
          ("tx_ref", VString (Number_toString now));
          ("amount", amount);
          ("currency", VString "KES");
          ("redirect_url", VString "https://your-site.com/callback");
          ("customer", VObject [("email", email); ("name", name)]);
          ("payment_options", VString "card,mpesa,ussd")]).
Proof.
  intros Hu Hn. unfold pay_request_body.
  destruct (body req) as [| | b | n | s | items | props]; try congruence;
    cbn [get and_then]; eexists _, _, _; repeat split; reflexivity.
Qed.

End Handler.

Lemma pay_relays_upstream_witness :
  pay upstream_accepting 1762041600000 (mkEnv (Some "FLWSECK-test") None)
      sample_request new_response
  = {| statusCode := 200; sent := Some (VObject [("status", VString "success")]) |}
  ∧ pay upstream_rejecting 1762041600000 (mkEnv None None) sample_request new_response
    = {| statusCode := 500;
         sent := Some (VObject [("error",
                                 VString "Request failed with status code 401")]) |}.
Proof.
  split.
  - refine (proj1 (pay_relays_upstream upstream_accepting 1762041600000
                     (mkEnv (Some "FLWSECK-test") None) sample_request _ eq_refl)
                  {| data := VObject [("status", VString "success")]; status := 200 |} _).
    reflexivity.
  - refine (proj2 (pay_relays_upstream upstream_rejecting 1762041600000
                     (mkEnv None None) sample_request _ eq_refl)
                  (mkError "AxiosError" "Request failed with status code 401") _).
    reflexivity.
Defined.

(** C5. For every request body that has properties to read, the body of the
    upstream request carries the inbound [amount] at top level and the
    inbound [email] and [name] under [customer], each as it was read; its
    [tx_ref] is the decimal numeral of the time of the call in milliseconds,
    which reads back as that time; and its [currency], [redirect_url] and
    [payment_options] are the same three strings for every request.  This is
    the body the upstream receives: an upstream that echoes it makes the
    handler answer with it. *)
Theorem pay_request_body_mapping (now : Z) (env : Env) (req : Request) :
  body req ≠ VUndefined → body req ≠ VNull →
  ∃ amount email name payload : value,
    get (body req) "amount" = inr amount
    ∧ get (body req) "email" = inr email
    ∧ get (body req) "name" = inr name
    ∧ pay_request_body now req = inr payload
    ∧ payload
      = VObject [
          ("tx_ref", VString (Number_toString now));
          ("amount", amount);
          ("currency", VString "KES");
          ("redirect_url", VString "https://your-site.com/callback");
          ("customer", VObject [("email", email); ("name", name)]);
          ("payment_options", VString "card,mpesa,ussd")]
    ∧ Z.of_int <$> NilZero.int_of_string (Number_toString now) = Some now
    ∧ sent (pay upstream_echo now env req new_response) = Some payload.
Proof.
  intros Hu Hn.
  destruct (pay_request_body_built now req Hu Hn) as (a & e & n & Ha & He & Hname & Hb).
  exists a, e, n. eexists. repeat (split; [eassumption |]).
  split; [reflexivity |].
  split; [apply Number_toString_reads_back |].
  unfold pay. rewrite Hb. reflexivity.
Qed.

Lemma pay_request_body_mapping_witness :
  ∃ amount email name payload : value,
    get (body sample_request) "amount" = inr amount
    ∧ get (body sample_request) "email" = inr email
    ∧ get (body sample_request) "name" = inr name
    ∧ pay_request_body 1762041600000 sample_request = inr payload
    ∧ payload
      = VObject [
          ("tx_ref", VString (Number_toString 1762041600000));
          ("amount", amount);
          ("currency", VString "KES");
          ("redirect_url", VString "https://your-site.com/callback");
          ("customer", VObject [("email", email); ("name", name)]);
          ("payment_options", VString "card,mpesa,ussd")]
    ∧ Z.of_int <$> NilZero.int_of_string (Number_toString 1762041600000)
      = Some 1762041600000%Z
    ∧ sent (pay upstream_echo 1762041600000 (mkEnv None None)
                sample_request new_response)
      = Some payload.
Proof.
  apply (pay_request_body_mapping 1762041600000 (mkEnv None None) sample_request).
  - discriminate.
  - discriminate.
Defined.

(** The sample request, evaluated. *)
Example sample_payload :
  pay_request_body 1762041600000 sample_request
  = inr (VObject [
      ("tx_ref", VString "1762041600000");
      ("amount", VNumber 1500);
      ("currency", VString "KES");
      ("redirect_url", VString "https://your-site.com/callback");
      ("customer", VObject [("email", VString "ann@example.com");
                            ("name", VString "Ann")]);
      ("payment_options", VString "card,mpesa,ussd")]).
Proof. reflexivity. Qed.

End ServerProofs.

(** * Further properties of src/script.js *)

Module ScriptFacts.
Import JS Script Callers ScriptProofs.

(** ** Other tokens of the class list *)

Lemma remove_add (token : string) (l : list string) :
  DOMTokenList_remove token (DOMTokenList_add token l) = DOMTokenList_remove token l.
Proof.
  unfold DOMTokenList_add. destruct (DOMTokenList_contains token l); [reflexivity |].
  unfold DOMTokenList_remove. rewrite filter_app, filter_cons.
  destruct (decide (token ≠ token)) as [Hne | _]; [congruence |].
  rewrite filter_nil. apply app_nil_r.
Qed.

Lemma remove_remove (token : string) (l : list string) :
  DOMTokenList_remove token (DOMTokenList_remove token l) = DOMTokenList_remove token l.
Proof. apply remove_absent, contains_remove. Qed.

Lemma remove_toggle (token : string) (l : list string) :
  DOMTokenList_remove token (snd (DOMTokenList_toggle token l))
  = DOMTokenList_remove token l.
Proof.
  unfold DOMTokenList_toggle. destruct (DOMTokenList_contains token l) eqn:Hc; cbn [snd].
  - apply remove_remove.
  - rewrite <- (remove_add token l). unfold DOMTokenList_add. rewrite Hc. reflexivity.
Qed.

(** Two lists that agree once [token] is removed have the same other
    tokens. *)
Lemma contains_other (token other : string) (l1 l2 : list string) :
  other ≠ token →
  DOMTokenList_remove token l1 = DOMTokenList_remove token l2 →
  DOMTokenList_contains other l1 = DOMTokenList_contains other l2.
Proof.
  intros Hne Heq.
  assert (Hin : ∀ l : list string,
             other ∈ l ↔ other ∈ DOMTokenList_remove token l).
  { intros l. unfold DOMTokenList_remove. rewrite list_elem_of_filter. tauto. }
  unfold DOMTokenList_contains. apply bool_decide_ext.
  rewrite (Hin l1), (Hin l2), Heq. reflexivity.
Qed.

Lemma NoDup_add (token : string) (l : list string) :
  NoDup l → NoDup (DOMTokenList_add token l).
Proof.
  intros Hnd. unfold DOMTokenList_add.
  destruct (DOMTokenList_contains token l) eqn:Hc; [exact Hnd |].
  apply contains_false in Hc. apply NoDup_app. split; [exact Hnd |]. split.
  - intros x Hx Hx'. apply list_elem_of_singleton in Hx'. subst x. contradiction.
  - apply NoDup_singleton.
Qed.

Lemma NoDup_remove (token : string) (l : list string) :
  NoDup l → NoDup (DOMTokenList_remove token l).
Proof. intros Hnd. unfold DOMTokenList_remove. apply NoDup_filter, Hnd. Qed.

Lemma NoDup_toggle (token : string) (l : list string) :
  NoDup l → NoDup (snd (DOMTokenList_toggle token l)).
Proof.
  intros Hnd. unfold DOMTokenList_toggle.
  destruct (DOMTokenList_contains token l) eqn:Hc; cbn [snd].
  - apply NoDup_remove, Hnd.
  - pose proof (NoDup_add token l Hnd) as H. unfold DOMTokenList_add in H.
    rewrite Hc in H. exact H.
Qed.

(** ** What one call does to the element, by cases on the action *)

(** The class list a call leaves on an element whose list was [l]. *)
Lemma manage_classList (w : World) (el : nat) (e : Element) (action : string) :
  dom w !! el = Some e →
  ∃ r w' l',
    manageAnimationState el action w = Returned r w'
    ∧ dom w' !! el = Some {| classList := l' |}
    ∧ (∀ other : nat, other ≠ el → dom w' !! other = dom w !! other)
    ∧ DOMTokenList_remove "animating" l' = DOMTokenList_remove "animating" (classList e)
    ∧ (NoDup (classList e) → NoDup l')
    ∧ (known_action action = true → console w' = console w).
Proof.
  intros He. unfold known_action.
  destruct (String.eqb_spec action "start") as [-> | H1].
  { eexists _, _, _. rewrite (manage_start_run _ _ _ He).
    split; [reflexivity |]. split; [apply lookup_set_classList |].
    split; [intros o Ho; cbn [set_classList dom]; apply lookup_insert_ne; congruence |].
    split; [apply remove_add |]. split; [apply NoDup_add | reflexivity]. }
  destruct (String.eqb_spec action "stop") as [-> | H2].
  { eexists _, _, _. rewrite (manage_stop_run _ _ _ He).
    split; [reflexivity |]. split; [apply lookup_set_classList |].
    split; [intros o Ho; cbn [set_classList dom]; apply lookup_insert_ne; congruence |].
    split; [apply remove_remove |]. split; [apply NoDup_remove | reflexivity]. }
  destruct (String.eqb_spec action "toggle") as [-> | H3].
  { eexists _, _, _. rewrite (manage_toggle_run _ _ _ He).
    split; [reflexivity |]. split; [apply lookup_set_classList |].
    split; [intros o Ho; cbn [set_classList dom]; apply lookup_insert_ne; congruence |].
    split; [apply remove_toggle |]. split; [apply NoDup_toggle | reflexivity]. }
  eexists _, _, (classList e). rewrite (manage_other_run _ _ _ He action H1 H2 H3).
  split; [reflexivity |]. cbn [dom]. split; [destruct e; exact He |].
  split; [reflexivity |]. split; [reflexivity |]. split; [auto | discriminate].
Qed.

Lemma has_class_lookup (w : World) (el : nat) (e : Element) (token : string) :
  dom w !! el = Some e →
  has_class w el token = DOMTokenList_contains token (classList e).
Proof. intros He. unfold has_class. rewrite He. reflexivity. Qed.

Lemma set_classList_same (w : World) (el : nat) (e : Element) :
  dom w !! el = Some e → set_classList el (classList e) w = w.
Proof.
  intros He. destruct w as [d c]. unfold set_classList. cbn [dom console] in *.
  f_equal. apply insert_id. destruct e. exact He.
Qed.

(** X1. A call on an element of the DOM leaves every other element as it
    was, and with one of the three known actions it leaves the console as it
    was. *)
Theorem manage_touches_one_element
  (w : World) (el : nat) (e : Element) (action : string) :
  dom w !! el = Some e →
  ∃ r w',
    manageAnimationState el action w = Returned r w'
    ∧ (∀ other : nat, other ≠ el → dom w' !! other = dom w !! other)
    ∧ (known_action action = true → console w' = console w).
Proof.
  intros He.
  destruct (manage_classList w el e action He)
    as (r & w' & l' & Hrun & _ & Hframe & _ & _ & Hlog).
  exists r, w'. auto.
Qed.

Lemma manage_touches_one_element_witness :
  ∃ r w',
    manageAnimationState 1 "toggle" quiet_page = Returned r w'
    ∧ (∀ other : nat, other ≠ 1 → dom w' !! other = dom quiet_page !! other)
    ∧ (known_action "toggle" = true → console w' = console quiet_page).
Proof.
  apply (manage_touches_one_element quiet_page 1 {| classList := ["box"; "glow"] |} "toggle").
  reflexivity.
Defined.

(** X2. Whatever the action, a call leaves the other class tokens of the
    element in place and in order: the class list without ['animating'] is
    the same before and after, so every other class is present afterwards
    exactly when it was before. *)
Theorem manage_keeps_other_classes
  (w : World) (el : nat) (e : Element) (action : string) :
  dom w !! el = Some e →
  ∃ r w' e',
    manageAnimationState el action w = Returned r w'
    ∧ dom w' !! el = Some e'
    ∧ DOMTokenList_remove "animating" (classList e')
      = DOMTokenList_remove "animating" (classList e)
    ∧ (∀ token : string,
         token ≠ "animating" → has_class w' el token = has_class w el token).
Proof.
  intros He.
  destruct (manage_classList w el e action He)
    as (r & w' & l' & Hrun & He' & _ & Hrest & _ & _).
  exists r, w', {| classList := l' |}. split; [exact Hrun |]. split; [exact He' |].
  split; [exact Hrest |]. intros token Hne.
  rewrite (has_class_lookup _ _ _ _ He'), (has_class_lookup _ _ _ _ He).
  apply (contains_other "animating"); assumption.
Qed.

Lemma manage_keeps_other_classes_witness :
  ∃ r w' e',
    manageAnimationState 1 "start" quiet_page = Returned r w'
    ∧ dom w' !! 1 = Some e'
    ∧ DOMTokenList_remove "animating" (classList e')
      = DOMTokenList_remove "animating" ["box"; "glow"]
    ∧ (∀ token : string,
         token ≠ "animating" → has_class w' 1 token = has_class quiet_page 1 token).
Proof.
  apply (manage_keeps_other_classes quiet_page 1 {| classList := ["box"; "glow"] |} "start").
  reflexivity.
Defined.

(** X3. On a reference that is no element, a call throws a [TypeError]
    whatever the action is, before it changes the DOM or writes a warning. *)
Theorem manage_no_element (w : World) (el : nat) (action : string) :
  dom w !! el = None →
  ∃ err, manageAnimationState el action w = Threw err w ∧ name err = "TypeError".
Proof.
  intros Hnone. eexists.
  unfold manageAnimationState, mbind, Run_bind. unfold classList_contains at 1.
  rewrite Hnone. split; reflexivity.
Qed.

Lemma manage_no_element_witness :
  ∃ err, manageAnimationState 3 "bogus" quiet_page = Threw err quiet_page
         ∧ name err = "TypeError".
Proof. apply (manage_no_element quiet_page 3 "bogus"). reflexivity. Defined.

(** X4. A class list without repeated tokens has none after a call either,
    whatever the action. *)
Theorem manage_keeps_tokens_distinct
  (w : World) (el : nat) (e : Element) (action : string) :
  dom w !! el = Some e →
  NoDup (classList e) →
  ∃ r w' e',
    manageAnimationState el action w = Returned r w'
    ∧ dom w' !! el = Some e'
    ∧ NoDup (classList e').
Proof.
  intros He Hnd.
  destruct (manage_classList w el e action He)
    as (r & w' & l' & Hrun & He' & _ & _ & Hnd' & _).
  exists r, w', {| classList := l' |}. auto.
Qed.

Lemma manage_keeps_tokens_distinct_witness :
  ∃ r w' e',
    manageAnimationState 2 "toggle" quiet_page = Returned r w'
    ∧ dom w' !! 2 = Some e'
    ∧ NoDup (classList e').
Proof.
  apply (manage_keeps_tokens_distinct quiet_page 2
           {| classList := ["answer"; "active"] |} "toggle").
  - reflexivity.
  - apply (bool_decide_unpack (NoDup ["answer"; "active"])). reflexivity.
Defined.

(** ** Calls in a row *)

Lemma manage_console (w : World) (el : nat) (e : Element) (action : string) :
  dom w !! el = Some e →
  ∃ r w' e',
    manageAnimationState el action w = Returned r w'
    ∧ dom w' !! el = Some e'
    ∧ console w'
      = (console w
         ++ if known_action action then []
            else [mkLogEntry LevelWarn ["Invalid animation action:"; action]])%list.
Proof.
  intros He. destruct (known_action action) eqn:Hk.
  - destruct (manage_classList w el e action He)
      as (r & w' & l' & Hrun & He' & _ & _ & _ & Hlog).
    exists r, w', {| classList := l' |}. rewrite app_nil_r. auto.
  - unfold known_action in Hk. apply orb_false_elim in Hk as [Hk H3].
    apply orb_false_elim in Hk as [H1 H2]. apply String.eqb_neq in H1, H2, H3.
    eexists _, _, e. rewrite (manage_other_run _ _ _ He action H1 H2 H3).
    split; [reflexivity |]. split; [exact He | reflexivity].
Qed.

(** X5. After any sequence of calls on an element of the DOM, the console
    holds, after what it held before, one warning for each action of the
    sequence that is none of the three known ones, in the order of the
    calls, and nothing else: known actions never write to it. *)
Theorem manage_each_warnings (el : nat) (actions : list string) :
  ∀ (w : World) (e : Element),
    dom w !! el = Some e →
    ∃ w',
      manage_each el actions w = Returned () w'
      ∧ console w'
        = (console w
           ++ map (λ action, mkLogEntry LevelWarn ["Invalid animation action:"; action])
                  (filter (λ action, known_action action = false) actions))%list.
Proof.
  induction actions as [| action rest IH]; intros w e He.
  - exists w. rewrite filter_nil, app_nil_r. split; reflexivity.
  - destruct (manage_console w el e action He) as (r & w1 & e1 & Hrun & He1 & Hlog).
    destruct (IH w1 e1 He1) as (w2 & Hrest & Hlog2).
    exists w2. cbn [manage_each]. unfold mbind, Run_bind. rewrite Hrun.
    split; [exact Hrest |]. rewrite Hlog2, Hlog, filter_cons.
    destruct (known_action action).
    + destruct (decide (true = false)) as [Hx | _]; [discriminate |].
      rewrite app_nil_r. reflexivity.
    + destruct (decide (false = false)) as [_ | Hx]; [| congruence].
      rewrite <- app_assoc. reflexivity.
Qed.

Lemma manage_each_warnings_witness :
  ∃ w',
    manage_each 1 ["start"; "pause"; "toggle"; "Stop"] quiet_page = Returned () w'
    ∧ console w'
      = (console quiet_page
         ++ map (λ action, mkLogEntry LevelWarn ["Invalid animation action:"; action])
                (filter (λ action, known_action action = false)
                        ["start"; "pause"; "toggle"; "Stop"]))%list.
Proof.
  apply (manage_each_warnings 1 ["start"; "pause"; "toggle"; "Stop"] quiet_page
           {| classList := ["box"; "glow"] |}).
  reflexivity.
Defined.

(** X6. On an element that is not animating, a ['start'] call followed by
    a ['stop'] call, and likewise two ['toggle'] calls, leave the whole world
    as it was: the class list in its order, every other element and the
    console. *)
Theorem start_stop_restores_idle (w : World) (el : nat) (e : Element) :
  dom w !! el = Some e →
  animating w el = false →
  (manageAnimationState el "start";; manageAnimationState el "stop") w
  = Returned {| success := true; newState := false; element := el |} w
  ∧ times 2 (manageAnimationState el "toggle") w = Returned () w.
Proof.
  intros He Hidle. rewrite (animating_lookup _ _ _ He) in Hidle.
  assert (Hback : set_classList el
            (DOMTokenList_remove "animating" (DOMTokenList_add "animating" (classList e))) w
          = w).
  { rewrite remove_add, (remove_absent _ _ Hidle). apply set_classList_same, He. }
  split.
  - unfold mbind, Run_bind. rewrite (manage_start_run _ _ _ He).
    rewrite (manage_stop_run _ _ _ (lookup_set_classList w el _)). cbn [classList].
    rewrite set_classList_twice, Hback. reflexivity.
  - unfold times, mbind, mret, Run_bind, Run_ret.
    rewrite (manage_toggle_run _ _ _ He).
    rewrite (manage_toggle_run _ _ _ (lookup_set_classList w el _)). cbn [classList].
    rewrite set_classList_twice. f_equal.
    unfold DOMTokenList_toggle at 2. rewrite Hidle. cbn [snd].
    unfold DOMTokenList_toggle.
    pose proof (contains_add "animating" (classList e)) as Hin.
    unfold DOMTokenList_add in Hin, Hback. rewrite Hidle in Hin, Hback.
    rewrite Hin. cbn [snd]. exact Hback.
Qed.

Lemma start_stop_restores_idle_witness :
  (manageAnimationState 2 "start";; manageAnimationState 2 "stop") quiet_page
  = Returned {| success := true; newState := false; element := 2 |} quiet_page
  ∧ times 2 (manageAnimationState 2 "toggle") quiet_page = Returned () quiet_page.
Proof.
  apply (start_stop_restores_idle quiet_page 2 {| classList := ["answer"; "active"] |}).
  - reflexivity.
  - reflexivity.
Defined.

(** X7. A ['toggle'] call leaves the world that a ['stop'] call leaves when
    the element is animating, and the world that a ['start'] call leaves
    when it is not, and returns the same [newState]; its [success] is that
    [newState], where ['start'] and ['stop'] report true. *)
Theorem toggle_is_start_or_stop (w : World) (el : nat) (e : Element) :
  dom w !! el = Some e →
  ∃ r r' w',
    manageAnimationState el "toggle" w = Returned r w'
    ∧ manageAnimationState el (if animating w el then "stop" else "start") w
      = Returned r' w'
    ∧ newState r = newState r'
    ∧ success r = newState r
    ∧ success r' = true.
Proof.
  intros He. rewrite (manage_toggle_run _ _ _ He), (animating_lookup _ _ _ He).
  unfold DOMTokenList_toggle.
  destruct (DOMTokenList_contains "animating" (classList e)) eqn:Hc; cbn [snd].
  - eexists _, _, _. rewrite (manage_stop_run _ _ _ He). repeat split; reflexivity.
  - eexists _, _, _. rewrite (manage_start_run _ _ _ He). unfold DOMTokenList_add.
    rewrite Hc. repeat split; reflexivity.
Qed.

Lemma toggle_is_start_or_stop_witness :
  ∃ r r' w',
    manageAnimationState 1 "toggle" sample_page = Returned r w'
    ∧ manageAnimationState 1 (if animating sample_page 1 then "stop" else "start")
                           sample_page
      = Returned r' w'
    ∧ newState r = newState r'
    ∧ success r = newState r
    ∧ success r' = true.
Proof.
  apply (toggle_is_start_or_stop sample_page 1 {| classList := ["box"; "animating"] |}).
  reflexivity.
Defined.

(** X8. After [n] ['toggle'] calls in a row the element is animating
    exactly when it was and [n] is even, or it was not and [n] is odd. *)
Theorem toggles_follow_parity (el : nat) (n : nat) :
  ∀ (w : World) (e : Element),
    dom w !! el = Some e →
    ∃ w',
      times n (manageAnimationState el "toggle") w = Returned () w'
      ∧ animating w' el = xorb (animating w el) (Nat.odd n).
Proof.
  induction n as [| n IH]; intros w e He.
  - exists w. split; [reflexivity |]. cbn. rewrite xorb_false_r. reflexivity.
  - pose proof (manage_toggle_run _ _ _ He) as Hrun.
    destruct (IH _ _ (lookup_set_classList w el
                        (snd (DOMTokenList_toggle "animating" (classList e)))))
      as (w2 & Hrest & Hpar).
    exists w2. cbn [times]. unfold mbind, Run_bind. rewrite Hrun.
    split; [exact Hrest |]. rewrite Hpar, animating_set_classList, contains_toggle.
    rewrite <- (animating_lookup _ _ _ He), Nat.odd_succ, <- Nat.negb_odd.
    destruct (animating w el), (Nat.odd n); reflexivity.
Qed.

Lemma toggles_follow_parity_witness :
  ∃ w',
    times 3 (manageAnimationState 2 "toggle") quiet_page = Returned () w'
    ∧ animating w' 2 = xorb (animating quiet_page 2) (Nat.odd 3).
Proof.
  apply (toggles_follow_parity 2 3 quiet_page {| classList := ["answer"; "active"] |}).
  reflexivity.
Defined.

End ScriptFacts.

(** * Further properties of src/server.js *)

Module ServerFacts.
Import JS Server Clients ServerProofs.

Section Handler.

Variable axios_post : string → value → AxiosRequestConfig → Settled.


(** X11. The upstream request is built from the inbound [amount], [email]
    and [name] and from nothing else of the body: two requests that agree on
    these three properties get the same upstream request and the same
    answer. *)
Theorem pay_reads_three_fields (now : Z) (env : Env) (req1 req2 : Request) :
  get (body req1) "amount" = get (body req2) "amount" →
  get (body req1) "email" = get (body req2) "email" →
  get (body req1) "name" = get (body req2) "name" →
  pay_request_body now req1 = pay_request_body now req2
  ∧ pay axios_post now env req1 new_response = pay axios_post now env req2 new_response.
Proof.
  intros Ha He Hn.
  assert (Hb : pay_request_body now req1 = pay_request_body now req2).
  { unfold pay_request_body. rewrite Ha, He, Hn. reflexivity. }
  split; [exact Hb |]. unfold pay. rewrite Hb. reflexivity.
Qed.

End Handler.

(** X10. A request whose body is [undefined] or [null] never reaches the
    upstream: the handler answers 500 with the message of the [TypeError],
    the same whatever the upstream would have done. *)
Theorem pay_without_body_skips_upstream
  (upstream1 upstream2 : string → value → AxiosRequestConfig → Settled)
  (now : Z) (env : Env) (req : Request) :
  body req = VUndefined ∨ body req = VNull →
  pay upstream1 now env req new_response = pay upstream2 now env req new_response
  ∧ statusCode (pay upstream1 now env req new_response) = 500%Z
  ∧ ∃ err, name err = "TypeError"
           ∧ sent (pay upstream1 now env req new_response)
             = Some (VObject [("error", VString (message err))]).
Proof.
  intros Hbody.
  assert (Hthrow : ∃ err, name err = "TypeError" ∧ pay_request_body now req = inl err).
  { unfold pay_request_body.
    destruct Hbody as [-> | ->]; eexists; (split; [| reflexivity]); reflexivity. }
  destruct Hthrow as (err & Hname & Hb).
  rewrite (pay_without_body upstream1 now env req err Hb).
  rewrite (pay_without_body upstream2 now env req err Hb).
  split; [reflexivity |]. split; [reflexivity |]. exists err. auto.
Qed.

Lemma pay_without_body_skips_upstream_witness :
  pay upstream_accepting 1762041600000 (mkEnv None None) bare_request new_response
  = pay upstream_rejecting 1762041600000 (mkEnv None None) bare_request new_response
  ∧ statusCode (pay upstream_accepting 1762041600000 (mkEnv None None)
                    bare_request new_response) = 500%Z
  ∧ ∃ err, name err = "TypeError"
           ∧ sent (pay upstream_accepting 1762041600000 (mkEnv None None)
                       bare_request new_response)
             = Some (VObject [("error", VString (message err))]).
Proof.
  apply (pay_without_body_skips_upstream upstream_accepting upstream_rejecting
           1762041600000 (mkEnv None None) bare_request).
  left. reflexivity.
Defined.

Lemma pay_reads_three_fields_witness :
  pay_request_body 1762041600000 sample_request
  = pay_request_body 1762041600000 padded_request
  ∧ pay upstream_echo 1762041600000 (mkEnv None None) sample_request new_response
    = pay upstream_echo 1762041600000 (mkEnv None None) padded_request new_response.
Proof.
  apply (pay_reads_three_fields upstream_echo 1762041600000 (mkEnv None None)
           sample_request padded_request).
  - reflexivity.
  - reflexivity.
  - reflexivity.
Defined.

(** X12. The handler validates nothing: a body that is no object (a
    boolean, a number, a string, an array) is handled as the empty object
    is.  The upstream request is built, with [undefined] for the amount,
    the email and the name, and the answer is the upstream's. *)
Theorem pay_takes_any_body
  (axios_post : string → value → AxiosRequestConfig → Settled)
  (now : Z) (env : Env) (req : Request) :
  match body req with
  | VBoolean _ | VNumber _ | VString _ | VArray _ => True
  | VUndefined | VNull | VObject _ => False
  end →
  pay_request_body now req
  = inr (VObject [
      ("tx_ref", VString (Number_toString now));
      ("amount", VUndefined);
      ("currency", VString "KES");
      ("redirect_url", VString "https://your-site.com/callback");
      ("customer", VObject [("email", VUndefined); ("name", VUndefined)]);
      ("payment_options", VString "card,mpesa,ussd")])
  ∧ pay axios_post now env req new_response
    = pay axios_post now env {| body := VObject [] |} new_response.
Proof.
  intros Hkind.
  assert (Hget : ∀ key, get (body req) key = get (VObject []) key).
  { intros key. destruct (body req); try contradiction; reflexivity. }
  split.
  - unfold pay_request_body. rewrite !Hget. reflexivity.
  - unfold pay, pay_request_body. rewrite !Hget. reflexivity.
Qed.

Lemma pay_takes_any_body_witness :
  pay_request_body 1762041600000 array_request
  = inr (VObject [
      ("tx_ref", VString (Number_toString 1762041600000));
      ("amount", VUndefined);
      ("currency", VString "KES");
      ("redirect_url", VString "https://your-site.com/callback");
      ("customer", VObject [("email", VUndefined); ("name", VUndefined)]);
      ("payment_options", VString "card,mpesa,ussd")])
  ∧ pay upstream_echo 1762041600000 (mkEnv None None) array_request new_response
    = pay upstream_echo 1762041600000 (mkEnv None None) {| body := VObject [] |}
          new_response.
Proof.
  apply (pay_takes_any_body upstream_echo 1762041600000 (mkEnv None None) array_request).
  exact I.
Defined.

(** X13. The transaction reference tells two times apart and nothing else:
    for a body that has properties to read, the upstream requests built at
    two times are the same exactly when the two times are the same
    millisecond. *)
Theorem pay_tx_ref_per_millisecond (now1 now2 : Z) (req : Request) :
  body req ≠ VUndefined → body req ≠ VNull →
  pay_request_body now1 req = pay_request_body now2 req ↔ now1 = now2.
Proof.
  intros Hu Hn. split; [| intros ->; reflexivity].
  destruct (pay_request_body_built now1 req Hu Hn) as (a1 & e1 & n1 & _ & _ & _ & H1).
  destruct (pay_request_body_built now2 req Hu Hn) as (a2 & e2 & n2 & _ & _ & _ & H2).
  rewrite H1, H2. intros [= Href _ _ _]. apply Number_toString_inj, Href.
Qed.

Lemma pay_tx_ref_per_millisecond_witness :
  pay_request_body 1762041600000 partial_request
  = pay_request_body 1762041600001 partial_request
  ↔ 1762041600000%Z = 1762041600001%Z.
Proof.
  apply (pay_tx_ref_per_millisecond 1762041600000 1762041600001 partial_request).
  - discriminate.
  - discriminate.
Defined.

End ServerFacts.

(** * Properties of the strings and regular expressions of src/script.js *)

Module TextFacts.
Import Stdlib.Strings.Ascii.
Import Text.

#[local] Open Scope list_scope.
#[local] Open Scope N_scope.

(** ** The matcher decides [Matches] *)

Lemma Matches_nil (p : Pattern) : Matches p [] → nullable p = true.
Proof.
  intros H. remember [] as s eqn:Hs.
  induction H as [| c | items c Hc | p q s t Hp IHp Hq IHq | p q s Hp IHp
                  | p q s Hq IHq | p | p s t Hp IHp Hs' IHs];
    cbn [nullable]; try discriminate; try reflexivity.
  - apply app_eq_nil in Hs as [-> ->].
    rewrite IHp, IHq; reflexivity.
  - rewrite IHp; [reflexivity | assumption].
  - rewrite IHq; [apply orb_true_r | assumption].
Qed.

Lemma nullable_Matches (p : Pattern) : nullable p = true → Matches p [].
Proof.
  induction p as [| | c | items | p IHp q IHq | p IHp q IHq | p IHp];
    cbn [nullable]; intros H; try discriminate.
  - constructor.
  - apply andb_prop in H as [Hp Hq]. change (@nil N) with (@nil N ++ []).
    constructor; auto.
  - apply orb_prop in H as [Hp | Hq]; [apply Matches_Alt_l | apply Matches_Alt_r]; auto.
  - constructor.
Qed.

Lemma deriv_sound (p : Pattern) :
  ∀ (c : N) (s : list N), Matches (deriv c p) s → Matches p (c :: s).
Proof.
  induction p as [| | c' | items | p IHp q IHq | p IHp q IHq | p IHp];
    intros c s H; cbn [deriv] in H.
  - inversion H.
  - inversion H.
  - destruct (N.eqb_spec c c') as [-> | Hne]; inversion H; subst. constructor.
  - destruct (class_has items c) eqn:Hc; inversion H; subst. constructor. exact Hc.
  - assert (Hseq : ∀ u, Matches (Seq (deriv c p) q) u → Matches (Seq p q) (c :: u)).
    { intros u Hu. inversion Hu as [| | | p' q' s1 t H1 H2 | | | |]; subst.
      change (c :: s1 ++ t) with ((c :: s1) ++ t). constructor; auto. }
    destruct (nullable p) eqn:Hnull; [| auto].
    inversion H as [| | | | p' q' u Hu | p' q' u Hu | |]; subst; [auto |].
    change (c :: s) with ([] ++ c :: s). constructor; [| auto].
    apply nullable_Matches, Hnull.
  - inversion H; subst; [apply Matches_Alt_l | apply Matches_Alt_r]; auto.
  - inversion H as [| | | p' q' s1 t H1 H2 | | | |]; subst.
    change (c :: s1 ++ t) with ((c :: s1) ++ t). constructor; auto.
Qed.

Lemma deriv_complete (p : Pattern) :
  ∀ (c : N) (s : list N), Matches p (c :: s) → Matches (deriv c p) s.
Proof.
  induction p as [| | c' | items | p IHp q IHq | p IHp q IHq | p IHp];
    intros c s H; cbn [deriv].
  - inversion H.
  - inversion H.
  - inversion H; subst. rewrite N.eqb_refl. constructor.
  - inversion H as [| | items' c'' Hc | | | | |]; subst. rewrite Hc. constructor.
  - inversion H as [| | | p' q' s1 t H1 H2 | | | |]; subst.
    match goal with Hcat : _ ++ _ = _ :: _ |- _ => rename Hcat into Heq end.
    destruct s1 as [| c1 s1]; cbn in Heq.
    + subst t. rewrite (Matches_nil p H1). apply Matches_Alt_r. auto.
    + injection Heq as -> <-.
      assert (Hseq : Matches (Seq (deriv c p) q) (s1 ++ t)) by (constructor; auto).
      destruct (nullable p); [apply Matches_Alt_l |]; exact Hseq.
  - inversion H; subst; [apply Matches_Alt_l | apply Matches_Alt_r]; auto.
  - remember (Star p) as r eqn:Hr. remember (c :: s) as cs eqn:Hcs.
    revert s Hcs.
    induction H as [| | | | | | p' | p' s1 t H1 _ H2 IH2]; intros rest Hcs;
      try discriminate.
    injection Hr as ->. destruct s1 as [| c1 s1]; cbn in Hcs.
    + apply IH2; [reflexivity | exact Hcs].
    + injection Hcs as -> <-. constructor; auto.
Qed.

Lemma test_whole_Matches (s : list N) :
  ∀ p : Pattern, test_whole p s = true ↔ Matches p s.
Proof.
  induction s as [| c s IH]; intros p; cbn [test_whole].
  - split; [apply nullable_Matches | apply Matches_nil].
  - rewrite IH. split; [apply deriv_sound | apply deriv_complete].
Qed.

(** White space at the edges of the ranges, and four code units that are
    none: U+0008, U+000E, U+0085 and U+200B. *)
Example is_space_edges :
  forallb is_space [9; 13; 32; 160; 5760; 8192; 8202; 8232; 8233; 8239; 8287; 12288; 65279]
  = true
  ∧ existsb is_space [8; 14; 133; 8203] = false.
Proof. split; reflexivity. Qed.

Example trim_both_ends : trim (units "  Ann Lee  ") = units "Ann Lee".
Proof. reflexivity. Qed.

(** ** isValidEmail *)

Lemma not_space_or_at_class (c : N) :
  class_has [ClassSpace; ClassUnit (unit_of "@")] c = false
  ↔ is_space c = false ∧ c ≠ unit_of "@".
Proof.
  unfold class_has. cbn [existsb item_has]. rewrite orb_false_r, orb_false_iff.
  rewrite N.eqb_neq. reflexivity.
Qed.

Lemma Matches_class_star (s : list N) :
  Matches (Star not_space_or_at) s
  ↔ Forall (λ c, is_space c = false ∧ c ≠ unit_of "@") s.
Proof.
  split.
  - intros H. remember (Star not_space_or_at) as r eqn:Hr.
    induction H as [| | | | | | p | p s t H1 _ H2 IH2]; try discriminate.
    + constructor.
    + injection Hr as ->. apply Forall_app. split; [| auto].
      inversion H1 as [| | items c Hc | | | | |]; subst.
      constructor; [apply not_space_or_at_class, Hc | constructor].
  - induction 1 as [| c s Hc _ IH]; [constructor |].
    change (c :: s) with ([c] ++ s). constructor; [| exact IH].
    constructor. apply not_space_or_at_class, Hc.
Qed.

Lemma Matches_class_plus (s : list N) :
  Matches (Plus not_space_or_at) s ↔ plain s.
Proof.
  unfold Plus, plain. split.
  - intros H. inversion H as [| | | p q s1 t H1 H2 | | | |]; subst.
    inversion H1 as [| | items c Hc | | | | |]; subst. cbn [app].
    split; [discriminate |]. constructor.
    + apply not_space_or_at_class, Hc.
    + apply Matches_class_star, H2.
  - intros [Hne Hall]. destruct s as [| c s]; [congruence |].
    apply Forall_cons in Hall as [Hc Hall]. change (c :: s) with ([c] ++ s).
    constructor; [| apply Matches_class_star, Hall].
    constructor. apply not_space_or_at_class, Hc.
Qed.

(** The script's own examples of use, and three strings at the edge of the
    pattern. *)
Example email_accepted : isValidEmail (units "ann@example.com") = true.
Proof. reflexivity. Qed.

Example email_without_dot : isValidEmail (units "ann@example") = false.
Proof. reflexivity. Qed.

Example email_with_space : isValidEmail (units "ann smith@example.com") = false.
Proof. reflexivity. Qed.

Example email_of_dots : isValidEmail (units ".@...") = true.
Proof. reflexivity. Qed.

(** The parts of a string that matches the pattern. *)
Lemma email_parts (email : list N) :
  Matches emailRegex email →
  ∃ l d t : list N,
    email = l ++ unit_of "@" :: d ++ unit_of "." :: t
    ∧ plain l ∧ plain d ∧ plain t.
Proof.
  unfold emailRegex. intros H.
  inversion H as [| | | p1 q1 l r1 Hl H1 | | | |]; subst.
  inversion H1 as [| | | p2 q2 a r2 Ha H2 | | | |]; subst.
  inversion H2 as [| | | p3 q3 d r3 Hd H3 | | | |]; subst.
  inversion H3 as [| | | p4 q4 b t Hb Ht | | | |]; subst.
  inversion Ha; subst. inversion Hb; subst.
  exists l, d, t. split; [reflexivity |].
  repeat split; apply Matches_class_plus; assumption.
Qed.

(** X14. [isValidEmail] accepts a string exactly when it is [l@d.t] where
    each of [l], [d] and [t] is a non-empty run of code units that are
    neither white space nor [@] (a dot is allowed anywhere in them). *)
Theorem isValidEmail_shape (email : list N) :
  isValidEmail email = true
  ↔ ∃ l d t : list N,
      email = l ++ unit_of "@" :: d ++ unit_of "." :: t
      ∧ plain l ∧ plain d ∧ plain t.
Proof.
  unfold isValidEmail. rewrite test_whole_Matches. split; [apply email_parts |].
  intros (l & d & t & -> & Hl & Hd & Ht). unfold emailRegex.
  constructor; [apply Matches_class_plus, Hl |].
  change (unit_of "@" :: d ++ unit_of "." :: t)
    with ([unit_of "@"] ++ d ++ [unit_of "."] ++ t).
  constructor; [constructor |].
  constructor; [apply Matches_class_plus, Hd |].
  constructor; [constructor | apply Matches_class_plus, Ht].
Qed.

Lemma isValidEmail_shape_witness :
  isValidEmail (units "ann@example.com") = true
  ↔ ∃ l d t : list N,
      units "ann@example.com" = l ++ unit_of "@" :: d ++ unit_of "." :: t
      ∧ plain l ∧ plain d ∧ plain t.
Proof. apply (isValidEmail_shape (units "ann@example.com")). Defined.

Lemma plain_no_at (s : list N) :
  plain s → filter (λ c, c = unit_of "@") s = [].
Proof.
  intros [_ Hall]. induction Hall as [| c s [_ Hc] _ IH]; [reflexivity |].
  rewrite filter_cons. destruct (decide (c = unit_of "@")); [contradiction | exact IH].
Qed.

Lemma plain_no_space (s : list N) :
  plain s → Forall (λ c, is_space c = false) s.
Proof. intros [_ Hall]. eapply Forall_impl; [exact Hall |]. intros c [Hc _]. exact Hc. Qed.

Lemma plain_length (s : list N) : plain s → (1 ≤ length s)%nat.
Proof. intros [Hne _]. destruct s; [congruence | cbn; lia]. Qed.

Lemma trimStart_no_space (s : list N) :
  Forall (λ c, is_space c = false) s → trimStart s = s.
Proof. intros [| c rest Hc _]; [reflexivity |]. cbn [trimStart]. rewrite Hc. reflexivity. Qed.

Lemma trim_no_space (s : list N) :
  Forall (λ c, is_space c = false) s → trim s = s.
Proof.
  intros Hall. unfold trim, trimEnd. rewrite (trimStart_no_space s Hall).
  rewrite trimStart_no_space; [apply rev_involutive |].
  apply Forall_rev, Hall.
Qed.

(** X15. A string that [isValidEmail] accepts has exactly one [@], no
    white space of any kind and at least five code units, and [trim] leaves
    it as it is. *)
Theorem isValidEmail_necessary (email : list N) :
  isValidEmail email = true →
  length (filter (λ c, c = unit_of "@") email) = 1%nat
  ∧ Forall (λ c, is_space c = false) email
  ∧ (5 ≤ length email)%nat
  ∧ trim email = email.
Proof.
  intros H. unfold isValidEmail in H. apply test_whole_Matches, email_parts in H.
  destruct H as (l & d & t & -> & Hl & Hd & Ht).
  assert (Hspace : Forall (λ c, is_space c = false)
                     (l ++ unit_of "@" :: d ++ unit_of "." :: t)).
  { apply Forall_app. split; [apply plain_no_space, Hl |].
    constructor; [reflexivity |]. apply Forall_app. split; [apply plain_no_space, Hd |].
    constructor; [reflexivity | apply plain_no_space, Ht]. }
  split; [| split; [exact Hspace | split; [| apply trim_no_space, Hspace]]].
  - rewrite filter_app, filter_cons, filter_app, filter_cons.
    rewrite (plain_no_at l Hl), (plain_no_at d Hd), (plain_no_at t Ht).
    destruct (decide (unit_of "@" = unit_of "@")) as [_ | Hx]; [| congruence].
    destruct (decide (unit_of "." = unit_of "@")) as [Hx | _]; [discriminate |].
    reflexivity.
  - pose proof (plain_length l Hl). pose proof (plain_length d Hd).
    pose proof (plain_length t Ht).
    rewrite length_app. cbn [length]. rewrite length_app. cbn [length]. lia.
Qed.

Lemma isValidEmail_necessary_witness :
  length (filter (λ c, c = unit_of "@") (units "ann@example.com")) = 1%nat
  ∧ Forall (λ c, is_space c = false) (units "ann@example.com")
  ∧ (5 ≤ length (units "ann@example.com"))%nat
  ∧ trim (units "ann@example.com") = units "ann@example.com".
Proof.
  apply (isValidEmail_necessary (units "ann@example.com")).
  reflexivity.
Defined.

End TextFacts.

(** * Properties of getRandomColor *)

Module ColorFacts.
Import Stdlib.Strings.Ascii.
Import Colors.

Example color_of_counting : getRandomColor counting_draws 0 = ("#ABCDEF", 6).
Proof. reflexivity. Qed.

(** The digit at each index of the letters. *)
Lemma letter_at (d : Z) :
  (0 ≤ d < 16)%Z →
  ∃ a : Ascii.ascii,
    char_at "0123456789ABCDEF" d = Some (String a EmptyString)
    ∧ a ∈ String.list_ascii_of_string "0123456789ABCDEF".
Proof.
  intros Hd.
  assert (Hcases : d ∈ (Z.of_nat <$> seq 0 16)).
  { apply list_elem_of_fmap. exists (Z.to_nat d). split; [lia |].
    apply elem_of_seq. lia. }
  cbn in Hcases. unfold char_at.
  repeat (apply elem_of_cons in Hcases as [-> | Hcases];
          [eexists; split;
           [reflexivity
           | cbn; repeat first [apply list_elem_of_here | apply list_elem_of_further]] |]).
  inversion Hcases.
Qed.

Lemma letter_at_inj (d d' : Z) :
  (0 ≤ d < 16)%Z → (0 ≤ d' < 16)%Z →
  char_at "0123456789ABCDEF" d = char_at "0123456789ABCDEF" d' → d = d'.
Proof.
  intros Hd Hd'.
  assert (Hcases : d ∈ (Z.of_nat <$> seq 0 16)).
  { apply list_elem_of_fmap. exists (Z.to_nat d). split; [lia |]. apply elem_of_seq. lia. }
  assert (Hcases' : d' ∈ (Z.of_nat <$> seq 0 16)).
  { apply list_elem_of_fmap. exists (Z.to_nat d'). split; [lia |]. apply elem_of_seq. lia. }
  cbn in Hcases, Hcases'.
  repeat (apply elem_of_cons in Hcases as [-> | Hcases]);
    [.. | inversion Hcases];
    repeat (apply elem_of_cons in Hcases' as [-> | Hcases']);
    try (inversion Hcases'; fail); cbv; congruence.
Qed.

(** The colour as a function of the six draws. *)
Lemma getRandomColor_unfold (draws : nat → Z) (cursor : nat) :
  getRandomColor draws cursor
  = ((((((("#"
           ++ ToString (char_at "0123456789ABCDEF" (draws (0 + cursor)%nat)))
          ++ ToString (char_at "0123456789ABCDEF" (draws (1 + cursor)%nat)))
         ++ ToString (char_at "0123456789ABCDEF" (draws (2 + cursor)%nat)))
        ++ ToString (char_at "0123456789ABCDEF" (draws (3 + cursor)%nat)))
       ++ ToString (char_at "0123456789ABCDEF" (draws (4 + cursor)%nat)))
      ++ ToString (char_at "0123456789ABCDEF" (draws (5 + cursor)%nat)))%string,
     (6 + cursor)%nat).
Proof. reflexivity. Qed.

(** X16. When the six draws are whole numbers from 0 to 15, as the random
    source gives them, [getRandomColor] returns [#] followed by exactly six
    characters, each one of [0123456789ABCDEF], and it has called the random
    source six times. *)
Theorem getRandomColor_is_hex_colour (draws : nat → Z) (cursor : nat) :
  in_range draws cursor 6 →
  ∃ digits : list Ascii.ascii,
    getRandomColor draws cursor
    = (String "#"%char (String.string_of_list_ascii digits), 6 + cursor)
    ∧ length digits = 6
    ∧ Forall (λ a, a ∈ String.list_ascii_of_string "0123456789ABCDEF") digits.
Proof.
  intros Hrange. rewrite getRandomColor_unfold.
  destruct (letter_at (draws (0 + cursor))) as (a0 & E0 & H0); [apply Hrange; lia |].
  destruct (letter_at (draws (1 + cursor))) as (a1 & E1 & H1); [apply Hrange; lia |].
  destruct (letter_at (draws (2 + cursor))) as (a2 & E2 & H2); [apply Hrange; lia |].
  destruct (letter_at (draws (3 + cursor))) as (a3 & E3 & H3); [apply Hrange; lia |].
  destruct (letter_at (draws (4 + cursor))) as (a4 & E4 & H4); [apply Hrange; lia |].
  destruct (letter_at (draws (5 + cursor))) as (a5 & E5 & H5); [apply Hrange; lia |].
  rewrite E0, E1, E2, E3, E4, E5.
  exists [a0; a1; a2; a3; a4; a5]. split; [reflexivity |]. split; [reflexivity |].
  repeat (constructor; [assumption |]). constructor.
Qed.

Lemma getRandomColor_is_hex_colour_witness :
  ∃ digits : list Ascii.ascii,
    getRandomColor counting_draws 3
    = (String "#"%char (String.string_of_list_ascii digits), 6 + 3)
    ∧ length digits = 6
    ∧ Forall (λ a, a ∈ String.list_ascii_of_string "0123456789ABCDEF") digits.
Proof.
  apply (getRandomColor_is_hex_colour counting_draws 3).
  intros k Hk. unfold counting_draws. apply Z.mod_pos_bound. lia.
Defined.

(** X17. The colour tells the six draws: for draws from 0 to 15, two calls
    return the same colour exactly when their six draws were the same, one
    by one. *)
Theorem getRandomColor_one_to_one (draws1 draws2 : nat → Z) (cursor1 cursor2 : nat) :
  in_range draws1 cursor1 6 →
  in_range draws2 cursor2 6 →
  fst (getRandomColor draws1 cursor1) = fst (getRandomColor draws2 cursor2)
  ↔ ∀ i : nat, i < 6 → draws1 (i + cursor1) = draws2 (i + cursor2).
Proof.
  intros Hr1 Hr2. rewrite !getRandomColor_unfold. cbn [fst]. split.
  - intros Heq.
    assert (Hd1 : ∀ i, i < 6 → (0 ≤ draws1 (i + cursor1)%nat < 16)%Z)
      by (intros i Hi; apply Hr1; lia).
    assert (Hd2 : ∀ i, i < 6 → (0 ≤ draws2 (i + cursor2)%nat < 16)%Z)
      by (intros i Hi; apply Hr2; lia).
    assert (Hchars : ∀ i, i < 6 →
              char_at "0123456789ABCDEF" (draws1 (i + cursor1))
              = char_at "0123456789ABCDEF" (draws2 (i + cursor2))).
    { destruct (letter_at _ (Hd1 0 ltac:(lia))) as (a0 & A0 & _).
      destruct (letter_at _ (Hd1 1 ltac:(lia))) as (a1 & A1 & _).
      destruct (letter_at _ (Hd1 2 ltac:(lia))) as (a2 & A2 & _).
      destruct (letter_at _ (Hd1 3 ltac:(lia))) as (a3 & A3 & _).
      destruct (letter_at _ (Hd1 4 ltac:(lia))) as (a4 & A4 & _).
      destruct (letter_at _ (Hd1 5 ltac:(lia))) as (a5 & A5 & _).
      destruct (letter_at _ (Hd2 0 ltac:(lia))) as (b0 & B0 & _).
      destruct (letter_at _ (Hd2 1 ltac:(lia))) as (b1 & B1 & _).
      destruct (letter_at _ (Hd2 2 ltac:(lia))) as (b2 & B2 & _).
      destruct (letter_at _ (Hd2 3 ltac:(lia))) as (b3 & B3 & _).
      destruct (letter_at _ (Hd2 4 ltac:(lia))) as (b4 & B4 & _).
      destruct (letter_at _ (Hd2 5 ltac:(lia))) as (b5 & B5 & _).
      rewrite A0, A1, A2, A3, A4, A5, B0, B1, B2, B3, B4, B5 in Heq.
      cbn in Heq. injection Heq as -> -> -> -> -> ->.
      intros i Hi.
      destruct i as [| [| [| [| [| [| i]]]]]]; [congruence .. | lia]. }
    intros i Hi. apply letter_at_inj; auto.
  - intros Hsame.
    rewrite (Hsame 0), (Hsame 1), (Hsame 2), (Hsame 3), (Hsame 4), (Hsame 5) by lia.
    reflexivity.
Qed.

Lemma getRandomColor_one_to_one_witness :
  fst (getRandomColor counting_draws 0) = fst (getRandomColor falling_draws 0)
  ↔ ∀ i : nat, i < 6 → counting_draws (i + 0) = falling_draws (i + 0).
Proof.
  apply (getRandomColor_one_to_one counting_draws falling_draws 0 0).
  - intros k Hk. unfold counting_draws. apply Z.mod_pos_bound. lia.
  - intros k Hk. unfold falling_draws. apply Z.mod_pos_bound. lia.
Defined.

End ColorFacts.

(** * Properties of the event handlers of src/script.js *)

Module HandlerFacts.
Import JS Script Callers Handlers ScriptProofs ScriptFacts.

(** ** Steps that set one class of one element *)

Lemma contains_add_other (t tok : string) (l : list string) :
  DOMTokenList_contains tok (DOMTokenList_add t l)
  = if decide (tok = t) then true else DOMTokenList_contains tok l.
Proof.
  destruct (decide (tok = t)) as [-> | Hne]; [apply contains_add |].
  apply (contains_other t); [exact Hne | apply remove_add].
Qed.

Lemma contains_remove_other (t tok : string) (l : list string) :
  DOMTokenList_contains tok (DOMTokenList_remove t l)
  = if decide (tok = t) then false else DOMTokenList_contains tok l.
Proof.
  destruct (decide (tok = t)) as [-> | Hne]; [apply contains_remove |].
  apply (contains_other t); [exact Hne | apply remove_remove].
Qed.

Lemma set_classList_sets
  (w : World) (el : nat) (e : Element) (t : string) (v : bool) (l : list string) :
  dom w !! el = Some e →
  (∀ tok, DOMTokenList_contains tok l
          = if decide (tok = t) then v else DOMTokenList_contains tok (classList e)) →
  sets_class el t v w (set_classList el l w).
Proof.
  intros He Hl. split; [reflexivity |]. split.
  - intros x. unfold set_classList. cbn [dom].
    destruct (decide (x = el)) as [-> | Hne].
    + rewrite lookup_insert_eq, He. split; eauto.
    + rewrite lookup_insert_ne by congruence. reflexivity.
  - intros x tok. unfold has_class at 1, set_classList. cbn [dom].
    destruct (decide (x = el)) as [-> | Hne].
    + rewrite lookup_insert_eq. cbn [classList]. rewrite Hl.
      rewrite (has_class_lookup _ _ _ _ He).
      destruct (decide (tok = t)) as [-> | Hne].
      * destruct (decide (el = el ∧ t = t)) as [_ | Hx]; [reflexivity | tauto].
      * destruct (decide (el = el ∧ tok = t)) as [[_ Hx] | _]; [contradiction | reflexivity].
    + rewrite lookup_insert_ne by congruence.
      destruct (decide (x = el ∧ tok = t)) as [[Hx _] | _]; [contradiction | reflexivity].
Qed.

Lemma classList_add_sets (w : World) (el : nat) (t : string) :
  is_Some (dom w !! el) →
  ∃ w', classList_add el t w = Returned () w' ∧ sets_class el t true w w'.
Proof.
  intros [e He]. eexists. unfold classList_add. rewrite He. split; [reflexivity |].
  apply (set_classList_sets w el e t true _ He). intros tok. apply contains_add_other.
Qed.

Lemma classList_remove_sets (w : World) (el : nat) (t : string) :
  is_Some (dom w !! el) →
  ∃ w', classList_remove el t w = Returned () w' ∧ sets_class el t false w w'.
Proof.
  intros [e He]. eexists. unfold classList_remove. rewrite He. split; [reflexivity |].
  apply (set_classList_sets w el e t false _ He). intros tok. apply contains_remove_other.
Qed.

Lemma manage_stop_sets (w : World) (el : nat) :
  is_Some (dom w !! el) →
  ∃ w', manageAnimationState el "stop" w
        = Returned {| success := true; newState := false; element := el |} w'
        ∧ sets_class el "animating" false w w'.
Proof.
  intros [e He]. eexists. rewrite (manage_stop_run _ _ _ He). split; [reflexivity |].
  apply (set_classList_sets w el e "animating" false _ He).
  intros tok. apply contains_remove_other.
Qed.

Lemma sets_class_present (el : nat) (t : string) (v : bool) (w w' : World) (x : nat) :
  sets_class el t v w w' → is_Some (dom w !! x) → is_Some (dom w' !! x).
Proof. intros (_ & Hdom & _) Hx. apply Hdom, Hx. Qed.

(** Settles a goal about the classes of a world reached by steps that each
    set one class, given the equations of the steps, last step first. *)
Ltac settle_classes :=
  repeat case_decide; try reflexivity; try congruence;
  try (exfalso; intuition congruence).

(** ** Closing the popup *)



(** ** The glow effect *)

(** X19. [applyGlowEffect] puts ['glow'] on the element and sets one timer
    of 1000 ms that takes it away.  No timer is ever cleared: when the
    effect is applied a second time before the first timer has fired, the
    first timer takes away the glow that the second call asked for, and the
    second timer finds nothing left to remove. *)
Theorem glow_timers_overlap (w : World) (el : nat) :
  is_Some (dom w !! el) →
  ∃ w1 w2 w3,
    applyGlowEffect el w
    = Returned [ {| task := RemoveClass el "glow"; delay := 1000 |} ] w1
    ∧ has_class w1 el "glow" = true
    ∧ applyGlowEffect el w1
      = Returned [ {| task := RemoveClass el "glow"; delay := 1000 |} ] w2
    ∧ has_class w2 el "glow" = true
    ∧ run_task (RemoveClass el "glow") w2 = Returned () w3
    ∧ has_class w3 el "glow" = false
    ∧ run_task (RemoveClass el "glow") w3 = Returned () w3.
Proof.
  intros Hp.
  destruct (classList_add_sets w el "glow" Hp) as (w1 & R1 & C1 & D1 & H1).
  assert (Hp1 : is_Some (dom w1 !! el)) by (apply D1, Hp).
  destruct (classList_add_sets w1 el "glow" Hp1) as (w2 & R2 & C2 & D2 & H2).
  assert (Hp2 : is_Some (dom w2 !! el)) by (apply D2, Hp1).
  destruct (classList_remove_sets w2 el "glow" Hp2) as (w3 & R3 & C3 & D3 & H3).
  assert (Hoff : has_class w3 el "glow" = false) by (rewrite H3; settle_classes).
  exists w1, w2, w3.
  split; [unfold applyGlowEffect, mbind, mret, Run_bind, Run_ret; rewrite R1; reflexivity |].
  split; [rewrite H1; settle_classes |].
  split; [unfold applyGlowEffect, mbind, mret, Run_bind, Run_ret; rewrite R2; reflexivity |].
  split; [rewrite H2; settle_classes |].
  split; [exact R3 |]. split; [exact Hoff |].
  destruct (D3 el) as [_ Hback]. destruct (Hback Hp2) as [e3 He3].
  cbn [run_task]. unfold classList_remove. rewrite He3.
  rewrite (has_class_lookup _ _ _ _ He3) in Hoff.
  rewrite (remove_absent _ _ Hoff), (set_classList_same _ _ _ He3). reflexivity.
Qed.

Lemma glow_timers_overlap_witness :
  ∃ w1 w2 w3,
    applyGlowEffect 1 tabbed_page
    = Returned [ {| task := RemoveClass 1 "glow"; delay := 1000 |} ] w1
    ∧ has_class w1 1 "glow" = true
    ∧ applyGlowEffect 1 w1
      = Returned [ {| task := RemoveClass 1 "glow"; delay := 1000 |} ] w2
    ∧ has_class w2 1 "glow" = true
    ∧ run_task (RemoveClass 1 "glow") w2 = Returned () w3
    ∧ has_class w3 1 "glow" = false
    ∧ run_task (RemoveClass 1 "glow") w3 = Returned () w3.
Proof.
  apply (glow_timers_overlap tabbed_page 1). eexists. reflexivity.
Defined.

(** ** The tabs *)

#[local] Open Scope list_scope.

Lemma forEach_remove_run (t : string) (l : list nat) :
  ∀ w : World,
    (∀ x, x ∈ l → is_Some (dom w !! x)) →
    ∃ w',
      forEach l (λ b, classList_remove b t) w = Returned () w'
      ∧ console w' = console w
      ∧ (∀ x, is_Some (dom w' !! x) ↔ is_Some (dom w !! x))
      ∧ (∀ x tok, has_class w' x tok
                  = if decide (x ∈ l ∧ tok = t) then false else has_class w x tok).
Proof.
  induction l as [| b l IH]; intros w Hall.
  - exists w. split; [reflexivity |]. split; [reflexivity |]. split; [reflexivity |].
    intros x tok. case_decide as Hx; [| reflexivity].
    destruct Hx as [Hx _]. inversion Hx.
  - destruct (classList_remove_sets w b t (Hall b ltac:(left))) as (w1 & R1 & C1 & D1 & H1).
    destruct (IH w1) as (w' & R & C & D & H).
    { intros x Hx. apply D1, Hall. right. exact Hx. }
    exists w'. split.
    { cbn [forEach]. unfold mbind, Run_bind. rewrite R1. exact R. }
    split; [congruence |]. split; [intros x; rewrite D; apply D1 |].
    intros x tok. rewrite H, H1.
    repeat case_decide; try reflexivity; exfalso;
      rewrite elem_of_cons in *; intuition congruence.
Qed.

Section Tabs.

Variables tabBtns tabPanes : list nat.
Variable data_tab : nat → option string.
Variable getElementById : string → option nat.

(** The classes after the four steps that a click always makes. *)
Lemma tab_click_prefix (w : World) (this : nat) :
  (∀ x, x ∈ tabBtns ++ tabPanes → is_Some (dom w !! x)) →
  is_Some (dom w !! this) →
  ∃ w3,
    tab_click tabBtns tabPanes data_tab getElementById this w
    = match getElementById (default "null" (data_tab this)) with
      | Some pane => classList_add pane "active"
      | None => throw (TypeError_read "null" "classList")
      end w3
    ∧ console w3 = console w
    ∧ (∀ x, is_Some (dom w3 !! x) ↔ is_Some (dom w !! x))
    ∧ (∀ x tok, has_class w3 x tok
                = if decide (x = this ∧ tok = "active") then true
                  else if decide (x ∈ tabBtns ++ tabPanes ∧ tok = "active") then false
                  else has_class w x tok).
Proof.
  intros Hall Hthis.
  destruct (forEach_remove_run "active" tabBtns w) as (w1 & R1 & C1 & D1 & H1).
  { intros x Hx. apply Hall, elem_of_app. left. exact Hx. }
  destruct (forEach_remove_run "active" tabPanes w1) as (w2 & R2 & C2 & D2 & H2).
  { intros x Hx. apply D1, Hall, elem_of_app. right. exact Hx. }
  destruct (classList_add_sets w2 this "active") as (w3 & R3 & C3 & D3 & H3).
  { apply D2, D1, Hthis. }
  exists w3. split.
  { unfold tab_click, getAttribute_data_tab, mbind, Run_bind.
    destruct Hthis as [e He]. rewrite He, R1, R2, R3. reflexivity. }
  split; [congruence |].
  split; [intros x; rewrite D3, D2; apply D1 |].
  intros x tok. rewrite H3, H2, H1.
  repeat case_decide; try reflexivity; exfalso;
    rewrite elem_of_app in *; intuition congruence.
Qed.


(** X24. A click on a tab button whose [data-tab] is missing or names no
    element throws a [TypeError], after the button has become the active
    one and every pane has lost ['active']: no pane is shown any more. *)
Theorem tab_click_without_pane (w : World) (this : nat) :
  (∀ x, x ∈ tabBtns ++ tabPanes → is_Some (dom w !! x)) →
  is_Some (dom w !! this) →
  getElementById (default "null" (data_tab this)) = None →
  ∃ err w',
    tab_click tabBtns tabPanes data_tab getElementById this w = Threw err w'
    ∧ name err = "TypeError"
    ∧ (∀ x, x ∈ tabBtns ++ tabPanes → (has_class w' x "active" = true ↔ x = this))
    ∧ has_class w' this "active" = true.
Proof.
  intros Hall Hthis Hnone.
  destruct (tab_click_prefix w this Hall Hthis) as (w3 & R & C3 & D3 & H3).
  rewrite Hnone in R.
  eexists _, w3. split; [rewrite R; reflexivity |].
  split; [reflexivity |]. split.
  - intros x Hx. rewrite H3.
    repeat case_decide; split; intros; try tauto; try discriminate;
      try (exfalso; intuition congruence).
  - rewrite H3. settle_classes.
Qed.

End Tabs.

Lemma tabbed_page_present (x : nat) :
  x ∈ [1; 2; 3] ++ [11; 12; 13] → is_Some (dom tabbed_page !! x).
Proof.
  cbn [app]. rewrite !elem_of_cons.
  intros [-> | [-> | [-> | [-> | [-> | [-> | H]]]]]];
    [eexists; reflexivity .. | inversion H].
Qed.


Lemma tab_click_without_pane_witness :
  ∃ err w',
    tab_click [1; 2; 3] [11; 12; 13] tabbed_data_tab tabbed_getElementById 3 tabbed_page
    = Threw err w'
    ∧ name err = "TypeError"
    ∧ (∀ x, x ∈ [1; 2; 3] ++ [11; 12; 13] → (has_class w' x "active" = true ↔ x = 3))
    ∧ has_class w' 3 "active" = true.
Proof.
  apply (tab_click_without_pane [1; 2; 3] [11; 12; 13] tabbed_data_tab
           tabbed_getElementById tabbed_page 3 tabbed_page_present).
  - eexists. reflexivity.
  - reflexivity.
Defined.

End HandlerFacts.

(** * Properties of the registration form of src/script.js *)

Module FormFacts.
Import JS Script Callers Text Handlers Forms.
Import ScriptProofs ScriptFacts HandlerFacts TextFacts.

#[local] Open Scope string_scope.

(** ** Steps on an element of the page *)

Ltac run_bind := unfold mbind, mret, PageRun_bind, PageRun_ret.

Lemma element_of_run (p : Page) (el : nat) (writes : bool) (prop : string) :
  present p el → element_of writes prop (Some el) p = Returned el p.
Proof. intros [e He]. unfold element_of. rewrite He. reflexivity. Qed.

Lemma textContent_set_run (p : Page) (el : nat) (text : string) :
  present p el →
  textContent_set (Some el) text p
  = Returned () {| world := world p; content := <[el := Plain text]> (content p);
                   value := value p; disabled := disabled p |}.
Proof.
  intros Hel. unfold textContent_set. run_bind. rewrite (element_of_run _ _ _ _ Hel).
  reflexivity.
Qed.

Lemma value_get_run (p : Page) (el : nat) :
  present p el → value_get (Some el) p = Returned (value p !! el) p.
Proof.
  intros Hel. unfold value_get. run_bind. rewrite (element_of_run _ _ _ _ Hel).
  reflexivity.
Qed.

Lemma add_class_run (p : Page) (el : nat) (t : string) :
  present p el →
  ∃ w', add_class (Some el) t p = Returned () (with_world w' p)
        ∧ sets_class el t true (world p) w'.
Proof.
  intros Hel. destruct (classList_add_sets (world p) el t Hel) as (w' & Hrun & Hsets).
  exists w'. split; [| exact Hsets].
  unfold add_class. run_bind. rewrite (element_of_run _ _ _ _ Hel).
  unfold lift. rewrite Hrun. reflexivity.
Qed.

Lemma remove_class_run (p : Page) (el : nat) (t : string) :
  present p el →
  ∃ w', remove_class (Some el) t p = Returned () (with_world w' p)
        ∧ sets_class el t false (world p) w'.
Proof.
  intros Hel. destruct (classList_remove_sets (world p) el t Hel) as (w' & Hrun & Hsets).
  exists w'. split; [| exact Hsets].
  unfold remove_class. run_bind. rewrite (element_of_run _ _ _ _ Hel).
  unfold lift. rewrite Hrun. reflexivity.
Qed.

Lemma manage_start_sets (w : World) (el : nat) :
  is_Some (dom w !! el) →
  ∃ w', manageAnimationState el "start" w
        = Returned {| success := true; newState := true; element := el |} w'
        ∧ sets_class el "animating" true w w'.
Proof.
  intros [e He]. eexists. rewrite (manage_start_run _ _ _ He). split; [reflexivity |].
  apply (set_classList_sets w el e "animating" true _ He).
  intros tok. apply contains_add_other.
Qed.

Lemma manage_run (p : Page) (el : nat) (starts : bool) :
  present p el →
  ∃ r w', manage (Some el) (if starts then "start" else "stop") p
          = Returned r (with_world w' p)
          ∧ sets_class el "animating" starts (world p) w'.
Proof.
  intros Hel. unfold manage. run_bind. rewrite (element_of_run _ _ _ _ Hel).
  unfold lift. destruct starts.
  - destruct (manage_start_sets (world p) el Hel) as (w' & Hrun & Hsets).
    eexists _, w'. rewrite Hrun. split; [reflexivity | exact Hsets].
  - destruct (manage_stop_sets (world p) el Hel) as (w' & Hrun & Hsets).
    eexists _, w'. rewrite Hrun. split; [reflexivity | exact Hsets].
Qed.

(** ** Frames *)

Lemma frames_trans (els : list nat) (p1 p2 p3 : Page) :
  frames els p1 p2 → frames els p2 p3 → frames els p1 p3.
Proof.
  intros (V1 & P1 & F1) (V2 & P2 & F2).
  split; [congruence |].
  split; [intros x; rewrite P2; apply P1 |].
  intros x Hx. destruct (F1 x Hx) as [E1 G1]. destruct (F2 x Hx) as [E2 G2].
  split; [congruence |]. intros tok. rewrite G2. apply G1.
Qed.

Lemma frames_mono (els els' : list nat) (p p' : Page) :
  (∀ x, x ∈ els → x ∈ els') → frames els p p' → frames els' p p'.
Proof.
  intros Hsub (V & P & F). repeat (split; [assumption |]).
  intros x Hx. apply F. intros Hin. apply Hx, Hsub, Hin.
Qed.

Lemma frames_present (els : list nat) (p p' : Page) (x : nat) :
  frames els p p' → present p x → present p' x.
Proof. intros (_ & P & _) Hx. apply P, Hx. Qed.

Lemma frames_value (els : list nat) (p p' : Page) (x : nat) (v : list N) :
  frames els p p' → value p !! x = Some v → value p' !! x = Some v.
Proof. intros (V & _) Hx. rewrite V. exact Hx. Qed.

Lemma frames_shows (els : list nat) (p p' : Page) (el : nat) (msg : string) :
  frames els p p' → el ∉ els → shows p el msg → shows p' el msg.
Proof.
  intros (_ & _ & F) Hel (Hc & Hs & Ha). destruct (F el Hel) as [E G].
  split; [congruence |]. split; rewrite G; assumption.
Qed.

Lemma quiet_trans (p1 p2 p3 : Page) : quiet p1 p2 → quiet p2 p3 → quiet p1 p3.
Proof. intros [C1 D1] [C2 D2]. split; congruence. Qed.

(** ** showError and hideError *)

Lemma showError_shows (p : Page) (el : nat) (msg : string) :
  present p el → msg ≠ "" →
  ∃ p', showError (Some el) msg p = Returned () p'
        ∧ frames [el] p p' ∧ quiet p p' ∧ shows p' el msg.
Proof.
  intros Hel Hmsg.
  pose (p1 := {| world := world p; content := <[el := Plain msg]> (content p);
                 value := value p; disabled := disabled p |}).
  assert (Hel1 : present p1 el) by exact Hel.
  destruct (add_class_run p1 el "show" Hel1) as (wa & Ra & Ca & Da & Ha).
  assert (Hel2 : present (with_world wa p1) el) by (apply Da, Hel1).
  destruct (manage_run (with_world wa p1) el true Hel2) as (r & wb & Rb & Cb & Db & Hb).
  cbn [world with_world] in *.
  exists (with_world wb (with_world wa p1)). split.
  { unfold showError. run_bind. rewrite (textContent_set_run _ _ _ Hel).
    fold p1. rewrite Ra, Rb. reflexivity. }
  split; [| split].
  - split; [reflexivity |].
    split; [intros x; unfold present; cbn; rewrite Db, Da; reflexivity |].
    intros x Hx. assert (Hne : x ≠ el) by (intros ->; apply Hx; left).
    split; [cbn; apply lookup_insert_ne; congruence |].
    intros tok. cbn. rewrite Hb, Ha. settle_classes.
  - split; [cbn; rewrite Cb, Ca; reflexivity | reflexivity].
  - apply String.eqb_neq in Hmsg. unfold shows. rewrite Hmsg. cbn.
    split; [apply lookup_insert_eq |].
    split; rewrite Hb, ?Ha; settle_classes.
Qed.

Lemma hideError_shows (p : Page) (el : nat) :
  present p el →
  ∃ p', hideError (Some el) p = Returned () p'
        ∧ frames [el] p p' ∧ quiet p p' ∧ shows p' el "".
Proof.
  intros Hel.
  pose (p1 := {| world := world p; content := <[el := Plain ""]> (content p);
                 value := value p; disabled := disabled p |}).
  assert (Hel1 : present p1 el) by exact Hel.
  destruct (remove_class_run p1 el "show" Hel1) as (wa & Ra & Ca & Da & Ha).
  assert (Hel2 : present (with_world wa p1) el) by (apply Da, Hel1).
  destruct (manage_run (with_world wa p1) el false Hel2) as (r & wb & Rb & Cb & Db & Hb).
  cbn [world with_world] in *.
  exists (with_world wb (with_world wa p1)). split.
  { unfold hideError. run_bind. rewrite (textContent_set_run _ _ _ Hel).
    fold p1. rewrite Ra, Rb. reflexivity. }
  split; [| split].
  - split; [reflexivity |].
    split; [intros x; unfold present; cbn; rewrite Db, Da; reflexivity |].
    intros x Hx. assert (Hne : x ≠ el) by (intros ->; apply Hx; left).
    split; [cbn; apply lookup_insert_ne; congruence |].
    intros tok. cbn. rewrite Hb, Ha. settle_classes.
  - split; [cbn; rewrite Cb, Ca; reflexivity | reflexivity].
  - unfold shows. cbn.
    split; [apply lookup_insert_eq |].
    split; rewrite Hb, ?Ha; settle_classes.
Qed.

(** X20. [showError] leaves the element with the message as its text and
    with the classes ['show'] and ['animating'], and [hideError] after it
    leaves the element with an empty text and neither class; the text and
    the classes of every other element, the form controls, the disabled
    flags and the console stay as they were. *)
Theorem showError_then_hideError (p : Page) (el : nat) (msg : string) :
  present p el → msg ≠ "" →
  ∃ p1 p2,
    showError (Some el) msg p = Returned () p1
    ∧ shows p1 el msg
    ∧ hideError (Some el) p1 = Returned () p2
    ∧ shows p2 el ""
    ∧ frames [el] p p2
    ∧ quiet p p2.
Proof.
  intros Hel Hmsg.
  destruct (showError_shows p el msg Hel Hmsg) as (p1 & R1 & F1 & Q1 & S1).
  destruct (hideError_shows p1 el (frames_present _ _ _ _ F1 Hel))
    as (p2 & R2 & F2 & Q2 & S2).
  exists p1, p2. repeat (split; [assumption |]).
  split; [exact (frames_trans _ _ _ _ F1 F2) | exact (quiet_trans _ _ _ Q1 Q2)].
Qed.

Lemma showError_then_hideError_witness :
  ∃ p1 p2,
    showError (Some 5) "Name is required" (form_page "" "" "" "") = Returned () p1
    ∧ shows p1 5 "Name is required"
    ∧ hideError (Some 5) p1 = Returned () p2
    ∧ shows p2 5 ""
    ∧ frames [5] (form_page "" "" "" "") p2
    ∧ quiet (form_page "" "" "" "") p2.
Proof.
  apply (showError_then_hideError (form_page "" "" "" "") 5 "Name is required").
  - eexists. reflexivity.
  - discriminate.
Defined.

(** ** The four fields *)

Ltac finish_show Hel msg :=
  let p' := fresh "p'" in
  let R := fresh "R" in
  destruct (showError_shows _ _ msg Hel ltac:(discriminate)) as (p' & R & ? & ? & ?);
  exists p'; rewrite R;
  split; [cbn; rewrite ?andb_false_r; reflexivity | split; [| split]; assumption].

Ltac finish_hide Hel :=
  let p' := fresh "p'" in
  let R := fresh "R" in
  destruct (hideError_shows _ _ Hel) as (p' & R & ? & ? & ?);
  exists p'; rewrite R;
  split; [cbn; rewrite ?andb_true_r; reflexivity | split; [| split]; assumption].

Lemma validate_name_shows (p : Page) (n ne : nat) (v : list N) (isValid : bool) :
  present p n → value p !! n = Some v → present p ne →
  ∃ p', validate_name (Some n) (Some ne) isValid p
        = Returned (isValid && String.eqb (name_message v) "") p'
        ∧ frames [ne] p p' ∧ quiet p p' ∧ shows p' ne (name_message v).
Proof.
  intros Hn Hv Hne. unfold validate_name, name_message. run_bind.
  rewrite (value_get_run _ _ Hn), Hv. cbn [of_string]. run_bind.
  destruct (bool_decide (trim v = [])); [finish_show Hne "Name is required" |].
  rewrite (value_get_run _ _ Hn), Hv. cbn [of_string]. run_bind.
  destruct (length (trim v) <? 2)%nat; cbn beta;
    [finish_show Hne "Name must be at least 2 characters" | finish_hide Hne].
Qed.

Lemma validate_email_shows (p : Page) (n ne : nat) (v : list N) (isValid : bool) :
  present p n → value p !! n = Some v → present p ne →
  ∃ p', validate_email (Some n) (Some ne) isValid p
        = Returned (isValid && String.eqb (email_message v) "") p'
        ∧ frames [ne] p p' ∧ quiet p p' ∧ shows p' ne (email_message v).
Proof.
  intros Hn Hv Hne. unfold validate_email, email_message. run_bind.
  rewrite (value_get_run _ _ Hn), Hv. cbn [of_string]. run_bind.
  destruct (bool_decide (trim v = [])); [finish_show Hne "Email is required" |].
  rewrite (value_get_run _ _ Hn), Hv. cbn [of_string]. run_bind.
  destruct (isValidEmail (trim v)); cbn [negb]; cbn beta;
    [finish_hide Hne | finish_show Hne "Please enter a valid email address"].
Qed.

Lemma validate_password_shows (p : Page) (n ne : nat) (v : list N) (isValid : bool) :
  present p n → value p !! n = Some v → present p ne →
  ∃ p', validate_password (Some n) (Some ne) isValid p
        = Returned (isValid && String.eqb (password_message v) "") p'
        ∧ frames [ne] p p' ∧ quiet p p' ∧ shows p' ne (password_message v).
Proof.
  intros Hn Hv Hne. unfold validate_password, password_message. run_bind.
  rewrite (value_get_run _ _ Hn), Hv. cbn [of_string]. run_bind.
  destruct (bool_decide (trim v = [])); [finish_show Hne "Password is required" |].
  rewrite (value_get_run _ _ Hn), Hv. cbn [of_string]. run_bind.
  destruct (length v <? 6)%nat; cbn beta;
    [finish_show Hne "Password must be at least 6 characters" | finish_hide Hne].
Qed.

Lemma validate_confirm_shows
  (p : Page) (n pw ne : nat) (v wanted : list N) (isValid : bool) :
  present p n → value p !! n = Some v →
  present p pw → value p !! pw = Some wanted →
  present p ne →
  ∃ p', validate_confirm (Some n) (Some pw) (Some ne) isValid p
        = Returned (isValid && String.eqb (confirm_message v wanted) "") p'
        ∧ frames [ne] p p' ∧ quiet p p' ∧ shows p' ne (confirm_message v wanted).
Proof.
  intros Hn Hv Hpw Hwanted Hne. unfold validate_confirm, confirm_message. run_bind.
  rewrite (value_get_run _ _ Hn), Hv. cbn [of_string]. run_bind.
  destruct (bool_decide (trim v = [])); [finish_show Hne "Please confirm your password" |].
  rewrite (value_get_run _ _ Hn), Hv, (value_get_run _ _ Hpw), Hwanted.
  replace (bool_decide (Some v = Some wanted)) with (bool_decide (v = wanted))
    by (apply bool_decide_ext; split; congruence).
  destruct (bool_decide (v = wanted)); cbn [negb]; cbn beta;
    [finish_hide Hne | finish_show Hne "Passwords do not match"].
Qed.

(** A form passes exactly when it is acceptable: the checks for an empty
    name, email and confirmation add nothing to the other rules. *)
Lemma passes_acceptable (name email password confirmed : list N) :
  passes name email password confirmed = true
  ↔ acceptable name email password confirmed.
Proof.
  unfold passes, acceptable, name_message, email_message, password_message,
    confirm_message.
  rewrite !andb_true_iff. split.
  - intros [[[Hn He] Hp] Hc].
    destruct (bool_decide (trim name = [])); [discriminate |].
    destruct (length (trim name) <? 2)%nat eqn:Hlen; [discriminate |].
    apply Nat.ltb_ge in Hlen.
    destruct (bool_decide (trim email = [])); [discriminate |].
    destruct (isValidEmail (trim email)) eqn:Hmail; [| discriminate].
    destruct (bool_decide (trim password = [])) eqn:Hpw; [discriminate |].
    apply bool_decide_eq_false in Hpw.
    destruct (length password <? 6)%nat eqn:Hlen6; [discriminate |].
    apply Nat.ltb_ge in Hlen6.
    destruct (bool_decide (trim confirmed = [])); [discriminate |].
    destruct (bool_decide (confirmed = password)) eqn:Hsame; [| discriminate].
    apply bool_decide_eq_true in Hsame. auto.
  - intros (Hn & He & Hp & Hlen6 & ->).
    assert (Hne : trim name ≠ []) by (intros Hnil; rewrite Hnil in Hn; cbn in Hn; lia).
    assert (Hme : trim email ≠ []) by (intros Hnil; rewrite Hnil in He; discriminate).
    rewrite (bool_decide_eq_false_2 _ Hne), (bool_decide_eq_false_2 _ Hme),
      (bool_decide_eq_false_2 _ Hp), He.
    apply Nat.ltb_ge in Hn, Hlen6. rewrite Hn, Hlen6.
    rewrite (bool_decide_eq_true_2 (password = password) eq_refl). auto.
Qed.

(** ** The run of validateForm *)

Lemma className_set_run (p : Page) (el : nat) (token : string) :
  present p el →
  className_set (Some el) token p
  = Returned () (with_world (set_classList el [token] (world p)) p).
Proof.
  intros Hel. unfold className_set. run_bind. rewrite (element_of_run _ _ _ _ Hel).
  reflexivity.
Qed.

Lemma textContent_set_then {A : Type} (p : Page) (el : nat) (text : string)
  (k : PageRun A) :
  present p el →
  (textContent_set (Some el) text;; k) p
  = k {| world := world p; content := <[el := Plain text]> (content p);
         value := value p; disabled := disabled p |}.
Proof.
  intros Hel. unfold mbind at 1, PageRun_bind at 1.
  rewrite (textContent_set_run _ _ _ Hel). reflexivity.
Qed.

Lemma className_set_then {A : Type} (p : Page) (el : nat) (token : string)
  (k : PageRun A) :
  present p el →
  (className_set (Some el) token;; k) p
  = k (with_world (set_classList el [token] (world p)) p).
Proof.
  intros Hel. unfold mbind at 1, PageRun_bind at 1.
  rewrite (className_set_run _ _ _ Hel). reflexivity.
Qed.

(** The first steps: the five texts are emptied and the feedback element
    gets its one class. *)
Lemma reset_run (p : Page) (ne ee pe ce fb : nat) :
  Forall (present p) [ne; ee; pe; ce; fb] →
  ∃ p0,
    (∀ (A : Type) (k : PageRun A),
       (textContent_set (Some ne) "";;
        textContent_set (Some ee) "";;
        textContent_set (Some pe) "";;
        textContent_set (Some ce) "";;
        textContent_set (Some fb) "";;
        className_set (Some fb) "form-feedback";;
        k) p = k p0)
    ∧ frames [ne; ee; pe; ce; fb] p p0
    ∧ quiet p p0
    ∧ content p0 !! fb = Some (Plain "")
    ∧ (∀ tok, has_class (world p0) fb tok = bool_decide (tok = "form-feedback")).
Proof.
  intros Hall.
  apply Forall_cons in Hall as [Hne Hall]. apply Forall_cons in Hall as [Hee Hall].
  apply Forall_cons in Hall as [Hpe Hall]. apply Forall_cons in Hall as [Hce Hall].
  apply Forall_cons in Hall as [Hfb _].
  pose (p1 := {| world := world p; content := <[ne := Plain ""]> (content p);
                 value := value p; disabled := disabled p |}).
  pose (p2 := {| world := world p; content := <[ee := Plain ""]> (content p1);
                 value := value p; disabled := disabled p |}).
  pose (p3 := {| world := world p; content := <[pe := Plain ""]> (content p2);
                 value := value p; disabled := disabled p |}).
  pose (p4 := {| world := world p; content := <[ce := Plain ""]> (content p3);
                 value := value p; disabled := disabled p |}).
  pose (p5 := {| world := world p; content := <[fb := Plain ""]> (content p4);
                 value := value p; disabled := disabled p |}).
  exists (with_world (set_classList fb ["form-feedback"] (world p)) p5).
  split; [| split; [| split; [| split]]].
  - intros A k.
    rewrite (textContent_set_then _ ne "") by exact Hne.
    rewrite (textContent_set_then _ ee "") by exact Hee.
    rewrite (textContent_set_then _ pe "") by exact Hpe.
    rewrite (textContent_set_then _ ce "") by exact Hce.
    rewrite (textContent_set_then _ fb "") by exact Hfb.
    rewrite (className_set_then _ fb "form-feedback") by exact Hfb. reflexivity.
  - split; [reflexivity |]. split.
    + intros x. unfold present. cbn. destruct (decide (x = fb)) as [-> | Hx].
      * rewrite lookup_insert_eq. split; [intros _; exact Hfb | eauto].
      * rewrite lookup_insert_ne by congruence. reflexivity.
    + intros x Hx. rewrite !not_elem_of_cons in Hx.
      destruct Hx as (H1 & H2 & H3 & H4 & H5 & _). split.
      * cbn. rewrite !lookup_insert_ne by congruence. reflexivity.
      * intros tok. unfold has_class. cbn. rewrite lookup_insert_ne by congruence.
        reflexivity.
  - split; reflexivity.
  - cbn. apply lookup_insert_eq.
  - intros tok. unfold has_class. cbn. rewrite lookup_insert_eq. cbn.
    unfold DOMTokenList_contains. apply bool_decide_ext.
    rewrite list_elem_of_singleton. reflexivity.
Qed.

(** ** The two branches *)

Section Branches.

Variable text_of_markup : string → string.
Variable getComputedStyle : Page → nat → string → string.
Variable inspect : AnimationStyles → string.
Variable getElementById : string → option nat.
Variable querySelector : nat → string → option nat.
Variable userForm : option nat.
Variable globalAnimationSpeed : float.

Lemma submit_form_run (p : Page) (fb form btn : nat) :
  userForm = Some form → present p form →
  querySelector form submit_selector = Some btn → present p btn →
  ∃ text p',
    submit_form text_of_markup querySelector userForm globalAnimationSpeed (Some fb) p
    = Returned [ ({| formFeedback := Some fb; submitButton := Some btn;
                     originalText := text |},
                  calculateAnimationDuration 2000 globalAnimationSpeed 100) ] p'
    ∧ frames [btn] p p'
    ∧ console (world p') = console (world p)
    ∧ disabled p' !! btn = Some true
    ∧ has_class (world p') btn "animating" = true.
Proof.
  intros -> Hform Hq Hbtn. unfold submit_selector in Hq.
  unfold submit_form, textContent_get, innerHTML_set, disabled_set. run_bind.
  rewrite (element_of_run p form false "querySelector" Hform), Hq.
  rewrite (element_of_run p btn false "textContent" Hbtn). unfold read at 1.
  rewrite (element_of_run _ btn true "innerHTML") by exact Hbtn. unfold change at 1.
  rewrite (element_of_run _ btn true "disabled") by exact Hbtn. unfold change at 1.
  match goal with
  | |- context [manage (Some btn) "start" ?q] =>
      destruct (manage_run q btn true Hbtn) as (r & wb & Rb & Cb & Db & Hb);
      cbn [negb] in Rb; rewrite Rb
  end.
  eexists _, _. split; [reflexivity |]. cbn [world with_world] in *.
  split; [| split; [| split]].
  - split; [reflexivity |].
    split; [intros x; unfold present; cbn; apply Db |].
    intros x Hx. assert (Hne : x ≠ btn) by (intros ->; apply Hx; left).
    split; [cbn; apply lookup_insert_ne; congruence |].
    intros tok. cbn. rewrite Hb. settle_classes.
  - cbn. exact Cb.
  - cbn. apply lookup_insert_eq.
  - cbn. rewrite Hb. settle_classes.
Qed.

Lemma report_errors_run (p : Page) (fb : nat) :
  present p fb →
  ∃ styles p',
    report_errors getComputedStyle inspect (Some fb) p = Returned [] p'
    ∧ frames [fb] p p'
    ∧ disabled p' = disabled p
    ∧ console (world p')
      = (console (world p)
         ++ [mkLogEntry LevelLog ["Form Feedback Animation Styles:"; inspect styles]])%list
    ∧ content p' !! fb = Some (Plain "Please fix the errors above")
    ∧ (∀ tok, has_class (world p') fb tok
              = if decide (tok = "error" ∨ tok = "show" ∨ tok = "animating") then true
                else has_class (world p) fb tok).
Proof.
  intros Hfb. unfold report_errors, getComputedAnimationStyles, console_log. run_bind.
  rewrite (textContent_set_run p fb _ Hfb).
  match goal with
  | |- context [add_class (Some fb) "error" ?q] =>
      destruct (add_class_run q fb "error" Hfb) as (wa & Ra & Ca & Da & Ha); rewrite Ra
  end.
  assert (Hfba : is_Some (dom wa !! fb)) by (apply Da, Hfb).
  match goal with
  | |- context [add_class (Some fb) "show" ?q] =>
      destruct (add_class_run q fb "show" Hfba) as (wb & Rb & Cb & Db & Hb); rewrite Rb
  end.
  assert (Hfbb : is_Some (dom wb !! fb)) by (apply Db, Hfba).
  match goal with
  | |- context [manage (Some fb) "start" ?q] =>
      destruct (manage_run q fb true Hfbb) as (r & wc & Rc & Cc & Dc & Hc);
      cbn [negb] in Rc; rewrite Rc
  end.
  assert (Hfbc : is_Some (dom wc !! fb)) by (apply Dc, Hfbb).
  rewrite (element_of_run _ fb false "animationName") by exact Hfbc.
  unfold read at 1, change at 1.
  eexists _, _. split; [reflexivity |]. cbn [world with_world] in *.
  split; [| split; [| split; [| split]]].
  - split; [reflexivity |].
    split; [intros x; unfold present; cbn; rewrite Dc, Db, Da; reflexivity |].
    intros x Hx. assert (Hne : x ≠ fb) by (intros ->; apply Hx; left).
    split; [cbn; apply lookup_insert_ne; congruence |].
    intros tok. unfold has_class at 1. cbn [dom world with_world].
    fold (has_class wc x tok). rewrite Hc, Hb, Ha. settle_classes.
  - reflexivity.
  - cbn. rewrite Cc, Cb, Ca. reflexivity.
  - cbn. apply lookup_insert_eq.
  - intros tok. unfold has_class at 1. cbn [dom world with_world].
    fold (has_class wc fb tok). rewrite Hc, Hb, Ha. settle_classes.
Qed.

Lemma frames_output (els : FormElements) (el : nat) (p p' : Page) :
  el ∈ outputs els → frames [el] p p' → frames (outputs els) p p'.
Proof.
  intros Hel. apply frames_mono. intros x Hx.
  apply list_elem_of_singleton in Hx as ->. exact Hel.
Qed.

Ltac output_member :=
  unfold outputs; repeat first [apply list_elem_of_here | apply list_elem_of_further].

(** The run of [validateForm] up to its last [if]. *)
Lemma validateForm_run (p : Page) (els : FormElements) (vn ve vp vc : list N) :
  resolves getElementById els →
  filled p els vn ve vp vc →
  ∃ p0 p1 p2 p3 p4,
    validateForm text_of_markup getComputedStyle inspect getElementById querySelector
                 userForm globalAnimationSpeed p
    = (if passes vn ve vp vc
       then submit_form text_of_markup querySelector userForm globalAnimationSpeed
                        (Some (feedback els))
       else report_errors getComputedStyle inspect (Some (feedback els))) p4
    ∧ frames (outputs els) p p0
    ∧ content p0 !! feedback els = Some (Plain "")
    ∧ (∀ tok, has_class (world p0) (feedback els) tok
              = bool_decide (tok = "form-feedback"))
    ∧ frames [name_error els] p0 p1 ∧ shows p1 (name_error els) (name_message vn)
    ∧ frames [email_error els] p1 p2 ∧ shows p2 (email_error els) (email_message ve)
    ∧ frames [password_error els] p2 p3
    ∧ shows p3 (password_error els) (password_message vp)
    ∧ frames [confirm_error els] p3 p4
    ∧ shows p4 (confirm_error els) (confirm_message vc vp)
    ∧ quiet p p4.
Proof.
  intros (G1 & G2 & G3 & G4 & G5 & G6 & G7 & G8 & G9)
         (Hout & Hn & Vn & He & Ve & Hp & Vp & Hc & Vc).
  unfold validateForm. rewrite G1, G2, G3, G4, G5, G6, G7, G8, G9. cbv zeta.
  destruct (reset_run p _ _ _ _ _ Hout) as (p0 & K0 & F0 & Q0 & C0 & H0).
  rewrite K0. clear K0.
  pose proof Hout as Hout'. unfold outputs in Hout'.
  apply Forall_cons in Hout' as [Hne Hout']. apply Forall_cons in Hout' as [Hee Hout'].
  apply Forall_cons in Hout' as [Hpe Hout']. apply Forall_cons in Hout' as [Hce _].
  destruct (validate_name_shows p0 _ _ vn true
              (frames_present _ _ _ _ F0 Hn) (frames_value _ _ _ _ _ F0 Vn)
              (frames_present _ _ _ _ F0 Hne)) as (p1 & R1 & F1 & Q1 & S1).
  pose proof (frames_trans _ _ _ _ F0 (frames_output els (name_error els) _ _
                ltac:(output_member) F1)) as F01.
  destruct (validate_email_shows p1 _ _ ve (true && String.eqb (name_message vn) "")
              (frames_present _ _ _ _ F01 He) (frames_value _ _ _ _ _ F01 Ve)
              (frames_present _ _ _ _ F01 Hee)) as (p2 & R2 & F2 & Q2 & S2).
  pose proof (frames_trans _ _ _ _ F01 (frames_output els (email_error els) _ _
                ltac:(output_member) F2)) as F02.
  destruct (validate_password_shows p2 _ _ vp
              (true && String.eqb (name_message vn) ""
               && String.eqb (email_message ve) "")
              (frames_present _ _ _ _ F02 Hp) (frames_value _ _ _ _ _ F02 Vp)
              (frames_present _ _ _ _ F02 Hpe)) as (p3 & R3 & F3 & Q3 & S3).
  pose proof (frames_trans _ _ _ _ F02 (frames_output els (password_error els) _ _
                ltac:(output_member) F3)) as F03.
  destruct (validate_confirm_shows p3 _ _ _ vc vp
              (true && String.eqb (name_message vn) ""
               && String.eqb (email_message ve) ""
               && String.eqb (password_message vp) "")
              (frames_present _ _ _ _ F03 Hc) (frames_value _ _ _ _ _ F03 Vc)
              (frames_present _ _ _ _ F03 Hp) (frames_value _ _ _ _ _ F03 Vp)
              (frames_present _ _ _ _ F03 Hce)) as (p4 & R4 & F4 & Q4 & S4).
  exists p0, p1, p2, p3, p4. split.
  { run_bind. rewrite R1, R2, R3, R4. reflexivity. }
  repeat (split; [assumption |]).
  exact (quiet_trans _ _ _ Q0 (quiet_trans _ _ _ Q1
           (quiet_trans _ _ _ Q2 (quiet_trans _ _ _ Q3 Q4)))).
Qed.

(** X21. On a page that has the nine elements, the four form controls and
    the submit button, [validateForm] returns without throwing and leaves
    the strings in the form controls as they are.  It sets a timer, one,
    exactly when the trimmed name has at least two code units, the trimmed
    email is accepted by [isValidEmail], the password is not blank and has
    at least six code units untrimmed, and the confirmation is the same
    string as the password; the button is then disabled and animating.
    Otherwise the feedback element shows ['Please fix the errors above']
    with the class ['error'], and nothing is disabled. *)
Theorem validateForm_decides
  (p : Page) (els : FormElements) (vn ve vp vc : list N) (form btn : nat) :
  resolves getElementById els →
  filled p els vn ve vp vc →
  userForm = Some form → present p form →
  querySelector form submit_selector = Some btn → present p btn →
  ∃ timers p',
    validateForm text_of_markup getComputedStyle inspect getElementById querySelector
                 userForm globalAnimationSpeed p
    = Returned timers p'
    ∧ value p' = value p
    ∧ (acceptable vn ve vp vc ↔ timers ≠ [])
    ∧ (acceptable vn ve vp vc →
         (∃ text,
            timers = [ ({| formFeedback := Some (feedback els);
                           submitButton := Some btn; originalText := text |},
                        calculateAnimationDuration 2000 globalAnimationSpeed 100) ])
         ∧ disabled p' !! btn = Some true
         ∧ has_class (world p') btn "animating" = true)
    ∧ (¬ acceptable vn ve vp vc →
         shows p' (feedback els) "Please fix the errors above"
         ∧ has_class (world p') (feedback els) "error" = true
         ∧ disabled p' = disabled p).
Proof.
  intros Hres Hfilled Hform Hformp Hq Hbtn.
  destruct (validateForm_run p els vn ve vp vc Hres Hfilled)
    as (p0 & p1 & p2 & p3 & p4 & Hrun & F0 & _ & _ & F1 & _ & F2 & _ & F3 & _ & F4 & _ & Q).
  assert (F04 : frames (outputs els) p p4).
  { eapply frames_trans; [exact F0 |].
    eapply frames_trans; [exact (frames_output els (name_error els) _ _ ltac:(output_member) F1) |].
    eapply frames_trans; [exact (frames_output els (email_error els) _ _ ltac:(output_member) F2) |].
    eapply frames_trans; [exact (frames_output els (password_error els) _ _ ltac:(output_member) F3) |].
    exact (frames_output els (confirm_error els) _ _ ltac:(output_member) F4). }
  rewrite Hrun. pose proof (passes_acceptable vn ve vp vc) as Hpass.
  destruct (passes vn ve vp vc).
  - assert (Hok : acceptable vn ve vp vc) by (apply Hpass; reflexivity).
    destruct (submit_form_run p4 (feedback els) form btn Hform
                (frames_present _ _ _ _ F04 Hformp) Hq (frames_present _ _ _ _ F04 Hbtn))
      as (text & p' & R & (V & _) & _ & Hd & Hanim).
    eexists _, p'. split; [exact R |].
    split; [rewrite V; apply F04 |].
    split; [split; [discriminate | intros _; exact Hok] |].
    split; [intros _; eauto | intros Hno; contradiction].
  - assert (Hno : ¬ acceptable vn ve vp vc) by (intros H; apply Hpass in H; discriminate).
    assert (Hfb : present p4 (feedback els)).
    { apply (frames_present _ _ _ _ F04). destruct Hfilled as [Hout _].
      unfold outputs in Hout. rewrite !Forall_cons in Hout. tauto. }
    destruct (report_errors_run p4 (feedback els) Hfb)
      as (styles & p' & R & (V & _) & Hd & _ & Hc & Hcls).
    eexists _, p'. split; [exact R |].
    split; [rewrite V; apply F04 |].
    split; [split; [intros H; contradiction | intros H; congruence] |].
    split; [intros H; contradiction | intros _].
    split; [| split].
    + split; [exact Hc |]. split; rewrite Hcls; settle_classes.
    + rewrite Hcls. settle_classes.
    + rewrite Hd. apply Q.
Qed.

(** X22. If moreover the five elements that take messages are different
    elements, none of them the submit button, then after [validateForm]
    each error element shows the message of its field, empty when the
    field passes, the first rule that fails deciding, and the feedback
    element shows ['Please fix the errors above'] with the class ['error']
    when a field has a message and nothing otherwise; it keeps its class
    ['form-feedback'] in both cases. *)
Theorem validateForm_messages
  (p : Page) (els : FormElements) (vn ve vp vc : list N) (form btn : nat) :
  resolves getElementById els →
  filled p els vn ve vp vc →
  userForm = Some form → present p form →
  querySelector form submit_selector = Some btn → present p btn →
  NoDup (outputs els) → btn ∉ outputs els →
  ∃ timers p',
    validateForm text_of_markup getComputedStyle inspect getElementById querySelector
                 userForm globalAnimationSpeed p
    = Returned timers p'
    ∧ shows p' (name_error els) (name_message vn)
    ∧ shows p' (email_error els) (email_message ve)
    ∧ shows p' (password_error els) (password_message vp)
    ∧ shows p' (confirm_error els) (confirm_message vc vp)
    ∧ shows p' (feedback els)
        (if passes vn ve vp vc then "" else "Please fix the errors above")
    ∧ has_class (world p') (feedback els) "error" = negb (passes vn ve vp vc)
    ∧ has_class (world p') (feedback els) "form-feedback" = true.
Proof.
  intros Hres Hfilled Hform Hformp Hq Hbtn Hnd Hbtn_out.
  destruct (validateForm_run p els vn ve vp vc Hres Hfilled)
    as (p0 & p1 & p2 & p3 & p4 & Hrun & F0 & C0 & H0
        & F1 & S1 & F2 & S2 & F3 & S3 & F4 & S4 & Q).
  unfold outputs in Hnd, Hbtn_out.
  rewrite !NoDup_cons, !not_elem_of_cons in Hnd.
  rewrite !not_elem_of_cons in Hbtn_out.
  destruct Hnd as ((N1 & N2 & N3 & N4 & _) & (N5 & N6 & N7 & _) & (N8 & N9 & _)
                   & (N10 & _) & _).
  destruct Hbtn_out as (B1 & B2 & B3 & B4 & B5 & _).
  assert (Hsingle : ∀ x y : nat, x ≠ y → x ∉ [y])
    by (intros x y Hxy Hin; apply list_elem_of_singleton in Hin; contradiction).
  (* what the four blocks leave at the end of the fourth *)
  assert (T1 : shows p4 (name_error els) (name_message vn)).
  { apply (frames_shows _ _ _ _ _ F4); [apply Hsingle; congruence |].
    apply (frames_shows _ _ _ _ _ F3); [apply Hsingle; congruence |].
    apply (frames_shows _ _ _ _ _ F2); [apply Hsingle; congruence |]. exact S1. }
  assert (T2 : shows p4 (email_error els) (email_message ve)).
  { apply (frames_shows _ _ _ _ _ F4); [apply Hsingle; congruence |].
    apply (frames_shows _ _ _ _ _ F3); [apply Hsingle; congruence |]. exact S2. }
  assert (T3 : shows p4 (password_error els) (password_message vp)).
  { apply (frames_shows _ _ _ _ _ F4); [apply Hsingle; congruence |]. exact S3. }
  assert (Tfb : content p4 !! feedback els = Some (Plain "")
                ∧ ∀ tok, has_class (world p4) (feedback els) tok
                         = bool_decide (tok = "form-feedback")).
  { destruct F1 as (_ & _ & F1). destruct F2 as (_ & _ & F2).
    destruct F3 as (_ & _ & F3). destruct F4 as (_ & _ & F4).
    destruct (F1 (feedback els) ltac:(apply Hsingle; congruence)) as [E1 G1].
    destruct (F2 (feedback els) ltac:(apply Hsingle; congruence)) as [E2 G2].
    destruct (F3 (feedback els) ltac:(apply Hsingle; congruence)) as [E3 G3].
    destruct (F4 (feedback els) ltac:(apply Hsingle; congruence)) as [E4 G4].
    split; [congruence |]. intros tok. rewrite G4, G3, G2, G1. apply H0. }
  destruct Tfb as [Cfb Hfbcls].
  assert (F04 : frames (outputs els) p p4).
  { eapply frames_trans; [exact F0 |].
    eapply frames_trans; [exact (frames_output els (name_error els) _ _ ltac:(output_member) F1) |].
    eapply frames_trans; [exact (frames_output els (email_error els) _ _ ltac:(output_member) F2) |].
    eapply frames_trans; [exact (frames_output els (password_error els) _ _ ltac:(output_member) F3) |].
    exact (frames_output els (confirm_error els) _ _ ltac:(output_member) F4). }
  rewrite Hrun. destruct (passes vn ve vp vc).
  - destruct (submit_form_run p4 (feedback els) form btn Hform
                (frames_present _ _ _ _ F04 Hformp) Hq (frames_present _ _ _ _ F04 Hbtn))
      as (text & p' & R & F & _).
    eexists _, p'. split; [exact R |].
    split; [apply (frames_shows _ _ _ _ _ F); [apply Hsingle; congruence | exact T1] |].
    split; [apply (frames_shows _ _ _ _ _ F); [apply Hsingle; congruence | exact T2] |].
    split; [apply (frames_shows _ _ _ _ _ F); [apply Hsingle; congruence | exact T3] |].
    split; [apply (frames_shows _ _ _ _ _ F); [apply Hsingle; congruence | exact S4] |].
    destruct F as (_ & _ & F).
    destruct (F (feedback els) ltac:(apply Hsingle; congruence)) as [E G].
    split; [| split].
    + split; [congruence |]. split; rewrite G, Hfbcls; reflexivity.
    + rewrite G, Hfbcls. reflexivity.
    + rewrite G, Hfbcls. reflexivity.
  - assert (Hfb : present p4 (feedback els)).
    { apply (frames_present _ _ _ _ F04). destruct Hfilled as [Hout _].
      unfold outputs in Hout. rewrite !Forall_cons in Hout. tauto. }
    destruct (report_errors_run p4 (feedback els) Hfb)
      as (styles & p' & R & F & _ & _ & Hc & Hcls).
    eexists _, p'. split; [exact R |].
    split; [apply (frames_shows _ _ _ _ _ F); [apply Hsingle; congruence | exact T1] |].
    split; [apply (frames_shows _ _ _ _ _ F); [apply Hsingle; congruence | exact T2] |].
    split; [apply (frames_shows _ _ _ _ _ F); [apply Hsingle; congruence | exact T3] |].
    split; [apply (frames_shows _ _ _ _ _ F); [apply Hsingle; congruence | exact S4] |].
    split; [| split].
    + split; [exact Hc |]. split; rewrite Hcls; settle_classes.
    + rewrite Hcls. settle_classes.
    + rewrite Hcls, Hfbcls. settle_classes.
Qed.

End Branches.

Lemma form_page_wired (name email password confirmed : string) :
  resolves form_ids form_elements
  ∧ filled (form_page name email password confirmed) form_elements
           (units name) (units email) (units password) (units confirmed)
  ∧ present (form_page name email password confirmed) 10
  ∧ present (form_page name email password confirmed) 11.
Proof.
  split; [repeat split |]. split; [| split; eexists; reflexivity].
  split; [repeat constructor; eexists; reflexivity |].
  repeat split; try reflexivity; eexists; reflexivity.
Qed.

Lemma validateForm_decides_witness :
  ∃ timers p',
    validateForm markup_as_text plain_style object_Object form_ids button_11
                 (Some 10) 1%float
                 (form_page "Ann" "ann@example.com" "secret1" "secret1")
    = Returned timers p'
    ∧ value p' = value (form_page "Ann" "ann@example.com" "secret1" "secret1")
    ∧ (acceptable (units "Ann") (units "ann@example.com")
                  (units "secret1") (units "secret1")
       ↔ timers ≠ [])
    ∧ (acceptable (units "Ann") (units "ann@example.com")
                  (units "secret1") (units "secret1") →
         (∃ text,
            timers = [ ({| formFeedback := Some (feedback form_elements);
                           submitButton := Some 11; originalText := text |},
                        calculateAnimationDuration 2000 1 100) ])
         ∧ disabled p' !! 11 = Some true
         ∧ has_class (world p') 11 "animating" = true)
    ∧ (¬ acceptable (units "Ann") (units "ann@example.com")
                    (units "secret1") (units "secret1") →
         shows p' (feedback form_elements) "Please fix the errors above"
         ∧ has_class (world p') (feedback form_elements) "error" = true
         ∧ disabled p' = disabled (form_page "Ann" "ann@example.com" "secret1" "secret1")).
Proof.
  destruct (form_page_wired "Ann" "ann@example.com" "secret1" "secret1")
    as (Hres & Hfilled & Hform & Hbtn).
  apply (validateForm_decides markup_as_text plain_style object_Object form_ids button_11
           (Some 10) 1%float _ form_elements _ _ _ _ 10 11 Hres Hfilled).
  - reflexivity.
  - exact Hform.
  - reflexivity.
  - exact Hbtn.
Defined.

Lemma validateForm_messages_witness :
  ∃ timers p',
    validateForm markup_as_text plain_style object_Object form_ids button_11
                 (Some 10) 1%float
                 (form_page "A" "ann@example" "      " "secret1")
    = Returned timers p'
    ∧ shows p' (name_error form_elements) (name_message (units "A"))
    ∧ shows p' (email_error form_elements) (email_message (units "ann@example"))
    ∧ shows p' (password_error form_elements) (password_message (units "      "))
    ∧ shows p' (confirm_error form_elements)
        (confirm_message (units "secret1") (units "      "))
    ∧ shows p' (feedback form_elements)
        (if passes (units "A") (units "ann@example") (units "      ") (units "secret1")
         then "" else "Please fix the errors above")
    ∧ has_class (world p') (feedback form_elements) "error"
      = negb (passes (units "A") (units "ann@example") (units "      ")
                     (units "secret1"))
    ∧ has_class (world p') (feedback form_elements) "form-feedback" = true.
Proof.
  destruct (form_page_wired "A" "ann@example" "      " "secret1")
    as (Hres & Hfilled & Hform & Hbtn).
  apply (validateForm_messages markup_as_text plain_style object_Object form_ids button_11
           (Some 10) 1%float _ form_elements _ _ _ _ 10 11 Hres Hfilled).
  - reflexivity.
  - exact Hform.
  - reflexivity.
  - exact Hbtn.
  - apply (bool_decide_unpack (NoDup (outputs form_elements))). reflexivity.
  - apply (bool_decide_unpack (11 ∉ outputs form_elements)). reflexivity.
Defined.

(** The messages of the four fields of that form. *)
Example messages_of_a_bad_form :
  name_message (units "A") = "Name must be at least 2 characters"
  ∧ email_message (units "ann@example") = "Please enter a valid email address"
  ∧ password_message (units "      ") = "Password is required"
  ∧ confirm_message (units "secret1") (units "      ") = "Passwords do not match".
Proof. repeat split. Qed.

End FormFacts.

(** * Properties of the theme toggle of src/script.js *)

Module ThemeFacts.
Import JS Script Callers Handlers Forms Theme.
Import ScriptProofs ScriptFacts HandlerFacts FormFacts.

#[local] Open Scope string_scope.

Lemma contains_toggle_other (t tok : string) (l : list string) :
  DOMTokenList_contains tok (snd (DOMTokenList_toggle t l))
  = if decide (tok = t) then negb (DOMTokenList_contains t l)
    else DOMTokenList_contains tok l.
Proof.
  destruct (decide (tok = t)) as [-> | Hne]; [apply contains_toggle |].
  apply (contains_other t); [exact Hne | apply remove_toggle].
Qed.

Lemma classList_toggle_sets (w : World) (el : nat) (t : string) :
  is_Some (dom w !! el) →
  ∃ w', classList_toggle el t w = Returned (negb (has_class w el t)) w'
        ∧ sets_class el t (negb (has_class w el t)) w w'.
Proof.
  intros [e He]. rewrite (has_class_lookup _ _ _ _ He).
  exists (set_classList el (snd (DOMTokenList_toggle t (classList e))) w). split.
  - unfold classList_toggle. rewrite He.
    pose proof (toggle_fst t (classList e)) as Hfst.
    destruct (DOMTokenList_toggle t (classList e)) as [present l].
    cbn [fst snd] in *. rewrite Hfst. reflexivity.
  - apply (set_classList_sets w el e t _ _ He). intros tok. apply contains_toggle_other.
Qed.

Lemma classList_contains_run (w : World) (el : nat) (t : string) :
  is_Some (dom w !! el) →
  classList_contains el t w = Returned (has_class w el t) w.
Proof.
  intros [e He]. unfold classList_contains. rewrite He, (has_class_lookup _ _ _ _ He).
  reflexivity.
Qed.

(** The task of the timer: both classes are gone afterwards. *)
Lemma remove_and_stop_run (w : World) (el : nat) (t : string) :
  is_Some (dom w !! el) →
  ∃ w', run_task (RemoveClassAndStop el t) w = Returned () w'
        ∧ console w' = console w
        ∧ (∀ x, is_Some (dom w' !! x) ↔ is_Some (dom w !! x))
        ∧ (∀ x tok, has_class w' x tok
                    = if decide (x = el ∧ (tok = t ∨ tok = "animating")) then false
                      else has_class w x tok).
Proof.
  intros Hel.
  destruct (classList_remove_sets w el t Hel) as (w1 & R1 & C1 & D1 & H1).
  destruct (manage_stop_sets w1 el (proj2 (D1 el) Hel)) as (w2 & R2 & C2 & D2 & H2).
  exists w2. split.
  { cbn [run_task]. unfold mbind, mret, Run_bind, Run_ret. rewrite R1, R2. reflexivity. }
  split; [congruence |]. split; [intros x; rewrite D2; apply D1 |].
  intros x tok. rewrite H2, H1. settle_classes.
Qed.

Section ThemeToggle.

Variable globalAnimationSpeed : float.

(** X25. A click on the theme toggle flips ['dark-mode'] on the body and
    leaves the button labelled with the mode the next click switches to:
    ['Toggle Light Mode'] exactly when the body is now dark.  The button
    carries ['glow'] and ['animating'] until the one timer the click has
    set, of [calculateAnimationDuration(500, globalAnimationSpeed, 20)] ms,
    has run; the timer changes neither the mode nor any text. *)
Theorem theme_toggle_click_labels (p : Page) (body themeToggle : nat) :
  present p body → present p themeToggle →
  ∃ p1 p2,
    theme_toggle_click (Some body) globalAnimationSpeed themeToggle p
    = Returned [ {| task := RemoveClassAndStop themeToggle "glow";
                    delay := calculateAnimationDuration 500 globalAnimationSpeed 20 |} ]
               p1
    ∧ has_class (world p1) body "dark-mode" = negb (has_class (world p) body "dark-mode")
    ∧ content p1 !! themeToggle
      = Some (Plain (theme_label (has_class (world p1) body "dark-mode")))
    ∧ has_class (world p1) themeToggle "glow" = true
    ∧ has_class (world p1) themeToggle "animating" = true
    ∧ lift (run_task (RemoveClassAndStop themeToggle "glow")) p1 = Returned () p2
    ∧ has_class (world p2) themeToggle "glow" = false
    ∧ has_class (world p2) themeToggle "animating" = false
    ∧ has_class (world p2) body "dark-mode" = has_class (world p1) body "dark-mode"
    ∧ content p2 = content p1.
Proof.
  intros Hbody Hbtn.
  destruct (classList_toggle_sets (world p) body "dark-mode" Hbody)
    as (w1 & R1 & C1 & D1 & H1).
  assert (Hbtn1 : present (with_world w1 p) themeToggle) by (apply D1, Hbtn).
  destruct (add_class_run (with_world w1 p) themeToggle "glow" Hbtn1)
    as (w2 & R2 & C2 & D2 & H2).
  assert (Hbtn2 : present (with_world w2 (with_world w1 p)) themeToggle)
    by (apply D2, Hbtn1).
  destruct (manage_run (with_world w2 (with_world w1 p)) themeToggle true Hbtn2)
    as (r & w3 & R3 & C3 & D3 & H3).
  cbn [world with_world] in *.
  pose (p3 := with_world w3 (with_world w2 (with_world w1 p))).
  assert (Hbody3 : present p3 body) by (apply D3, D2, D1, Hbody).
  assert (Hbtn3 : present p3 themeToggle) by (apply D3, Hbtn2).
  assert (Hdark : has_class w3 body "dark-mode"
                  = negb (has_class (world p) body "dark-mode")).
  { rewrite H3, H2, H1. settle_classes. }
  pose (p1 := {| world := w3;
                 content := <[themeToggle :=
                                Plain (theme_label (has_class w3 body "dark-mode"))]>
                              (content p);
                 value := value p; disabled := disabled p |}).
  destruct (remove_and_stop_run w3 themeToggle "glow" Hbtn3) as (w4 & R4 & C4 & D4 & H4).
  exists p1, (with_world w4 p1). split.
  { unfold theme_toggle_click. run_bind.
    rewrite (element_of_run p body false "classList" Hbody).
    unfold lift at 1. rewrite R1, R2, R3.
    rewrite (element_of_run _ body false "classList") by exact Hbody3.
    unfold lift at 1. cbn [world with_world].
    rewrite (classList_contains_run w3 body "dark-mode" Hbody3).
    unfold theme_label in p1.
    destruct (has_class w3 body "dark-mode") eqn:Hd;
      rewrite (textContent_set_run _ themeToggle) by exact Hbtn3; reflexivity. }
  split; [exact Hdark |]. split; [cbn; apply lookup_insert_eq |].
  split; [cbn; rewrite H3, H2; settle_classes |].
  split; [cbn; rewrite H3; settle_classes |].
  split; [unfold lift; cbn [world p1]; rewrite R4; reflexivity |].
  split; [cbn; rewrite H4; settle_classes |].
  split; [cbn; rewrite H4; settle_classes |].
  split; [cbn; rewrite H4; settle_classes | reflexivity].
Qed.

End ThemeToggle.

Lemma theme_toggle_click_labels_witness :
  ∃ p1 p2,
    theme_toggle_click (Some 30) 1%float 31 light_page
    = Returned [ {| task := RemoveClassAndStop 31 "glow";
                    delay := calculateAnimationDuration 500 1 20 |} ]
               p1
    ∧ has_class (world p1) 30 "dark-mode"
      = negb (has_class (world light_page) 30 "dark-mode")
    ∧ content p1 !! 31 = Some (Plain (theme_label (has_class (world p1) 30 "dark-mode")))
    ∧ has_class (world p1) 31 "glow" = true
    ∧ has_class (world p1) 31 "animating" = true
    ∧ lift (run_task (RemoveClassAndStop 31 "glow")) p1 = Returned () p2
    ∧ has_class (world p2) 31 "glow" = false
    ∧ has_class (world p2) 31 "animating" = false
    ∧ has_class (world p2) 30 "dark-mode" = has_class (world p1) 30 "dark-mode"
    ∧ content p2 = content p1.
Proof.
  apply (theme_toggle_click_labels 1%float light_page 30 31).
  - eexists. reflexivity.
  - eexists. reflexivity.
Defined.

End ThemeFacts.

(** * Properties of the dropdown menu of src/script.js *)

Module DropdownFacts.
Import JS Script Callers Handlers Forms Dropdown.
Import ScriptProofs ScriptFacts HandlerFacts FormFacts ThemeFacts.

#[local] Open Scope string_scope.

Lemma toggle_class_run (p : Page) (el : nat) (t : string) :
  present p el →
  ∃ w', toggle_class (Some el) t p
        = Returned (negb (has_class (world p) el t)) (with_world w' p)
        ∧ sets_class el t (negb (has_class (world p) el t)) (world p) w'.
Proof.
  intros Hel. destruct (classList_toggle_sets (world p) el t Hel) as (w' & Hrun & Hsets).
  exists w'. split; [| exact Hsets].
  unfold toggle_class. run_bind. rewrite (element_of_run _ _ _ _ Hel).
  unfold lift. rewrite Hrun. reflexivity.
Qed.

Lemma manage_toggle_page (p : Page) (el : nat) :
  present p el →
  ∃ r w', manage (Some el) "toggle" p = Returned r (with_world w' p)
          ∧ sets_class el "animating" (negb (has_class (world p) el "animating"))
                       (world p) w'.
Proof.
  intros Hel. pose proof Hel as [e He].
  unfold manage. run_bind. rewrite (element_of_run _ _ _ _ Hel). unfold lift.
  rewrite (manage_toggle_run _ _ _ He). eexists _, _. split; [reflexivity |].
  rewrite (has_class_lookup _ _ _ _ He).
  apply (set_classList_sets _ el e "animating" _ _ He).
  intros tok. apply contains_toggle_other.
Qed.

(** Closing the menu: ['show'] and ['animating'] go from the container. *)
Lemma close_menu_run (p : Page) (d : nat) :
  present p d →
  ∃ w',
    (remove_class (Some d) "show";;
     result ← manage (Some d) "stop";
     mret ()) p = Returned () (with_world w' p)
    ∧ console w' = console (world p)
    ∧ (∀ x, is_Some (dom w' !! x) ↔ present p x)
    ∧ (∀ x tok, has_class w' x tok
                = if decide (x = d ∧ (tok = "show" ∨ tok = "animating")) then false
                  else has_class (world p) x tok).
Proof.
  intros Hd.
  destruct (remove_class_run p d "show" Hd) as (w1 & R1 & C1 & D1 & H1).
  assert (Hd1 : present (with_world w1 p) d) by (apply D1, Hd).
  destruct (manage_run (with_world w1 p) d false Hd1) as (r & w2 & R2 & C2 & D2 & H2).
  cbn [world with_world] in *.
  exists w2. split; [run_bind; rewrite R1, R2; reflexivity |].
  split; [congruence |]. split; [intros x; rewrite D2; apply D1 |].
  intros x tok. rewrite H2, H1. settle_classes.
Qed.

Section Menu.

Variable text_of_markup : string → string.
Variables dropdownBtn dropdownContent : nat.
Variable loaded : string.
Variable globalAnimationSpeed : float.
Variable parseFloat : float → float.
Variable offsetWidth : Page → nat → float.

(** X26. A click on the dropdown button flips ['show'] on the container and
    ['animating'] on the content.  Closing the menu afterwards, by a click
    on a link or by a click outside it, takes ['show'] off the container
    but leaves ['animating'] on the content as the button left it: the
    ['stop'] call goes to the container, another element.  A click on a
    link also copies the text of the link to the button. *)
Theorem dropdown_closing_misses_content (p : Page) (d link : nat) :
  present p d → present p dropdownBtn → present p dropdownContent → present p link →
  d ≠ dropdownContent →
  ∃ p1 p2 p3 text,
    dropdown_button_click (Some d) dropdownContent loaded globalAnimationSpeed
                          parseFloat offsetWidth p
    = Returned () p1
    ∧ has_class (world p1) d "show" = negb (has_class (world p) d "show")
    ∧ has_class (world p1) dropdownContent "animating"
      = negb (has_class (world p) dropdownContent "animating")
    ∧ dropdown_link_click text_of_markup (Some d) dropdownBtn link p1 = Returned () p2
    ∧ has_class (world p2) d "show" = false
    ∧ has_class (world p2) dropdownContent "animating"
      = has_class (world p1) dropdownContent "animating"
    ∧ textContent_get text_of_markup (Some link) p = Returned text p
    ∧ content p2 !! dropdownBtn = Some (Plain text)
    ∧ document_click (Some d) None p1 = Returned () p3
    ∧ has_class (world p3) d "show" = false
    ∧ has_class (world p3) dropdownContent "animating"
      = has_class (world p1) dropdownContent "animating".
Proof.
  intros Hd Hbtn Hcontent Hlink Hne.
  destruct (toggle_class_run p d "show" Hd) as (w1 & R1 & C1 & D1 & H1).
  assert (Hc1 : present (with_world w1 p) dropdownContent) by (apply D1, Hcontent).
  destruct (manage_toggle_page (with_world w1 p) dropdownContent Hc1)
    as (r & w2 & R2 & C2 & D2 & H2).
  cbn [world with_world] in *.
  pose (p1 := with_world w2 (with_world w1 p)).
  assert (Hpres : ∀ x, present p x → present p1 x) by (intros x Hx; apply D2, D1, Hx).
  destruct (close_menu_run p1 d (Hpres d Hd)) as (w3 & R3 & C3 & D3 & H3).
  pose (text := match content p !! link with
                | Some (Plain text) => text
                | Some (Markup html) => text_of_markup html
                | None => ""
                end).
  pose (p1' := {| world := world p1; content := <[dropdownBtn := Plain text]> (content p1);
                  value := value p1; disabled := disabled p1 |}).
  destruct (close_menu_run p1' d (Hpres d Hd)) as (w4 & R4 & C4 & D4 & H4).
  exists p1, (with_world w4 p1'), (with_world w3 p1), text.
  assert (Hshow : has_class w2 d "show" = negb (has_class (world p) d "show")).
  { rewrite H2. case_decide as Hx; [destruct Hx; congruence |].
    rewrite H1. settle_classes. }
  assert (Hanim : has_class w2 dropdownContent "animating"
                  = negb (has_class (world p) dropdownContent "animating")).
  { rewrite H2. case_decide as Hx; [| tauto]. rewrite H1. settle_classes. }
  split.
  { unfold dropdown_button_click. run_bind. rewrite R1.
    rewrite (element_of_run _ dropdownContent false "offsetWidth") by exact Hc1.
    unfold read at 1. rewrite R2. reflexivity. }
  split; [exact Hshow |]. split; [exact Hanim |].
  split.
  { unfold dropdown_link_click, textContent_get. run_bind.
    rewrite (element_of_run p1 link false "textContent" (Hpres link Hlink)).
    unfold read at 1. change (content p1) with (content p). fold text.
    rewrite (textContent_set_run p1 dropdownBtn text (Hpres _ Hbtn)). fold p1'.
    revert R4. run_bind. intros R4.
    destruct (remove_class (Some d) "show" p1') as [u q | err q]; [| discriminate].
    destruct (manage (Some d) "stop" q) as [u' q' | err q']; [| discriminate].
    exact R4. }
  split; [cbn; rewrite H4; settle_classes |].
  split; [cbn; rewrite H4; settle_classes |].
  split.
  { unfold textContent_get. run_bind.
    rewrite (element_of_run p link false "textContent" Hlink). reflexivity. }
  split; [cbn; apply lookup_insert_eq |].
  split; [cbn [document_click]; exact R3 |].
  split; cbn; rewrite H3; settle_classes.
Qed.

End Menu.

Lemma dropdown_closing_misses_content_witness :
  ∃ p1 p2 p3 text,
    dropdown_button_click (Some 40) 42 "2026-01-01T00:00:00.000Z" 1%float
                          parseFloat_whole flat_layout menu_page
    = Returned () p1
    ∧ has_class (world p1) 40 "show" = negb (has_class (world menu_page) 40 "show")
    ∧ has_class (world p1) 42 "animating"
      = negb (has_class (world menu_page) 42 "animating")
    ∧ dropdown_link_click markup_as_text (Some 40) 41 43 p1 = Returned () p2
    ∧ has_class (world p2) 40 "show" = false
    ∧ has_class (world p2) 42 "animating" = has_class (world p1) 42 "animating"
    ∧ textContent_get markup_as_text (Some 43) menu_page = Returned text menu_page
    ∧ content p2 !! 41 = Some (Plain text)
    ∧ document_click (Some 40) None p1 = Returned () p3
    ∧ has_class (world p3) 40 "show" = false
    ∧ has_class (world p3) 42 "animating" = has_class (world p1) 42 "animating".
Proof.
  apply (dropdown_closing_misses_content markup_as_text 41 42
           "2026-01-01T00:00:00.000Z" 1%float parseFloat_whole flat_layout
           menu_page 40 43).
  - eexists. reflexivity.
  - eexists. reflexivity.
  - eexists. reflexivity.
  - eexists. reflexivity.
  - discriminate.
Defined.

End DropdownFacts.
